(** * geofileops: batch planner, column projector, operation engine, Lang simplifier

    A shallow embedding of
      - [geofileops/util/_geoops_sql.py]: [_prepare_processing_params],
        [format_column_strings], [_single_layer_vector_operation] and
        [_two_layer_vector_operation];
      - [geofileops/util/vector_util/geometry.py]: [simplify_coords_lang],
        [simplify_coords_lang_idx], [makevalid] and [remove_inner_rings];
      - [geofileops/util/vector_util/geodataframe.py]:
        [extract_polygons_from_gdf];
      - [geofileops/geofile.py]: the helpers the operations call, and
        [getlayerinfo], [has_spatial_index], [remove_spatial_index],
        [add_column], [remove], [get_driver] and [is_geofile].

    Python integers are [Z]; strings are [string]; a [pathlib.Path] is the
    list of its components; a [dict] whose iteration order matters is an
    association list in insertion order; the file system is a finite map from
    paths to nodes; the coordinates of the simplifier are binary64 floats. *)

From Stdlib Require Import ZArith QArith Lia Lqa Bool List Ascii String Floats.
From stdpp Require Import base option list strings gmap pretty sorting.

Open Scope Z_scope.

(** ** Numbers as Python and numpy have them *)

(** Python's [float] and numpy's [float64] are binary64.  A value is held
    as the rational it stands for, and an operation is the exact operation
    followed by the rounding to the nearest number of 53 significant bits,
    ties to the even one.  The exponent is not bounded: the planner divides
    numbers of rows and rowids, which are far from the 1.8e308 beyond which
    Python raises [OverflowError]. *)
Module Binary64.

(** The integer nearest to [a / b], ties to the even one. *)
Definition nearest (a b : Z) : Z :=
  let a' := if b <? 0 then - a else a in
  let b' := Z.abs b in
  let q := a' / b' in
  let r := a' mod b' in
  if 2 * r <? b' then q
  else if b' <? 2 * r then q + 1
  else if Z.even q then q else q + 1.

(** [a / b] over [2 ^ e], as a quotient of two integers. *)
Definition scale (a b e : Z) : Z * Z :=
  if 0 <=? e then (a, b * 2 ^ e) else (a * 2 ^ (- e), b).

(** The exponent of the last bit of the significand of [a / b], for
    positive [a] and [b]: the [e] with [2^52 <= (a / b) / 2^e < 2^53]. *)
Definition exponent (a b : Z) : Z :=
  let e0 := Z.log2 a - Z.log2 b - 52 in
  if fst (scale a b e0) <? 2 ^ 52 * snd (scale a b e0) then e0 - 1 else e0.

(** [a / b] rounded, for positive [a] and [b]. *)
Definition round_pos (a b : Z) : Q :=
  let e := exponent a b in
  let significand := nearest (fst (scale a b e)) (snd (scale a b e)) in
  if (0 <=? e)%Z then inject_Z (significand * 2 ^ e)%Z
  else significand # Z.to_pos (2 ^ (- e))%Z.

(** The binary64 number nearest to a rational. *)
Definition round (q : Q) : Q :=
  match (Qnum q ?= 0)%Z with
  | Eq => 0
  | Gt => round_pos (Qnum q) (Zpos (Qden q))
  | Lt => - round_pos (- Qnum q) (Zpos (Qden q))
  end.

(** [float(n)] of an integer, also numpy's conversion of an [int64] *)
Definition float_of_int (n : Z) : Q := round (inject_Z n).

(** [x / y] of two floats, [y] not zero *)
Definition truediv (x y : Q) : Q := round (x / y).

(** [a / b] of two Python integers, [b] not zero: the quotient itself is
    rounded, not the two integers. *)
Definition int_truediv (a b : Z) : Q := round (inject_Z a / inject_Z b).

(** [int(x)]: truncation toward zero *)
Definition int_of (x : Q) : Z := Z.quot (Qnum x) (Zpos (Qden x)).

(** [round(x)]: the nearest integer, ties to the even one *)
Definition round_of (x : Q) : Z := nearest (Qnum x) (Zpos (Qden x)).

(** [x < y] *)
Definition ltb (x y : Q) : bool := negb (Qle_bool y x).

(** The rational a finite binary64 number of the machine stands for. *)
Definition of_float (f : PrimFloat.float) : option Q :=
  match Prim2SF f with
  | S754_zero _ => Some 0%Q
  | S754_finite negative m e =>
      let v := if (0 <=? e)%Z then inject_Z (Zpos m * 2 ^ e)%Z
               else (Zpos m # Z.to_pos (2 ^ (- e)))%Q in
      Some (if negative then (- v)%Q else v)
  | _ => None
  end.

(** Whether the model and the machine give the same number. *)
Definition same_number (x : Q) (f : PrimFloat.float) : bool :=
  match of_float f with
  | Some v => Qeq_bool x v
  | None => false
  end.

End Binary64.

Module Np.

(** An [int64]: the integer taken modulo [2^64] into [-2^63, 2^63), as
    numpy's arithmetic on [int64] scalars does. *)
Definition int64 (n : Z) : Z := (n + 2 ^ 63) mod 2 ^ 64 - 2 ^ 63.

End Np.

Module Py.

(** [int(a / b)] of two integers: true division, then truncation toward
    zero. *)
Definition int_div (a b : Z) : Z := Binary64.int_of (Binary64.int_truediv a b).

(** [round(a / b)] of two integers: true division, then rounding to the
    nearest integer, ties to the even one (Python 3 [round]). *)
Definition round_div (a b : Z) : Z := Binary64.round_of (Binary64.int_truediv a b).

(** [range(n)] *)
Definition range (n : Z) : list Z := Z.of_nat <$> seq 0 (Z.to_nat n).

(** [str.upper] and [str.lower] on the ASCII letters. *)
Definition upper_ascii (c : Ascii.ascii) : Ascii.ascii :=
  let n := Ascii.nat_of_ascii c in
  if ((97 <=? n) && (n <=? 122))%nat then Ascii.ascii_of_nat (n - 32) else c.

Definition lower_ascii (c : Ascii.ascii) : Ascii.ascii :=
  let n := Ascii.nat_of_ascii c in
  if ((65 <=? n) && (n <=? 90))%nat then Ascii.ascii_of_nat (n + 32) else c.

Fixpoint upper (s : string) : string :=
  match s with
  | EmptyString => EmptyString
  | String c s' => String (upper_ascii c) (upper s')
  end.

Fixpoint lower (s : string) : string :=
  match s with
  | EmptyString => EmptyString
  | String c s' => String (lower_ascii c) (lower s')
  end.

(** The line break and the indentation of a statement written over
    several lines. *)
Definition newline : string := String (ascii_of_nat 10) EmptyString.

Fixpoint spaces (n : nat) : string :=
  match n with
  | O => EmptyString
  | S n' => String " "%char (spaces n')
  end.

(** [sep.join(l)] *)
Fixpoint join (sep : string) (l : list string) : string :=
  match l with
  | [] => ""
  | [x] => x
  | x :: rest => x +:+ sep +:+ join sep rest
  end.

(** [d[k] = v] on a dict kept in insertion order: an existing key keeps its
    place, a new key goes last. *)
Fixpoint dict_set {V : Type} (k : Z) (v : V) (d : list (Z * V)) : list (Z * V) :=
  match d with
  | [] => [(k, v)]
  | (k', v') :: rest =>
      if Z.eqb k' k then (k, v) :: rest else (k', v') :: dict_set k v rest
  end.

Definition dict_get {V : Type} (k : Z) (d : list (Z * V)) : option V :=
  snd <$> List.find (fun kv => Z.eqb (fst kv) k) d.

End Py.

(** ** Paths

    A [pathlib.Path] is the list of its components, outermost first. *)

Abbreviation Path := (list string).

Module PathOps.

(** [p / name] *)
Definition join (p : Path) (name : string) : Path := p ++ [name].

(** [p.name] *)
Definition name (p : Path) : string := List.last p ""%string.

(** [p.parent] *)
Definition parent (p : Path) : Path := removelast p.

(** Index of the last ["."] of a file name, if any. *)
Fixpoint rfind_dot (cs : list Ascii.ascii) (i : nat) (found : option nat) : option nat :=
  match cs with
  | [] => found
  | c :: rest =>
      rfind_dot rest (S i) (if Ascii.eqb c "."%char then Some i else found)
  end.

(** [(p.stem, p.suffix)]: the name is split at its last dot, unless that dot
    is the first or the last character. *)
Definition split_name (n : string) : string * string :=
  let cs := list_ascii_of_string n in
  match rfind_dot cs 0 None with
  | Some i =>
      if ((0 <? i) && (i <? length cs - 1))%nat
      then (string_of_list_ascii (take i cs), string_of_list_ascii (drop i cs))
      else (n, ""%string)
  | None => (n, ""%string)
  end.

Definition stem (p : Path) : string := fst (split_name (name p)).
Definition suffix (p : Path) : string := snd (split_name (name p)).

(** The path itself and every directory above it, as [mkdir(parents=True)]
    walks them. *)
Definition ancestors_or_self (p : Path) : list Path :=
  (fun n => take n p) <$> seq 1 (length p).

End PathOps.

(** ** The world: file containers, log, engine trace *)

(** A layer of a file container.  [rowids] are the row identifiers of its
    features, in storage order; the feature count is their number. *)
Record Layer := mkLayer {
  layer_name : string;
  layer_geometrycolumn : string;
  layer_columns : list string;
  layer_crs : string;
  layer_rowids : list Z;
  layer_spatial_index : bool
}.

(** [geofile.LayerInfo] *)
Module LayerInfo.
Record t := mk {
  name : string;
  featurecount : Z;
  geometrycolumn : string;
  columns : list string;
  crs : string
}.
End LayerInfo.

Inductive Node :=
| Dir
| File (layers : list Layer).

#[global] Instance Layer_eq_dec : EqDecision Layer.
Proof. solve_decision. Defined.

#[global] Instance Node_eq_dec : EqDecision Node.
Proof. solve_decision. Defined.

(** What the relational engine was asked to do. *)
Inductive EngineCall :=
| QueryMinMaxRowid (path : Path) (layer : string)
| QueryNtile (path : Path) (layer : string) (nb_batches : Z)
| ExecuteStatement (path : Path) (sql_stmt : string).

(** A batch of the planner: [batches[id]] with its keys ['layer'], ['path']
    and ['batch_filter'].  The filter is kept structured; [RowFilter.render]
    gives the text the source builds. *)
Inductive RowFilter :=
| NoFilter
| Between (alias_d : string) (start_rowid end_rowid : Z)
| AtLeast (alias_d : string) (start_rowid : Z).

Record Batch := mkBatch {
  batch_layer : string;
  batch_path : Path;
  batch_filter : RowFilter
}.

(** [batches[batch_id]] of the operations: the output layer, the partial
    output path and the statement of one batch. *)
Record JobInfo := mkJobInfo {
  job_layer : string;
  job_tmp_partial_output_path : Path;
  job_sql_stmt : string
}.

Inductive Exception :=
| InputPathMissing (operation_name argument : string) (p : Path)
| OgrNeedsSameInput (operation_name : string)
| CannotOpen (p : Path)
| IsADirectory (p : Path)
| FileExists (p : Path)
| NoLayers (p : Path)
| MoreThanOneLayer (p : Path) (layers : list string)
| LayerNotFound (p : Path) (layer : string)
| RuntimeDependenciesMissing
| UnsupportedExtension (suffix : string)
| ColumnsNotAvailable (missing_columns columns_available : list string)
| ZeroDivisionError
| NtileArgumentNotPositive (nb_batches : Z)
| MaxWorkersNotPositive (max_workers : Z)
| AssertionError
| WorkerError (reason : string)
| ErrorExecuting (batch : JobInfo) (cause : Exception).

Inductive LogLine :=
| LogInfo (msg : string)
| LogDebug (msg : string)
| LogWarning (msg : string)
| LogException (msg : string)
| Progress (nb_done nb_todo : Z) (operation_name : string).

Record World := mkWorld {
  fs : gmap Path Node;
  cpu_count : Z;
  spatialite_available : bool;
  log : list LogLine;
  engine : list EngineCall
}.

(** Every path that exists lies in directories that exist. *)
Definition proper_ancestors (p : Path) : list Path :=
  (fun n => take n p) <$> seq 1 (length p - 1).

Definition tree (m : gmap Path Node) : Prop :=
  map_Forall (fun p _ => Forall (fun q => m !! q = Some Dir) (proper_ancestors p)) m.

#[global] Instance tree_dec (m : gmap Path Node) : Decision (tree m).
Proof. unfold tree. apply _. Defined.

(** ** State and exceptions *)

Inductive Outcome (A : Type) :=
| Returned (a : A)
| Raised (e : Exception).
Arguments Returned {A} a.
Arguments Raised {A} e.

Definition M (A : Type) : Type := World -> Outcome A * World.

#[global] Instance M_ret : MRet M := fun A a w => (Returned a, w).

#[global] Instance M_bind : MBind M := fun A B f m w =>
  match m w with
  | (Returned a, w') => f a w'
  | (Raised e, w') => (Raised e, w')
  end.

Definition raise {A : Type} (e : Exception) : M A := fun w => (Raised e, w).

Definition get_world : M World := fun w => (Returned w, w).

Definition modify (f : World -> World) : M unit := fun w => (Returned tt, f w).

(** [try: body finally: cleanup] *)
Definition try_finally {A : Type} (body : M A) (cleanup : M unit) : M A := fun w =>
  let '(r, w1) := body w in
  match cleanup w1 with
  | (Returned _, w2) => (r, w2)
  | (Raised e, w2) => (Raised e, w2)
  end.

(** [try: body except Exception: handler; raise] *)
Definition try_except_reraise {A : Type} (body : M A) (handler : M unit) : M A := fun w =>
  match body w with
  | (Returned a, w1) => (Returned a, w1)
  | (Raised e, w1) =>
      match handler w1 with
      | (Returned _, w2) => (Raised e, w2)
      | (Raised e', w2) => (Raised e', w2)
      end
  end.

(** [try: body except Exception as ex: raise wrap(ex)] *)
Definition try_except_wrap {A : Type} (body : M A) (wrap : Exception -> M A) : M A := fun w =>
  match body w with
  | (Returned a, w1) => (Returned a, w1)
  | (Raised e, w1) => wrap e w1
  end.

(** [for x in l: body x] *)
Fixpoint for_each {A : Type} (l : list A) (body : A -> M unit) : M unit :=
  match l with
  | [] => mret tt
  | x :: rest => _ ← body x; for_each rest body
  end.

(** [for x in l: body nb_done x; nb_done += 1] *)
Fixpoint for_each_counting {A : Type} (l : list A) (nb_done : Z)
    (body : Z -> A -> M unit) : M unit :=
  match l with
  | [] => mret tt
  | x :: rest => _ ← body nb_done x; for_each_counting rest (nb_done + 1) body
  end.

Definition set_fs (f : gmap Path Node -> gmap Path Node) (w : World) : World :=
  mkWorld (f (fs w)) (cpu_count w) (spatialite_available w) (log w) (engine w).

Definition logged (l : LogLine) (w : World) : World :=
  mkWorld (fs w) (cpu_count w) (spatialite_available w) (log w ++ [l]) (engine w).

Definition logger (l : LogLine) : M unit := modify (logged l).

Definition called (c : EngineCall) (w : World) : World :=
  mkWorld (fs w) (cpu_count w) (spatialite_available w) (log w) (engine w ++ [c]).

Definition engine_call (c : EngineCall) : M unit := modify (called c).

(** ** File helpers

    What the operations call as [gfo.*], on [pathlib.Path], from [shutil]
    and from [io_util].  Where geofile.py has the function (under the name
    [getlayerinfo] for [gfo.get_layerinfo]) it is followed; the side files
    of a shapefile are not modelled, a container is one node. *)

Module Gfo.

Definition path_exists (w : World) (p : Path) : bool :=
  bool_decide (is_Some (fs w !! p)).

(** [p.exists()] *)
Definition exists_ (p : Path) : M bool :=
  w ← get_world; mret (path_exists w p).

(** [fiona.listlayers(path)] *)
Definition listlayers (p : Path) : M (list string) := fun w =>
  match fs w !! p with
  | Some (File layers) => (Returned (layer_name <$> layers), w)
  | _ => (Raised (CannotOpen p), w)
  end.

(** [get_only_layer], geofile.py lines 112-135 *)
Definition get_only_layer (p : Path) : M string :=
  layers ← listlayers p;
  match layers with
  | [l] => mret l
  | [] => raise (NoLayers p)
  | _ => raise (MoreThanOneLayer p layers)
  end.

(** [get_default_layer], geofile.py lines 137-138 *)
Definition get_default_layer (p : Path) : string := PathOps.stem p.

Definition find_layer (layers : list Layer) (layer : string) : option Layer :=
  List.find (fun l => String.eqb (layer_name l) layer) layers.

Definition layerinfo_of (l : Layer) : LayerInfo.t :=
  LayerInfo.mk (layer_name l) (Z.of_nat (length (layer_rowids l)))
    (if String.eqb (layer_geometrycolumn l) "" then "geometry" else layer_geometrycolumn l)
    (layer_columns l) (layer_crs l).

Definition read_layer (p : Path) (layer : string) : M Layer := fun w =>
  match fs w !! p with
  | Some (File layers) =>
      match find_layer layers layer with
      | Some l => (Returned l, w)
      | None => (Raised (LayerNotFound p layer), w)
      end
  | _ => (Raised (CannotOpen p), w)
  end.

(** [getlayerinfo], geofile.py lines 67-110, with the layer given *)
Definition get_layerinfo (p : Path) (layer : string) : M LayerInfo.t :=
  l ← read_layer p layer; mret (layerinfo_of l).

(** Modelled from the spec: [gfo.remove] of [geofileops.fileops], which is
    not part of the sources (the [remove] of geofile.py unlinks without
    looking).  The operations call it on paths that do not exist yet
    (line 1349), so a missing path is left alone; an existing file is
    discarded; the side files of a shapefile are not modelled. *)
Definition remove (p : Path) : M unit := fun w =>
  match fs w !! p with
  | None => (Returned tt, w)
  | Some (File _) => (Returned tt, set_fs (delete p) w)
  | Some Dir => (Raised (IsADirectory p), w)
  end.

(** [move], geofile.py lines 442-472 ([shutil.move]): into [dst] when that
    is an existing directory, onto [dst] otherwise. *)
Definition move (src dst : Path) : M unit := fun w =>
  match fs w !! src with
  | None => (Raised (CannotOpen src), w)
  | Some n =>
      let target :=
        match fs w !! dst with
        | Some Dir => PathOps.join dst (PathOps.name src)
        | _ => dst
        end in
      (Returned tt, set_fs (fun m => <[target := n]> (delete src m)) w)
  end.

(** The directories [p.mkdir(parents=True, exist_ok=True)] leaves behind:
    [p] and every directory above it that was not there. *)
Definition make_dirs (p : Path) (m : gmap Path Node) : gmap Path Node :=
  foldr (fun d acc => match acc !! d with Some _ => acc | None => <[d := Dir]> acc end)
    m (PathOps.ancestors_or_self p).

(** [p.mkdir(parents=True, exist_ok=True)] *)
Definition mkdir_parents (p : Path) : M unit := fun w =>
  match fs w !! p with
  | Some (File _) => (Raised (FileExists p), w)
  | _ => (Returned tt, set_fs (make_dirs p) w)
  end.

(** [shutil.rmtree(tempdir)] *)
Definition rmtree (d : Path) : M unit := fun w =>
  match fs w !! d with
  | Some Dir =>
      (Returned tt, set_fs (filter (fun kv => ¬ d `prefix_of` kv.1)) w)
  | _ => (Raised (CannotOpen d), w)
  end.

(** Modelled from the spec: [io_util.create_tempdir], not part of the
    sources: "the working directory is a scoped resource — created at
    operation start".  A directory that does not exist yet is made below
    the system's temporary directory, numbered from 1. *)
Definition tempdir_candidate (base_dirname : string) (i : nat) : Path :=
  ["tmp"; "geofileops"; base_dirname +:+ "_" +:+ pretty (Z.of_nat i)]%string.

Definition create_tempdir (base_dirname : string) : M Path :=
  w ← get_world;
  match List.find (fun i => negb (path_exists w (tempdir_candidate base_dirname i)))
          (seq 1 (S (size (fs w)))) with
  | Some i =>
      _ ← mkdir_parents (tempdir_candidate base_dirname i);
      mret (tempdir_candidate base_dirname i)
  | None => raise (FileExists (tempdir_candidate base_dirname 0))
  end.

(** Modelled from the spec: [gfo.convert], not part of the sources: a source
    "is normalized into a format the relational engine can query directly".
    The layer is copied into a new container at [dst] under [dst_layer]. *)
Definition convert (src : Path) (src_layer : string) (dst : Path) (dst_layer : string)
  : M unit :=
  l ← read_layer src src_layer;
  modify (set_fs (fun m =>
    <[dst := File [mkLayer dst_layer (layer_geometrycolumn l) (layer_columns l)
                     (layer_crs l) (layer_rowids l) false]]> m)).

(** Modelled from the spec: [gfo.append_to], not part of the sources: "append
    its rows into the shared uncommitted output".  The container at [dst]
    is created from the first appended layer. *)
Definition append_to (src dst : Path) : M unit := fun w =>
  match fs w !! src with
  | Some (File (l :: _)) =>
      match fs w !! dst with
      | Some (File (d :: others)) =>
          (Returned tt,
           set_fs (fun m =>
             <[dst := File (mkLayer (layer_name d) (layer_geometrycolumn d)
                              (layer_columns d) (layer_crs d)
                              (layer_rowids d ++ layer_rowids l)
                              (layer_spatial_index d) :: others)]> m) w)
      | Some Dir => (Raised (IsADirectory dst), w)
      | _ => (Returned tt, set_fs (fun m => <[dst := File [l]]> m) w)
      end
  | _ => (Raised (CannotOpen src), w)
  end.

(** [create_spatial_index], geofile.py lines 164-179: the layer is looked
    up first, then the index is made. *)
Definition create_spatial_index (p : Path) (layer : string) : M unit :=
  _ ← get_layerinfo p layer;
  modify (set_fs (fun m =>
    match m !! p with
    | Some (File layers) =>
        <[p := File ((fun l =>
                if String.eqb (layer_name l) layer
                then mkLayer (layer_name l) (layer_geometrycolumn l) (layer_columns l)
                       (layer_crs l) (layer_rowids l) true
                else l) <$> layers)]> m
    | _ => m
    end)).

(** [sqlite_util.check_runtimedependencies()] *)
Definition check_runtimedependencies : M unit := fun w =>
  if spatialite_available w then (Returned tt, w)
  else (Raised RuntimeDependenciesMissing, w).

End Gfo.

(** ** Row filters *)

Module RowFilter.

(** The text of [batches[id]['batch_filter']], lines 1652 and 1712-1717. *)
Definition render (f : RowFilter) : string :=
  match f with
  | NoFilter => ""
  | Between a s e =>
      "AND (" +:+ a +:+ "rowid >= " +:+ pretty s +:+ " AND "
              +:+ a +:+ "rowid <= " +:+ pretty e +:+ ") "
  | AtLeast a s => "AND " +:+ a +:+ "rowid >= " +:+ pretty s +:+ " "
  end.

(** Whether a row passes the filter, in a statement that ends in
    [WHERE 1=1 {batch_filter}]. *)
Definition matches (f : RowFilter) (rowid : Z) : bool :=
  match f with
  | NoFilter => true
  | Between _ s e => (s <=? rowid) && (rowid <=? e)
  | AtLeast _ s => s <=? rowid
  end.

Definition unbounded_above (f : RowFilter) : bool :=
  match f with
  | Between _ _ _ => false
  | _ => true
  end.

End RowFilter.

(** ** The relational engine: the two queries of the planner

    [read_file_sql] hands a statement to SQLite.  The planner sends two:
    [SELECT MIN(rowid), MAX(rowid)] and the [NTILE] grouping of lines
    1686-1696; they are evaluated here as SQLite defines them. *)

(** A row of [batch_info_df]. *)
Module BatchInfo.
Record t := mk {
  id : Z;
  nb_rows : Z;
  start_rowid : Z;
  end_rowid : Z
}.
End BatchInfo.

Module Engine.

(** [MIN(rowid), MAX(rowid)]; NULL on an empty table. *)
Definition min_max_rowid (rowids : list Z) : option (Z * Z) :=
  match rowids with
  | [] => None
  | r :: rest => Some (foldr Z.min r rest, foldr Z.max r rest)
  end.

(** [NTILE(nb)] sizes over [n] ordered rows: groups as even as possible,
    the larger ones first. *)
Definition ntile_sizes (nb n : nat) : list nat :=
  (fun i => (n / nb + (if i <? n mod nb then 1 else 0))%nat) <$> seq 0 nb.

(** [GROUP BY batch_id] over the ordered rows: one result row per group
    that has members, numbered from [batch_id] on. *)
Fixpoint ntile_groups (batch_id : Z) (sizes : list nat) (ordered : list Z)
  : list BatchInfo.t :=
  match sizes with
  | [] => []
  | k :: rest =>
      match take k ordered with
      | [] => ntile_groups (batch_id + 1) rest (drop k ordered)
      | r :: g =>
          BatchInfo.mk batch_id (Z.of_nat (length (r :: g)))
            (foldr Z.min r g) (foldr Z.max r g)
          :: ntile_groups (batch_id + 1) rest (drop k ordered)
      end
  end.

Definition ntile (nb_batches : Z) (rowids : list Z) : list BatchInfo.t :=
  ntile_groups 1 (ntile_sizes (Z.to_nat nb_batches) (length rowids))
    (merge_sort Z.le rowids).

Definition query_min_max_rowid (p : Path) (layer : string) : M (option (Z * Z)) :=
  _ ← engine_call (QueryMinMaxRowid p layer);
  l ← Gfo.read_layer p layer;
  mret (min_max_rowid (layer_rowids l)).

Definition query_ntile (p : Path) (layer : string) (nb_batches : Z)
  : M (list BatchInfo.t) :=
  _ ← engine_call (QueryNtile p layer nb_batches);
  l ← Gfo.read_layer p layer;
  if nb_batches <=? 0 then raise (NtileArgumentNotPositive nb_batches)
  else mret (ntile nb_batches (layer_rowids l)).

End Engine.

(** Modelled from the spec: [GeofileType], not part of the sources: sources
    are normalized unless "both already share a query-compatible format".
    The formats are those of [get_driver_for_ext], geofile.py lines 528-540;
    GeoPackage is the one the engine queries directly. *)
Module GeofileType.

Inductive t := ESRIShapefile | GeoJSON | GPKG.

Definition eqb (a b : t) : bool :=
  match a, b with
  | ESRIShapefile, ESRIShapefile | GeoJSON, GeoJSON | GPKG, GPKG => true
  | _, _ => false
  end.

Definition of_path (p : Path) : M t :=
  let ext := Py.lower (PathOps.suffix p) in
  if String.eqb ext ".shp" then mret ESRIShapefile
  else if String.eqb ext ".geojson" then mret GeoJSON
  else if String.eqb ext ".gpkg" then mret GPKG
  else raise (UnsupportedExtension ext).

Definition is_spatialite_based (g : t) : bool :=
  match g with GPKG => true | _ => false end.

End GeofileType.

(** ** The batch planner: [_prepare_processing_params], lines 1547-1724 *)

Module ProcessingParams.
(** [class ProcessingParams], lines 1528-1545, as the planner returns it:
    every attribute is filled in, [batches] is never [None]. *)
Record t := mk {
  input1_path : Path;
  input1_layer : string;
  input1_databasename : string;
  input2_path : option Path;
  input2_layer : option string;
  input2_databasename : string;
  nb_parallel : Z;
  batches : list (Z * Batch)
}.
End ProcessingParams.

Module Planner.

(** Lines 1567-1570: the number of parallel processes. *)
Definition resolved_nb_parallel (cpus featurecount nb_parallel : Z) : Z :=
  if nb_parallel =? -1 then
    let max_parallel := Z.max (Py.int_div featurecount 100) 1 in
    Z.min cpus max_parallel
  else nb_parallel.

(** Lines 1575-1586: the number of batches.  [nb_parallel] is the argument
    of the call, [returnvalue_nb_parallel] the resolved attribute.  Line
    1582 divides two integers, divides the number of rows by that float,
    and truncates. *)
Definition initial_nb_batches
    (featurecount nb_parallel returnvalue_nb_parallel batchsize : Z) : Z :=
  if 1 <? returnvalue_nb_parallel then
    let max_rows_parallel :=
      if 0 <? batchsize then batchsize * nb_parallel else 200000 in
    if max_rows_parallel <? featurecount then
      Binary64.int_of
        (Binary64.truediv (Binary64.float_of_int featurecount)
           (Binary64.int_truediv max_rows_parallel returnvalue_nb_parallel))
    else returnvalue_nb_parallel * 2
  else 1.

(** Lines 1588-1628: the input files to calculate on. *)
Definition prepare_input_files
    (input1_path : Path) (input1_layer : string) (tempdir : Path)
    (convert_to_spatialite_based : bool)
    (input2_path : option Path) (input2_layer : option string)
  : M (Path * option Path) :=
  if negb convert_to_spatialite_based then mret (input1_path, input2_path)
  else
    input1_geofiletype ← GeofileType.of_path input1_path;
    input2_geofiletype ←
      match input2_path with
      | Some p2 => g ← GeofileType.of_path p2; mret (Some g)
      | None => mret None
      end;
    returnvalue_input1_path ←
      (if GeofileType.is_spatialite_based input1_geofiletype
          && match input2_geofiletype with
             | None => true
             | Some g2 => GeofileType.eqb input1_geofiletype g2
             end
       then mret input1_path
       else
         let dst := PathOps.join tempdir (PathOps.stem input1_path +:+ ".gpkg") in
         _ ← Gfo.convert input1_path input1_layer dst input1_layer;
         mret dst);
    returnvalue_input2_path ←
      match input2_path, input2_geofiletype with
      | Some p2, Some g2 =>
          if GeofileType.eqb g2 input1_geofiletype
             && GeofileType.is_spatialite_based g2
          then mret (Some p2)
          else
            let dst := PathOps.join tempdir (PathOps.stem p2 +:+ ".gpkg") in
            layer2 ← match input2_layer with
                     | Some l => mret l
                     | None => Gfo.get_only_layer p2
                     end;
            _ ← Gfo.convert p2 layer2 dst layer2;
            mret (Some dst)
      | _, _ => mret None
      end;
    mret (returnvalue_input1_path, returnvalue_input2_path).

(** Lines 1643-1644. *)
Definition clamp_nb_batches (nb_rows_input_layer nb_batches : Z) : Z :=
  if Py.int_div nb_rows_input_layer 10 <? nb_batches
  then Z.max (Py.int_div nb_rows_input_layer 10) 1
  else nb_batches.

(** Line 1661: [((max_rowid-min_rowid) / nb_rows_input_layer) < 1.1].
    [pd.to_numeric] hands out [int64] scalars: their difference wraps, and
    dividing it by the number of rows is a division of two [float64].  On
    no rows numpy divides by zero without raising: the quotient of a
    negative difference is [-inf], below 1.1, any other is [inf] or
    [nan]. *)
Definition rowids_quite_consecutive
    (min_rowid max_rowid nb_rows_input_layer : Z) : bool :=
  let difference := Np.int64 (max_rowid - min_rowid) in
  if nb_rows_input_layer =? 0 then difference <? 0
  else
    Binary64.ltb
      (Binary64.truediv (Binary64.float_of_int difference)
         (Binary64.float_of_int nb_rows_input_layer))
      (Binary64.round (11 # 10)).

(** Lines 1668-1679: the loop over [range(nb_batches)], [offset] carried
    along. *)
Fixpoint dense_batch_info
    (ids : list Z) (nb_batches nb_rows_per_batch offset offset_per_batch max_rowid : Z)
  : list BatchInfo.t :=
  match ids with
  | [] => []
  | batch_id :: rest =>
      let start_rowid := offset in
      let end_rowid :=
        if batch_id <? nb_batches - 1
        then offset + offset_per_batch - 1
        else max_rowid in
      BatchInfo.mk batch_id nb_rows_per_batch start_rowid end_rowid
      :: dense_batch_info rest nb_batches nb_rows_per_batch
           (offset + offset_per_batch) offset_per_batch max_rowid
  end.

(** Lines 1664-1681: the fast distribution for rowids that are quite
    consecutive.  [round(nb_rows_input_layer/nb_batches)] divides two
    Python ints and raises on a zero divisor;
    [round((max_rowid-min_rowid)/nb_batches)] divides the [int64]
    difference, as a [float64], by the number of batches. *)
Definition dense_batches
    (nb_rows_input_layer nb_batches min_rowid max_rowid : Z)
  : M (list BatchInfo.t) :=
  if nb_batches =? 0 then raise ZeroDivisionError
  else
    let nb_rows_per_batch := Py.round_div nb_rows_input_layer nb_batches in
    let offset_per_batch :=
      Binary64.round_of
        (Binary64.truediv (Binary64.float_of_int (Np.int64 (max_rowid - min_rowid)))
           (Binary64.float_of_int nb_batches)) in
    mret (dense_batch_info (Py.range nb_batches) nb_batches nb_rows_per_batch
            0 offset_per_batch max_rowid).

(** Lines 1712-1717. *)
Definition filter_of (layer_alias_d : string) (nb_batches : Z) (batch_info : BatchInfo.t)
  : RowFilter :=
  if BatchInfo.id batch_info <? nb_batches
  then Between layer_alias_d (BatchInfo.start_rowid batch_info)
         (BatchInfo.end_rowid batch_info)
  else AtLeast layer_alias_d (BatchInfo.start_rowid batch_info).

(** Lines 1704-1717: the loop over [batch_info_df.itertuples()]. *)
Definition fill_batches
    (layer : string) (path : Path) (layer_alias_d : string) (nb_batches : Z)
    (batch_info_df : list BatchInfo.t) : list (Z * Batch) :=
  foldl (fun batches batch_info =>
           Py.dict_set (BatchInfo.id batch_info)
             (mkBatch layer path (filter_of layer_alias_d nb_batches batch_info))
             batches)
        [] batch_info_df.

(** Lines 1699-1702: the layer alias to use in the batch filter. *)
Definition layer_alias_d (input1_layer_alias : option string) : string :=
  match input1_layer_alias with
  | Some a => a +:+ "."
  | None => ""
  end.

(** Lines 1646-1717. *)
Definition prepare_batches
    (path : Path) (layer : string) (layer1_info : LayerInfo.t)
    (input1_layer_alias : option string) (nb_batches : Z)
  : M (list (Z * Batch)) :=
  if nb_batches =? 1 then mret [(0, mkBatch layer path NoFilter)]
  else
    min_max ← Engine.query_min_max_rowid path (LayerInfo.name layer1_info);
    batch_info_df ←
      match min_max with
      | Some (min_rowid, max_rowid) =>
          if rowids_quite_consecutive min_rowid max_rowid
               (LayerInfo.featurecount layer1_info)
          then dense_batches (LayerInfo.featurecount layer1_info) nb_batches
                 min_rowid max_rowid
          else Engine.query_ntile path (LayerInfo.name layer1_info) nb_batches
      | None =>
          (* the minimum of an empty table is NULL: the comparison is false *)
          Engine.query_ntile path (LayerInfo.name layer1_info) nb_batches
      end;
    mret (fill_batches layer path (layer_alias_d input1_layer_alias) nb_batches
            batch_info_df).

End Planner.

(** The batches whose filter a row passes. *)
Definition batches_matching (rowid : Z) (batches : list (Z * Batch)) : list (Z * Batch) :=
  filter (fun kb => RowFilter.matches (batch_filter kb.2) rowid = true) batches.

(** The rows of a layer are handed out when each of them passes the filter
    of exactly one batch. *)
Definition partitions (batches : list (Z * Batch)) (rowids : list Z) : Prop :=
  forall rowid, rowid ∈ rowids -> length (batches_matching rowid batches) = 1%nat.

Definition _prepare_processing_params
    (input1_path : Path) (input1_layer : string) (tempdir : Path)
    (convert_to_spatialite_based : bool) (nb_parallel batchsize : Z)
    (input1_layer_alias : option string)
    (input2_path : option Path) (input2_layer : option string)
  : M (option ProcessingParams.t) :=
  input1_layerinfo ← Gfo.get_layerinfo input1_path input1_layer;
  if LayerInfo.featurecount input1_layerinfo =? 0 then
    _ ← logger (LogInfo "The input layer doesn't contain any rows.");
    mret None
  else
    w ← get_world;
    let returnvalue_nb_parallel :=
      Planner.resolved_nb_parallel (cpu_count w)
        (LayerInfo.featurecount input1_layerinfo) nb_parallel in
    let nb_batches :=
      Planner.initial_nb_batches (LayerInfo.featurecount input1_layerinfo)
        nb_parallel returnvalue_nb_parallel batchsize in
    '(returnvalue_input1_path, returnvalue_input2_path) ←
      Planner.prepare_input_files input1_path input1_layer tempdir
        convert_to_spatialite_based input2_path input2_layer;
    let returnvalue_input1_databasename := "main"%string in
    let returnvalue_input2_databasename :=
      match input2_path with
      | None => returnvalue_input1_databasename
      | Some p2 =>
          if bool_decide (input1_path = p2) then returnvalue_input1_databasename
          else "input2"%string
      end in
    layer1_info ← Gfo.get_layerinfo returnvalue_input1_path input1_layer;
    let nb_rows_input_layer := LayerInfo.featurecount layer1_info in
    let nb_batches := Planner.clamp_nb_batches nb_rows_input_layer nb_batches in
    batches ← Planner.prepare_batches returnvalue_input1_path input1_layer
                 layer1_info input1_layer_alias nb_batches;
    let returnvalue_nb_parallel :=
      if Z.of_nat (length batches) <? returnvalue_nb_parallel
      then Z.of_nat (length batches) else returnvalue_nb_parallel in
    mret (Some (ProcessingParams.mk returnvalue_input1_path input1_layer
                  returnvalue_input1_databasename returnvalue_input2_path
                  input2_layer returnvalue_input2_databasename
                  returnvalue_nb_parallel batches)).

(** ** The column projector: [format_column_strings], lines 1726-1781 *)

Module FormattedColumnStrings.
Record t := mk {
  columns : string;
  columns_prefix : string;
  columns_prefix_alias : string;
  columns_prefix_alias_null : string;
  columns_from_subselect : string
}.
End FormattedColumnStrings.

(** The double quote of the f-strings. *)
Definition dquote : string := String (ascii_of_nat 34) EmptyString.

Definition quoted (s : string) : string := dquote +:+ s +:+ dquote.

Section ColumnProjector.

(** [str.upper]: any function on strings; [Py.upper] is its ASCII part. *)
Variable upper : string -> string.

(** A requested column that matches no column of the layer, not even with
    the case ignored. *)
Definition matches_no_column (columns_available : list string) (col : string) : Prop :=
  forall a, a ∈ columns_available -> upper a <> upper col.

(** Lines 1743-1744: the requested columns that are not in the layer. *)
Definition missing_columns (columns_specified columns_available : list string)
  : list string :=
  let columns_available_upper := upper <$> columns_available in
  filter (fun col => upper col ∉ columns_available_upper) columns_specified.

(** Lines 1749-1750: the columns to keep, in the casing of the layer. *)
Definition columns_to_keep (columns_specified columns_available : list string)
  : list string :=
  let columns_specified_upper := upper <$> columns_specified in
  filter (fun col => upper col ∈ columns_specified_upper) columns_available.

(** Lines 1754-1781: the five fragments for a list of columns. *)
Definition format_fragments
    (columns : list string) (table_alias columnname_prefix : string)
  : FormattedColumnStrings.t :=
  match columns with
  | [] => FormattedColumnStrings.mk "" "" "" "" ""
  | _ =>
      let table_alias_d :=
        if negb (String.eqb table_alias "") then table_alias +:+ "." else ""%string in
      let columns_quoted := (fun column => quoted column) <$> columns in
      let columns_quoted_str := "," +:+ Py.join ", " columns_quoted in
      let columns_prefix_alias_null :=
        (fun column => "NULL " +:+ quoted (columnname_prefix +:+ column)) <$> columns in
      let columns_prefix_alias_null_str :=
        "," +:+ Py.join ", " columns_prefix_alias_null in
      let columns_prefix :=
        (fun column => table_alias_d +:+ quoted column) <$> columns in
      let columns_prefix_str := "," +:+ Py.join ", " columns_prefix in
      let columns_table_aliased_column_aliased :=
        (fun column => table_alias_d +:+ quoted column +:+ " "
                       +:+ quoted (columnname_prefix +:+ column)) <$> columns in
      let columns_prefix_alias_str :=
        "," +:+ Py.join ", " columns_table_aliased_column_aliased in
      let columns_from_subselect :=
        (fun column => "sub." +:+ quoted (columnname_prefix +:+ column)) <$> columns in
      let columns_from_subselect_str :=
        "," +:+ Py.join ", " columns_from_subselect in
      FormattedColumnStrings.mk columns_quoted_str columns_prefix_str
        columns_prefix_alias_str columns_prefix_alias_null_str
        columns_from_subselect_str
  end.

Definition format_column_strings
    (columns_specified : option (list string)) (columns_available : list string)
    (table_alias columnname_prefix : string)
  : Outcome FormattedColumnStrings.t :=
  match columns_specified with
  | Some columns_specified =>
      match missing_columns columns_specified columns_available with
      | [] =>
          Returned (format_fragments
                      (columns_to_keep columns_specified columns_available)
                      table_alias columnname_prefix)
      | missing => Raised (ColumnsNotAvailable missing columns_available)
      end
  | None => Returned (format_fragments columns_available table_alias columnname_prefix)
  end.

End ColumnProjector.

(** ** The operations: [_single_layer_vector_operation] (lines 363-521) and
    [_two_layer_vector_operation] (lines 1264-1526) *)

(** The named placeholders of a single layer [sql_template], lines 444-448.
    A template is a function from its placeholders to the statement. *)
Module SingleLayerSlots.
Record t := mk {
  geometrycolumn : string;
  columns_to_select_str : string;
  input_layer : string;
  batch_filter : string
}.
End SingleLayerSlots.

(** The named placeholders of a two layer [sql_template], lines 1412-1428. *)
Module TwoLayerSlots.
Record t := mk {
  input1_databasename : string;
  input2_databasename : string;
  layer1_columns_from_subselect_str : string;
  layer1_columns_prefix_alias_str : string;
  layer1_columns_prefix_str : string;
  input1_layer : string;
  input1_tmp_layer : string;
  input1_geometrycolumn : string;
  layer2_columns_from_subselect_str : string;
  layer2_columns_prefix_alias_str : string;
  layer2_columns_prefix_str : string;
  layer2_columns_prefix_alias_null_str : string;
  input2_layer : string;
  input2_tmp_layer : string;
  input2_geometrycolumn : string;
  batch_filter : string
}.
End TwoLayerSlots.

(** What the worker process of a batch does with its statement. *)
Inductive WorkerResult :=
| WorkerRaises (reason : string)
| WorkerWrites (rows : list Z)
| WorkerWritesNothing.

(** [futures.ProcessPoolExecutor(max_workers=n)] *)
Definition process_pool_executor (max_workers : Z) : M unit :=
  if max_workers <=? 0 then raise (MaxWorkersNotPositive max_workers) else mret tt.

(** [general_util.report_progress] *)
Definition report_progress (nb_done nb_todo : Z) (operation_name : string) : M unit :=
  logger (Progress nb_done nb_todo operation_name).

(** [str.replace(' ', '_')] *)
Fixpoint replace_spaces (s : string) : string :=
  match s with
  | EmptyString => EmptyString
  | String c s' =>
      String (if Ascii.eqb c " "%char then "_"%char else c) (replace_spaces s')
  end.

Section Operations.

(** [str.upper] *)
Variable upper : string -> string.

(** The worker processes: what the worker of batch [batch_id] does with the
    statement it is given.  A worker writes its own partial output only, so
    its file appears when the batch is submitted; what it raises is kept in
    its future and comes out of [future.result()]. *)
Variable worker : Z -> string -> WorkerResult.

(** [futures.as_completed]: the order in which the submitted batches finish. *)
Variable as_completed : list Z -> list Z.

(** [calculate_pool.submit(...)]: the statement goes to the engine. *)
Definition submit (batch_id : Z) (input_path : Path) (output_layer : string)
    (tmp_partial_output_path : Path) (sql_stmt : string) : M unit :=
  _ ← engine_call (ExecuteStatement input_path sql_stmt);
  match worker batch_id sql_stmt with
  | WorkerWrites rows =>
      modify (set_fs (fun m =>
        <[tmp_partial_output_path :=
            File [mkLayer output_layer "geom" [] "" rows false]]> m))
  | _ => mret tt
  end.

(** [future.result()] *)
Definition future_result (batch_id : Z) (sql_stmt : string) : M unit :=
  match worker batch_id sql_stmt with
  | WorkerRaises reason => raise (WorkerError reason)
  | _ => mret tt
  end.

(** [p.exists() and p.stat().st_size > 0]: a container with a layer in it. *)
Definition exists_with_content (p : Path) : M bool :=
  w ← get_world;
  mret match fs w !! p with
       | Some (File (_ :: _)) => true
       | _ => false
       end.

(** Lines 433-477: the statement of every batch is built and submitted. *)
Definition single_layer_jobs
    (output_path tempdir : Path) (sql_template : SingleLayerSlots.t -> string)
    (output_layer : string) (filter_null_geoms : bool)
    (input_layerinfo : LayerInfo.t)
    (formatted_column_strings : FormattedColumnStrings.t)
    (processing_params : ProcessingParams.t) : list (Z * JobInfo) :=
  foldl (fun batches '(batch_id, batch) =>
    let tmp_partial_output_path :=
      PathOps.join tempdir
        (PathOps.stem output_path +:+ "_" +:+ pretty batch_id
           +:+ PathOps.suffix output_path) in
    let sql_stmt :=
      sql_template (SingleLayerSlots.mk
        (LayerInfo.geometrycolumn input_layerinfo)
        (FormattedColumnStrings.columns formatted_column_strings)
        (batch_layer batch)
        (RowFilter.render (batch_filter batch))) in
    let sql_stmt :=
      if filter_null_geoms
      then Py.newline +:+ Py.spaces 28 +:+ "SELECT sub.*"
             +:+ Py.newline +:+ Py.spaces 28 +:+ "FROM"
             +:+ Py.newline +:+ Py.spaces 32 +:+ "( " +:+ sql_stmt
             +:+ Py.newline +:+ Py.spaces 32 +:+ ") sub"
             +:+ Py.newline +:+ Py.spaces 28 +:+ "WHERE sub.geom IS NOT NULL"
      else sql_stmt in
    Py.dict_set batch_id (mkJobInfo output_layer tmp_partial_output_path sql_stmt) batches)
  [] (ProcessingParams.batches processing_params).

(** Lines 481-507: the results are merged as the batches finish. *)
Definition single_layer_merge
    (tmp_output_path : Path) (operation_name : string)
    (batches : list (Z * JobInfo)) : M unit :=
  for_each_counting (as_completed (fst <$> batches)) 0 (fun nb_done batch_id =>
    match Py.dict_get batch_id batches with
    | None => mret tt
    | Some job =>
        _ ← try_except_wrap (future_result batch_id (job_sql_stmt job)) (fun ex =>
              _ ← logger (LogException "Error executing");
              raise (ErrorExecuting job ex));
        partial_exists ← Gfo.exists_ (job_tmp_partial_output_path job);
        _ ← (if partial_exists : bool then
               _ ← Gfo.append_to (job_tmp_partial_output_path job) tmp_output_path;
               Gfo.remove (job_tmp_partial_output_path job)
             else logger (LogDebug "Result file was empty"));
        report_progress (nb_done + 1) (Z.of_nat (length batches)) operation_name
    end).

(** Lines 363-521. *)
Definition _single_layer_vector_operation
    (input_path output_path : Path) (sql_template : SingleLayerSlots.t -> string)
    (operation_name : string) (input_layer output_layer : option string)
    (columns : option (list string)) (explodecollections : bool)
    (force_output_geometrytype : option string) (filter_null_geoms : bool)
    (nb_parallel batchsize : Z) (verbose force : bool) : M unit :=
  input_exists ← Gfo.exists_ input_path;
  if negb input_exists
  then raise (InputPathMissing operation_name "input_path" input_path)
  else
    input_layer ← match input_layer with
                  | Some l => mret l
                  | None => Gfo.get_only_layer input_path
                  end;
    let output_layer := match output_layer with
                        | Some l => l
                        | None => Gfo.get_default_layer output_path
                        end in
    output_exists ← Gfo.exists_ output_path;
    if output_exists && negb force
    then logger (LogInfo ("Stop " +:+ operation_name +:+ ": output exists already"))
    else
      _ ← (if output_exists : bool then Gfo.remove output_path else mret tt);
      input_layerinfo ← Gfo.get_layerinfo input_path input_layer;
      tempdir ← Gfo.create_tempdir (replace_spaces operation_name);
      try_finally
        (processing_params ←
           _prepare_processing_params input_path input_layer tempdir false
             nb_parallel batchsize (Some "layer"%string) None None;
         match processing_params with
         | None => mret tt
         | Some processing_params =>
             formatted_column_strings ←
               (fun w => (format_column_strings upper columns
                            (LayerInfo.columns input_layerinfo) "" "", w));
             let tmp_output_path := PathOps.join tempdir (PathOps.name output_path) in
             _ ← process_pool_executor (ProcessingParams.nb_parallel processing_params);
             let batches :=
               single_layer_jobs output_path tempdir sql_template output_layer
                 filter_null_geoms input_layerinfo formatted_column_strings
                 processing_params in
             _ ← for_each (ProcessingParams.batches processing_params)
                   (fun '(batch_id, batch) =>
                      match Py.dict_get batch_id batches with
                      | Some job =>
                          submit batch_id (batch_path batch) output_layer
                            (job_tmp_partial_output_path job) (job_sql_stmt job)
                      | None => mret tt
                      end);
             _ ← single_layer_merge tmp_output_path operation_name batches;
             tmp_output_exists ← Gfo.exists_ tmp_output_path;
             if tmp_output_exists : bool then
               _ ← Gfo.create_spatial_index tmp_output_path output_layer;
               _ ← Gfo.mkdir_parents (PathOps.parent output_path);
               Gfo.move tmp_output_path output_path
             else logger (LogDebug ("Result of " +:+ operation_name +:+ " was empty!"))
         end)
        (_ ← Gfo.rmtree tempdir;
         logger (LogInfo "Processing ready")).

(** Lines 1400-1464: the statement of every batch.  [batches[batch_id]] keeps
    the statement with the database placeholders still in it; with [use_ogr]
    the statement that is submitted has them filled in. *)
Definition two_layer_jobs
    (output_path tempdir : Path) (sql_template : TwoLayerSlots.t -> string)
    (output_layer : string) (use_ogr : bool)
    (input1_tmp_layerinfo input2_tmp_layerinfo : LayerInfo.t)
    (input1_columnstrings input2_columnstrings : FormattedColumnStrings.t)
    (input2_layer : string)
    (processing_params : ProcessingParams.t) : list (Z * (JobInfo * string)) :=
  foldl (fun batches '(batch_id, batch) =>
    let tmp_partial_output_path :=
      PathOps.join tempdir
        (PathOps.stem output_path +:+ "_" +:+ pretty batch_id +:+ ".gpkg") in
    let slots (input1_databasename input2_databasename : string) :=
      TwoLayerSlots.mk input1_databasename input2_databasename
        (FormattedColumnStrings.columns_from_subselect input1_columnstrings)
        (FormattedColumnStrings.columns_prefix_alias input1_columnstrings)
        (FormattedColumnStrings.columns_prefix input1_columnstrings)
        (batch_layer batch) (batch_layer batch)
        (LayerInfo.geometrycolumn input1_tmp_layerinfo)
        (FormattedColumnStrings.columns_from_subselect input2_columnstrings)
        (FormattedColumnStrings.columns_prefix_alias input2_columnstrings)
        (FormattedColumnStrings.columns_prefix input2_columnstrings)
        (FormattedColumnStrings.columns_prefix_alias_null input2_columnstrings)
        input2_layer input2_layer
        (LayerInfo.geometrycolumn input2_tmp_layerinfo)
        (RowFilter.render (batch_filter batch)) in
    let sql_stmt := sql_template (slots "{input1_databasename}" "{input2_databasename}") in
    let submitted :=
      if use_ogr
      then sql_template (slots (ProcessingParams.input1_databasename processing_params)
                           (ProcessingParams.input2_databasename processing_params))
      else sql_stmt in
    Py.dict_set batch_id
      (mkJobInfo output_layer tmp_partial_output_path sql_stmt, submitted) batches)
  [] (ProcessingParams.batches processing_params).

(** Lines 1466-1506: the results are merged as the batches finish. *)
Definition two_layer_merge
    (tmp_output_path : Path) (operation_name : string) (verbose : bool)
    (nb_parallel : Z) (batches : list (Z * (JobInfo * string))) : M unit :=
  _ ← report_progress 0 (Z.of_nat (length batches)) operation_name;
  for_each_counting (as_completed (fst <$> batches)) 0 (fun nb_done batch_id =>
    match Py.dict_get batch_id batches with
    | None => mret tt
    | Some (job, submitted) =>
        _ ← try_except_wrap
              (_ ← future_result batch_id submitted;
               has_content ← exists_with_content (job_tmp_partial_output_path job);
               if has_content : bool then
                 _ ← Gfo.append_to (job_tmp_partial_output_path job) tmp_output_path;
                 Gfo.remove (job_tmp_partial_output_path job)
               else if verbose then logger (LogInfo "Result file was empty")
               else mret tt)
              (fun ex => raise (ErrorExecuting job ex));
        report_progress (nb_done + 1) (Z.of_nat (length batches)) operation_name
    end).

(** Lines 1264-1526. *)
Definition _two_layer_vector_operation
    (input1_path input2_path output_path : Path)
    (sql_template : TwoLayerSlots.t -> string) (operation_name : string)
    (input1_layer : option string) (input1_columns : option (list string))
    (input1_columns_prefix : string)
    (input2_layer : option string) (input2_columns : option (list string))
    (input2_columns_prefix : string)
    (output_layer : option string) (explodecollections : bool)
    (force_output_geometrytype : option string)
    (output_with_spatial_index use_ogr : bool)
    (nb_parallel batchsize : Z) (verbose force : bool) : M unit :=
  input1_exists ← Gfo.exists_ input1_path;
  if negb input1_exists
  then raise (InputPathMissing operation_name "input1_path" input1_path)
  else
    input2_exists ← Gfo.exists_ input2_path;
    if negb input2_exists
    then raise (InputPathMissing operation_name "input2_path" input2_path)
    else if use_ogr && negb (bool_decide (input1_path = input2_path))
    then raise (OgrNeedsSameInput operation_name)
    else
      output_exists ← Gfo.exists_ output_path;
      if output_exists && negb force
      then logger (LogInfo ("Stop " +:+ operation_name +:+ ": output exists already"))
      else
        _ ← (if output_exists : bool then Gfo.remove output_path else mret tt);
        _ ← Gfo.check_runtimedependencies;
        input1_layer ← match input1_layer with
                       | Some l => mret l
                       | None => Gfo.get_only_layer input1_path
                       end;
        input2_layer ← match input2_layer with
                       | Some l => mret l
                       | None => Gfo.get_only_layer input2_path
                       end;
        let output_layer := match output_layer with
                            | Some l => l
                            | None => Gfo.get_default_layer output_path
                            end in
        tempdir ← Gfo.create_tempdir operation_name;
        _ ← Gfo.get_layerinfo input1_path input1_layer;
        _ ← Gfo.get_layerinfo input2_path input2_layer;
        let tmp_output_path := PathOps.join tempdir (PathOps.name output_path) in
        _ ← Gfo.mkdir_parents (PathOps.parent tmp_output_path);
        _ ← Gfo.remove tmp_output_path;
        returned ← try_except_reraise
          (_ ← logger (LogInfo ("Prepare input (params) for " +:+ operation_name));
           processing_params ←
             _prepare_processing_params input1_path input1_layer tempdir true
               nb_parallel batchsize (Some "layer1"%string)
               (Some input2_path) (Some input2_layer);
           match processing_params with
           | None => mret true
           | Some processing_params =>
               input1_tmp_layerinfo ←
                 Gfo.get_layerinfo (ProcessingParams.input1_path processing_params)
                   (ProcessingParams.input1_layer processing_params);
               input1_columnstrings ←
                 (fun w => (format_column_strings upper input1_columns
                              (LayerInfo.columns input1_tmp_layerinfo)
                              "layer1" input1_columns_prefix, w));
               input2_tmp_layerinfo ←
                 match ProcessingParams.input2_path processing_params,
                       ProcessingParams.input2_layer processing_params with
                 | Some p2, Some l2 => Gfo.get_layerinfo p2 l2
                 | _, _ => raise AssertionError
                 end;
               input2_columnstrings ←
                 (fun w => (format_column_strings upper input2_columns
                              (LayerInfo.columns input2_tmp_layerinfo)
                              "layer2" input2_columns_prefix, w));
               _ ← (if negb (String.eqb (LayerInfo.crs input1_tmp_layerinfo)
                                (LayerInfo.crs input2_tmp_layerinfo))
                    then logger (LogWarning "input1 has a different crs than input2")
                    else mret tt);
               _ ← logger (LogInfo ("Start " +:+ operation_name));
               _ ← process_pool_executor (ProcessingParams.nb_parallel processing_params);
               let batches :=
                 two_layer_jobs output_path tempdir sql_template output_layer use_ogr
                   input1_tmp_layerinfo input2_tmp_layerinfo
                   input1_columnstrings input2_columnstrings input2_layer
                   processing_params in
               _ ← for_each (ProcessingParams.batches processing_params)
                     (fun '(batch_id, batch) =>
                        match Py.dict_get batch_id batches with
                        | Some (job, submitted) =>
                            submit batch_id (batch_path batch) output_layer
                              (job_tmp_partial_output_path job) submitted
                        | None => mret tt
                        end);
               _ ← two_layer_merge tmp_output_path operation_name verbose
                     (ProcessingParams.nb_parallel processing_params) batches;
               tmp_output_exists ← Gfo.exists_ tmp_output_path;
               _ ← (if tmp_output_exists : bool then
                      _ ← (if output_with_spatial_index
                           then Gfo.create_spatial_index tmp_output_path output_layer
                           else mret tt);
                      if negb (bool_decide (tmp_output_path = output_path)) then
                        _ ← Gfo.mkdir_parents (PathOps.parent output_path);
                        Gfo.move tmp_output_path output_path
                      else mret tt
                    else logger (LogDebug ("Result of " +:+ operation_name +:+ " was empty!")));
               _ ← logger (LogInfo (operation_name +:+ " ready"));
               mret false
           end)
          (_ ← Gfo.remove output_path;
           Gfo.remove tmp_output_path);
        (* [return] inside the [try] (line 1365) leaves the function at once;
           the clean-up of line 1526 is reached only past the [try] *)
        if returned : bool then mret tt else Gfo.rmtree tempdir.

End Operations.

(** ** Invocations

    An invocation of one of the two operations with its arguments, so that
    what holds of both can be said once. *)

Module SingleLayerCall.
Record t := mk {
  input_path : Path;
  output_path : Path;
  sql_template : SingleLayerSlots.t -> string;
  operation_name : string;
  input_layer : option string;
  output_layer : option string;
  columns : option (list string);
  explodecollections : bool;
  force_output_geometrytype : option string;
  filter_null_geoms : bool;
  nb_parallel : Z;
  batchsize : Z;
  verbose : bool;
  force : bool
}.
End SingleLayerCall.

Module TwoLayerCall.
Record t := mk {
  input1_path : Path;
  input2_path : Path;
  output_path : Path;
  sql_template : TwoLayerSlots.t -> string;
  operation_name : string;
  input1_layer : option string;
  input1_columns : option (list string);
  input1_columns_prefix : string;
  input2_layer : option string;
  input2_columns : option (list string);
  input2_columns_prefix : string;
  output_layer : option string;
  explodecollections : bool;
  force_output_geometrytype : option string;
  output_with_spatial_index : bool;
  use_ogr : bool;
  nb_parallel : Z;
  batchsize : Z;
  verbose : bool;
  force : bool
}.
End TwoLayerCall.

Inductive Call :=
| SingleLayer (c : SingleLayerCall.t)
| TwoLayer (c : TwoLayerCall.t).

Module Call.

Definition output_path (c : Call) : Path :=
  match c with
  | SingleLayer c => SingleLayerCall.output_path c
  | TwoLayer c => TwoLayerCall.output_path c
  end.

Definition operation_name (c : Call) : string :=
  match c with
  | SingleLayer c => SingleLayerCall.operation_name c
  | TwoLayer c => TwoLayerCall.operation_name c
  end.

Definition force (c : Call) : bool :=
  match c with
  | SingleLayer c => SingleLayerCall.force c
  | TwoLayer c => TwoLayerCall.force c
  end.

(** The layer the batches are planned on. *)
Definition input1_path (c : Call) : Path :=
  match c with
  | SingleLayer c => SingleLayerCall.input_path c
  | TwoLayer c => TwoLayerCall.input1_path c
  end.

Definition input1_layer (c : Call) : option string :=
  match c with
  | SingleLayer c => SingleLayerCall.input_layer c
  | TwoLayer c => TwoLayerCall.input1_layer c
  end.

Definition run (upper : string -> string) (worker : Z -> string -> WorkerResult)
    (as_completed : list Z -> list Z) (c : Call) : M unit :=
  match c with
  | SingleLayer c =>
      _single_layer_vector_operation upper worker as_completed
        (SingleLayerCall.input_path c) (SingleLayerCall.output_path c)
        (SingleLayerCall.sql_template c) (SingleLayerCall.operation_name c)
        (SingleLayerCall.input_layer c) (SingleLayerCall.output_layer c)
        (SingleLayerCall.columns c) (SingleLayerCall.explodecollections c)
        (SingleLayerCall.force_output_geometrytype c)
        (SingleLayerCall.filter_null_geoms c)
        (SingleLayerCall.nb_parallel c) (SingleLayerCall.batchsize c)
        (SingleLayerCall.verbose c) (SingleLayerCall.force c)
  | TwoLayer c =>
      _two_layer_vector_operation upper worker as_completed
        (TwoLayerCall.input1_path c) (TwoLayerCall.input2_path c)
        (TwoLayerCall.output_path c) (TwoLayerCall.sql_template c)
        (TwoLayerCall.operation_name c)
        (TwoLayerCall.input1_layer c) (TwoLayerCall.input1_columns c)
        (TwoLayerCall.input1_columns_prefix c)
        (TwoLayerCall.input2_layer c) (TwoLayerCall.input2_columns c)
        (TwoLayerCall.input2_columns_prefix c)
        (TwoLayerCall.output_layer c) (TwoLayerCall.explodecollections c)
        (TwoLayerCall.force_output_geometrytype c)
        (TwoLayerCall.output_with_spatial_index c) (TwoLayerCall.use_ogr c)
        (TwoLayerCall.nb_parallel c) (TwoLayerCall.batchsize c)
        (TwoLayerCall.verbose c) (TwoLayerCall.force c)
  end.

(** The checks an operation makes before it looks at its output: lines
    383-388 of the single layer operation, lines 1316-1321 of the two layer
    one. *)
Definition inputs_accepted (c : Call) (w : World) : Prop :=
  match c with
  | SingleLayer c =>
      Gfo.path_exists w (SingleLayerCall.input_path c) = true
      /\ (SingleLayerCall.input_layer c = None ->
          exists l, Gfo.get_only_layer (SingleLayerCall.input_path c) w = (Returned l, w))
  | TwoLayer c =>
      Gfo.path_exists w (TwoLayerCall.input1_path c) = true
      /\ Gfo.path_exists w (TwoLayerCall.input2_path c) = true
      /\ (TwoLayerCall.use_ogr c = true ->
          TwoLayerCall.input1_path c = TwoLayerCall.input2_path c)
  end.

(** [name] is the layer an operation works on: the one the caller names, or
    the only layer of the container (lines 387-388 and 1334-1337). *)
Definition names_layer (layer : option string) (p : Path) (w : World) (name : string)
  : Prop :=
  match layer with
  | Some l => l = name
  | None => Gfo.get_only_layer p w = (Returned name, w)
  end.

(** What lets an invocation get as far as the planner, [l] being the layer
    its batches are planned on: the file system is a tree; the output path
    is no directory and none of the inputs; the layers of the inputs can be
    read; for two layers, the runtime dependencies are there and, with
    [use_ogr], both inputs are one file. *)
Definition reaches_planner (c : Call) (w : World) (l : Layer) : Prop :=
  tree (fs w)
  /\ fs w !! output_path c <> Some Dir
  /\ match c with
     | SingleLayer c =>
         SingleLayerCall.output_path c <> SingleLayerCall.input_path c
         /\ exists name,
              names_layer (SingleLayerCall.input_layer c) (SingleLayerCall.input_path c) w name
              /\ Gfo.read_layer (SingleLayerCall.input_path c) name w = (Returned l, w)
     | TwoLayer c =>
         TwoLayerCall.output_path c <> TwoLayerCall.input1_path c
         /\ TwoLayerCall.output_path c <> TwoLayerCall.input2_path c
         /\ (TwoLayerCall.use_ogr c = true ->
             TwoLayerCall.input1_path c = TwoLayerCall.input2_path c)
         /\ spatialite_available w = true
         /\ (exists name,
              names_layer (TwoLayerCall.input1_layer c) (TwoLayerCall.input1_path c) w name
              /\ Gfo.read_layer (TwoLayerCall.input1_path c) name w = (Returned l, w))
         /\ (exists name l2,
              names_layer (TwoLayerCall.input2_layer c) (TwoLayerCall.input2_path c) w name
              /\ Gfo.read_layer (TwoLayerCall.input2_path c) name w = (Returned l2, w))
     end.

End Call.

(** ** The Lang simplifier: geometry.py lines 243-367

    Coordinates are binary64 floats, as in the [numpy] array the functions
    work on; an array index follows [numpy]: a negative index counts from
    the end, an index outside the array raises [IndexError]. *)

Module Lang.

(** The sequence the caller passes: an [np.ndarray] or a list. *)
Inductive Container := NdArray | PyList.

Inductive Result (A : Type) :=
| Ok (a : A)
| IndexError
| RecursionError.
Arguments Ok {A} a.
Arguments IndexError {A}.
Arguments RecursionError {A}.

Definition Coords : Type := Container * list (float * float).

(** [arr[i]] *)
Definition getitem {A : Type} (arr : list A) (i : Z) : option A :=
  let n := Z.of_nat (length arr) in
  if (0 <=? i) && (i <? n) then arr !! Z.to_nat i
  else if (- n <=? i) && (i <? 0) then arr !! Z.to_nat (i + n)
  else None.

(** [arr[i] = x] *)
Definition setitem {A : Type} (arr : list A) (i : Z) (x : A) : option (list A) :=
  let n := Z.of_nat (length arr) in
  if (0 <=? i) && (i <? n) then Some (<[Z.to_nat i := x]> arr)
  else if (- n <=? i) && (i <? 0) then Some (<[Z.to_nat (i + n) := x]> arr)
  else None.

(** [range(a, b)] *)
Definition range (a b : Z) : list Z :=
  (fun k => a + Z.of_nat k) <$> seq 0 (Z.to_nat (b - a)).

(** Lines 305-306. *)
Definition point_line_distance (x0 y0 x1 y1 x2 y2 : float) : float :=
  (abs ((x2 - x1) * (y1 - y0) - (x1 - x0) * (y2 - y1))
   / sqrt ((x2 - x1) * (x2 - x1) + (y2 - y1) * (y2 - y1)))%float.

(** Lines 332-341: the [for] loop over the points inside the window, left at
    the first point that is too far. *)
Fixpoint all_points_in_tolerance
    (line_arr : list (float * float)) (tolerance : float)
    (window_start window_end : Z) (inside : list Z) : Result bool :=
  match inside with
  | [] => Ok true
  | i :: rest =>
      match getitem line_arr i, getitem line_arr window_start,
            getitem line_arr window_end with
      | Some (x0, y0), Some (x1, y1), Some (x2, y2) =>
          let distance := point_line_distance x0 y0 x1 y1 x2 y2 in
          if is_nan distance || (tolerance <? distance)%float
          then Ok false
          else all_points_in_tolerance line_arr tolerance window_start window_end rest
      | _, _, _ => IndexError
      end
  end.

Record State := mkState {
  mask : list bool;
  window_start : Z;
  window_end : Z;
  ready : bool
}.

(** Lines 329-358: one turn of the [while] loop. *)
Definition turn (line_arr : list (float * float)) (tolerance : float)
    (nb_points window_size : Z) (s : State) : Result State :=
  match all_points_in_tolerance line_arr tolerance (window_start s) (window_end s)
          (range (window_start s + 1) (window_end s)) with
  | Ok false => Ok (mkState (mask s) (window_start s) (window_end s - 1) (ready s))
  | Ok true =>
      match setitem (mask s) (window_end s) true with
      | None => IndexError
      | Some mask' =>
          let window_start' := window_end s in
          let ready' := if window_start' =? nb_points - 1 then true else ready s in
          let window_end' := window_start' + window_size in
          let window_end' :=
            if nb_points <=? window_end' then nb_points - 1 else window_end' in
          Ok (mkState mask' window_start' window_end' ready')
      end
  | IndexError => IndexError
  | RecursionError => RecursionError
  end.

(** [while ready is False]: [None] when [turns] turns do not end the loop. *)
Fixpoint while_not_ready (turns : nat) (line_arr : list (float * float))
    (tolerance : float) (nb_points window_size : Z) (s : State)
  : option (Result State) :=
  if ready s then Some (Ok s)
  else
    match turns with
    | O => None
    | S turns' =>
        match turn line_arr tolerance nb_points window_size s with
        | Ok s' => while_not_ready turns' line_arr tolerance nb_points window_size s'
        | IndexError => Some IndexError
        | RecursionError => Some RecursionError
        end
    end.

(** [mask.nonzero()[0]] *)
Definition nonzero (mask : list bool) : list Z :=
  snd <$> filter (fun bi => fst bi = true) (zip mask (Z.of_nat <$> seq 0 (length mask))).

(** Lines 280-367.  [None]: the loop is still running after [turns] turns. *)
Definition simplify_coords_lang_idx (turns : nat)
    (coords : Coords) (tolerance : float) (lookahead : Z)
  : option (Result (Container * list Z)) :=
  let line_arr := snd coords in
  let nb_points := Z.of_nat (length line_arr) in
  let window_size :=
    if lookahead =? -1 then nb_points - 1 else Z.min lookahead (nb_points - 1) in
  match setitem (replicate (length line_arr) false) 0 true with
  | None => Some IndexError
  | Some mask =>
      match while_not_ready turns line_arr tolerance nb_points window_size
              (mkState mask 0 window_size false) with
      | None => None
      | Some (Ok s) => Some (Ok (fst coords, nonzero (Lang.mask s)))
      | Some IndexError => Some IndexError
      | Some RecursionError => Some RecursionError
      end
  end.

(** Lines 243-278.  The call of line 268 is a call of the function itself;
    [depth] is the number of frames the interpreter still allows, and the
    call that finds none left raises [RecursionError].  A float array as an
    index (line 272) would be an [IndexError]. *)
Fixpoint simplify_coords_lang (depth : nat)
    (coords : Coords) (tolerance : float) (lookahead : Z)
  : Result Coords :=
  match depth with
  | O => RecursionError
  | S depth' =>
      let coords_arr : Coords := (NdArray, snd coords) in
      match simplify_coords_lang depth' coords_arr tolerance lookahead with
      | Ok coords_to_keep_idx => IndexError
      | IndexError => IndexError
      | RecursionError => RecursionError
      end
  end.

End Lang.

(** ** Fixtures of the worked runs *)

Module Fixture.

Definition layer_of (name : string) (rowids : list Z) : Layer :=
  mkLayer name "geom" ["id"; "Name"]%string "EPSG:31370" rowids false.

Definition parcels_path : Path := ["data"; "parcels.gpkg"]%string.
Definition zones_path : Path := ["data"; "zones.gpkg"]%string.
Definition output_path : Path := ["out"; "result.gpkg"]%string.

(** A machine with [cpus] processors and two containers: a layer [parcels]
    with the given rowids, and a layer [zones] of three rows. *)
Definition world (rowids : list Z) (cpus : Z) : World :=
  mkWorld (<[parcels_path := File [layer_of "parcels" rowids]]>
          (<[zones_path := File [layer_of "zones" [1; 2; 3]]]>
          (<[["data"%string] := Dir]> ∅)))
    cpus true [] [].

(** The same machine with a result of an earlier run at [output_path]. *)
Definition world_with_output (rowids : list Z) (cpus : Z) : World :=
  set_fs (fun m => <[output_path := File [layer_of "result" [7; 8]]]>
                   (<[["out"%string] := Dir]> m))
    (world rowids cpus).

(** The same machine, the layer [parcels] in a shapefile. *)
Definition shapefile_path : Path := ["data"; "parcels.shp"]%string.

Definition world_with_shapefile (rowids : list Z) (cpus : Z) : World :=
  set_fs (fun m => <[shapefile_path := File [layer_of "parcels" rowids]]> m)
    (world rowids cpus).

(** The same with the index file of the shapefile next to it. *)
Definition world_with_indexed_shapefile (rowids : list Z) (cpus : Z) : World :=
  set_fs (fun m => <[(["data"; "parcels.qix"]%string : Path) := File []]> m)
    (world_with_shapefile rowids cpus).

(** Rowids 1, 2, ..., n. *)
Definition consecutive (n : nat) : list Z := Z.of_nat <$> seq 1 n.

(** Rowids 10, 20, ..., 10 n. *)
Definition gapped (n : nat) : list Z := (fun i => 10 * Z.of_nat i) <$> seq 1 n.

Definition single_layer_template (s : SingleLayerSlots.t) : string :=
  "SELECT " +:+ SingleLayerSlots.geometrycolumn s
    +:+ SingleLayerSlots.columns_to_select_str s
    +:+ " FROM " +:+ quoted (SingleLayerSlots.input_layer s)
    +:+ " layer WHERE 1=1 " +:+ SingleLayerSlots.batch_filter s.

Definition two_layer_template (s : TwoLayerSlots.t) : string :=
  "SELECT layer1." +:+ TwoLayerSlots.input1_geometrycolumn s
    +:+ TwoLayerSlots.layer1_columns_prefix_alias_str s
    +:+ " FROM " +:+ TwoLayerSlots.input1_databasename s +:+ "."
    +:+ quoted (TwoLayerSlots.input1_layer s)
    +:+ " layer1 WHERE 1=1 " +:+ TwoLayerSlots.batch_filter s.

(** Every worker writes one row. *)
Definition worker_ok (batch_id : Z) (sql_stmt : string) : WorkerResult :=
  WorkerWrites [batch_id].

(** The worker of batch 2 raises, the three others write one row. *)
Definition worker_one_fails (batch_id : Z) (sql_stmt : string) : WorkerResult :=
  if batch_id =? 2 then WorkerRaises "no such function: ST_Bufer"
  else WorkerWrites [batch_id].

(** An input path at which there is nothing. *)
Definition missing_path : Path := ["data"; "missing.gpkg"]%string.

(** The line of the test in tests/test_vector_util_geometry.py, lines 67-75. *)
Definition collinear_line : Lang.Coords :=
  (Lang.PyList, [(0, 0); (10, 10); (20, 20)]%float).

(** The working directories the two operations make on the fixture. *)
Definition intersect_tempdir : Path := ["tmp"; "geofileops"; "intersect_1"]%string.
Definition buffer_tempdir : Path := ["tmp"; "geofileops"; "buffer_1"]%string.

(** The batches finish in the order they were submitted. *)
Definition in_submission_order (ids : list Z) : list Z := ids.

Definition single_layer_call (input_path : Path) (nb_parallel batchsize : Z)
    (force : bool) : Call :=
  SingleLayer (SingleLayerCall.mk input_path output_path single_layer_template
                 "buffer" None None None false None true
                 nb_parallel batchsize false force).

Definition two_layer_call (input1_path : Path) (nb_parallel batchsize : Z)
    (force : bool) : Call :=
  TwoLayer (TwoLayerCall.mk input1_path zones_path output_path two_layer_template
              "intersect" None None "l1_" None None "l2_" None false None
              true false nb_parallel batchsize false force).

Definition plan (w : World) (nb_parallel batchsize : Z)
  : Outcome (option ProcessingParams.t) * World :=
  _prepare_processing_params parcels_path "parcels" ["tmp"; "work"]%string false
    nb_parallel batchsize (Some "layer"%string) None None w.

(** The plan the two layer operation asks for: the inputs are to be
    converted where needed. *)
Definition plan_for_two_layers (w : World) (nb_parallel batchsize : Z)
  : Outcome (option ProcessingParams.t) * World :=
  _prepare_processing_params parcels_path "parcels" ["tmp"; "work"]%string true
    nb_parallel batchsize (Some "layer1"%string) (Some zones_path) (Some "zones"%string) w.

(** The plan of the shapefile alone, to be converted. *)
Definition plan_of_a_shapefile (rowids : list Z) (nb_parallel batchsize : Z)
  : Outcome (option ProcessingParams.t) * World :=
  _prepare_processing_params shapefile_path "parcels" ["tmp"; "work"]%string true
    nb_parallel batchsize (Some "layer"%string) None None
    (world_with_shapefile rowids 4).

(** The intersection of the parcels with the zones, two processes asked
    for, nothing forced. *)
Definition intersect (worker : Z -> string -> WorkerResult) (w : World)
  : Outcome unit * World :=
  Call.run Py.upper worker in_submission_order
    (two_layer_call parcels_path 2 (-1) false) w.

(** The buffer of the parcels, two processes asked for, nothing forced. *)
Definition buffer (worker : Z -> string -> WorkerResult) (w : World)
  : Outcome unit * World :=
  Call.run Py.upper worker in_submission_order
    (single_layer_call parcels_path 2 (-1) false) w.

(** The placeholders of the statement of batch 2 of the intersection of 100
    parcels. *)
Definition intersect_slots_of_batch_2 : TwoLayerSlots.t :=
  let layer1 := format_fragments ["id"; "Name"]%string "layer1" "l1_" in
  let layer2 := format_fragments ["id"; "Name"]%string "layer2" "l2_" in
  TwoLayerSlots.mk "{input1_databasename}" "{input2_databasename}"
    (FormattedColumnStrings.columns_from_subselect layer1)
    (FormattedColumnStrings.columns_prefix_alias layer1)
    (FormattedColumnStrings.columns_prefix layer1)
    "parcels" "parcels" "geom"
    (FormattedColumnStrings.columns_from_subselect layer2)
    (FormattedColumnStrings.columns_prefix_alias layer2)
    (FormattedColumnStrings.columns_prefix layer2)
    (FormattedColumnStrings.columns_prefix_alias_null layer2)
    "zones" "zones" "geom"
    (RowFilter.render (Between "layer1." 50 74)).

(** The plans of the worked runs. *)
Definition plan_of (o : Outcome (option ProcessingParams.t) * World)
  : ProcessingParams.t :=
  match o with
  | (Returned (Some pp), _) => pp
  | _ => ProcessingParams.mk [] "" "" None None "" 0 []
  end.

Definition planned_batches (o : Outcome (option ProcessingParams.t) * World)
  : option (list (Z * RowFilter)) :=
  match o with
  | (Returned (Some pp), _) =>
      Some ((fun kb => (fst kb, batch_filter (snd kb))) <$> ProcessingParams.batches pp)
  | _ => None
  end.

End Fixture.


(** ** The indices the Lang simplifier keeps *)

Module LangResult.

(** The test of lines 334-341 on one point: point [i] is no further than
    [tolerance] from the line through the points [k1] and [k2], and that
    distance is a number. *)
Definition within_tolerance (line_arr : list (float * float)) (tolerance : float)
    (k1 k2 i : Z) : bool :=
  match Lang.getitem line_arr i, Lang.getitem line_arr k1, Lang.getitem line_arr k2 with
  | Some (x0, y0), Some (x1, y1), Some (x2, y2) =>
      let distance := Lang.point_line_distance x0 y0 x1 y1 x2 y2 in
      negb (is_nan distance || (tolerance <? distance)%float)
  | _, _, _ => false
  end.

(** Every two neighbours of a list are related by [P]. *)
Inductive neighbours (P : Z -> Z -> Prop) : list Z -> Prop :=
| neighbours_nil : neighbours P []
| neighbours_one (k : Z) : neighbours P [k]
| neighbours_cons (k1 k2 : Z) (l : list Z) :
    P k1 k2 -> neighbours P (k2 :: l) -> neighbours P (k1 :: k2 :: l).

(** The window the loop works with, lines 316-319. *)
Definition window_size (nb_points lookahead : Z) : Z :=
  if lookahead =? -1 then nb_points - 1 else Z.min lookahead (nb_points - 1).

(** Two kept points [k1 < k2] with nothing kept in between: they are no
    more than a window apart, and every point between them passed the
    test against the line through them. *)
Definition step_ok (line_arr : list (float * float)) (tolerance : float)
    (size k1 k2 : Z) : Prop :=
  k1 < k2 <= k1 + size
  /\ forall i, k1 < i < k2 -> within_tolerance line_arr tolerance k1 k2 i = true.

(** What holds of the loop's state at the start of every turn: [kept] are
    the indices masked before [window_start]. *)
Record invariant (line_arr : list (float * float)) (tolerance : float)
    (size : Z) (s : Lang.State) (kept : list Z) : Prop := mkInvariant {
  inv_length : length (Lang.mask s) = length line_arr;
  inv_start : 0 <= Lang.window_start s;
  inv_end : Lang.window_end s <= Z.of_nat (length line_arr) - 1;
  inv_order :
    if Lang.ready s then Lang.window_start s = Z.of_nat (length line_arr) - 1
    else Lang.window_start s < Lang.window_end s;
  inv_window : Lang.window_end s <= Lang.window_start s + size;
  inv_kept : Lang.nonzero (Lang.mask s) = kept ++ [Lang.window_start s];
  inv_first : head (kept ++ [Lang.window_start s]) = Some 0;
  inv_above :
    forall i : nat, Lang.window_start s < Z.of_nat i ->
                    (i < length line_arr)%nat -> Lang.mask s !! i = Some false;
  inv_steps : neighbours (step_ok line_arr tolerance size) (kept ++ [Lang.window_start s])
}.

(** The turns that are enough from a state on. *)
Definition turns_left (nb_points : Z) (s : Lang.State) : nat :=
  Z.to_nat ((nb_points - 1 - Lang.window_start s) * nb_points
            + (Lang.window_end s - Lang.window_start s)).

End LangResult.

(** ** What an action keeps

    [keeps I m]: from a world where [I] holds, the action [m] ends in a
    world where [I] holds, whether it returns or raises. *)

Definition keeps {A : Type} (I : World -> Prop) (m : M A) : Prop :=
  forall w o w', I w -> m w = (o, w') -> I w'.

(** An action that leaves the world as it is. *)
Definition reads {A : Type} (m : M A) : Prop :=
  forall w o w', m w = (o, w') -> w' = w.

(** ** geofile.py: the helpers on single files

    The functions of [geofileops/geofile.py] themselves.  They raise plain
    [Exception]s with a message, and what [pathlib] and the engine raise;
    these are told apart here.  What [gdal] does with a statement is not
    modelled: statements go to [execute_sql], about which nothing is
    assumed. *)

(** [a in b] on two strings: [a] is a substring of [b]. *)
Fixpoint str_in (a b : string) : bool :=
  String.prefix a b
  || match b with
     | EmptyString => false
     | String _ b' => str_in a b'
     end.

Module Geofile.

Inductive Error :=
| Helper (e : Exception)
| NotImplementedForExtension (ext_lower : string)
| NoLayerSpecified (p : Path)
| SpatialIndexNotSupported (p : Path)
| UnsupportedColumnType (column_type : option string)
| ColumnTypeNeeded (column_name : string)
| FileNotFoundError (p : Path)
| IsADirectoryError (p : Path)
| EngineError (message : string).

Inductive Result (A : Type) :=
| Done (a : A)
| Failed (e : Error).
Arguments Done {A} a.
Arguments Failed {A} e.

Definition G (A : Type) : Type := World -> Result A * World.

Definition ret {A : Type} (a : A) : G A := fun w => (Done a, w).

Definition bind {A B : Type} (m : G A) (f : A -> G B) : G B := fun w =>
  match m w with
  | (Done a, w') => f a w'
  | (Failed e, w') => (Failed e, w')
  end.

Definition fail {A : Type} (e : Error) : G A := fun w => (Failed e, w).

(** A helper modelled above, called from here. *)
Definition helper {A : Type} (m : M A) : G A := fun w =>
  match m w with
  | (Returned a, w') => (Done a, w')
  | (Raised e, w') => (Failed (Helper e), w')
  end.

(** A function that touches no file, called from here. *)
Definition pure {A : Type} (r : Result A) : G A := fun w => (r, w).

#[local] Instance G_ret : MRet G := @ret.
#[local] Instance G_bind : MBind G := fun A B f m => bind m f.

(** [for x in l: body x] *)
Fixpoint for_each {A : Type} (l : list A) (body : A -> G unit) : G unit :=
  match l with
  | [] => ret tt
  | x :: rest => bind (body x) (fun _ => for_each rest body)
  end.

(** [try: body except Exception as ex: handler ex] *)
Definition try_except {A : Type} (body : G A) (handler : Error -> G A) : G A := fun w =>
  match body w with
  | (Done a, w1) => (Done a, w1)
  | (Failed e, w1) => handler e w1
  end.

(** Line 31. *)
Definition shapefile_suffixes : list string :=
  [".shp"; ".dbf"; ".shx"; ".prj"; ".qix"; ".sbn"; ".sbx"]%string.

(** [path_p.parent / f"{path_p.stem}{ext}"] *)
Definition side_file (path_p : Path) (ext : string) : Path :=
  PathOps.join (PathOps.parent path_p) (PathOps.stem path_p +:+ ext).

(** [p.unlink()]: what is not there cannot be unlinked, nor can a
    directory (Linux answers [IsADirectoryError]). *)
Definition unlink (p : Path) : G unit := fun w =>
  match fs w !! p with
  | Some (File _) => (Done tt, set_fs (delete p) w)
  | Some Dir => (Failed (IsADirectoryError p), w)
  | None => (Failed (FileNotFoundError p), w)
  end.

Section Functions.

(** [str.lower] *)
Variable lower : string -> string.

(** [datasource.ExecuteSQL(stmt)] on the file at a path. *)
Variable execute_sql : Path -> string -> G unit.

(** [get_driver_for_ext], lines 528-540 *)
Definition get_driver_for_ext (file_ext : string) : Result string :=
  let file_ext_lower := lower file_ext in
  if String.eqb file_ext_lower ".shp" then Done "ESRI Shapefile"%string
  else if String.eqb file_ext_lower ".geojson" then Done "GeoJSON"%string
  else if String.eqb file_ext_lower ".gpkg" then Done "GPKG"%string
  else Failed (NotImplementedForExtension file_ext_lower).

(** [get_driver], lines 522-526 *)
Definition get_driver (path : Path) : Result string :=
  get_driver_for_ext (PathOps.suffix path).

(** [is_geofile_ext], lines 366-374 *)
Definition is_geofile_ext (file_ext : string) : bool :=
  let file_ext_lower := lower file_ext in
  if bool_decide (file_ext_lower ∈ [".shp"; ".gpkg"; ".geojson"]%string)
  then true else false.

(** [is_geofile], lines 360-364 *)
Definition is_geofile (path : Path) : bool := is_geofile_ext (PathOps.suffix path).

(** [getlayerinfo], lines 67-110.  [gdal] opens the file or raises; a layer
    that is named but not there comes back as [None] and has no
    [GetLayerDefn]; the bounds are left out, the model has no
    geometries. *)
Definition getlayerinfo (path : Path) (layer : option string) : G LayerInfo.t :=
  match layer with
  | Some layer => helper (Gfo.get_layerinfo path layer)
  | None =>
      fun w =>
        match fs w !! path with
        | Some (File [l]) => (Done (Gfo.layerinfo_of l), w)
        | Some (File _) => (Failed (NoLayerSpecified path), w)
        | _ => (Failed (Helper (CannotOpen path)), w)
        end
  end.

(** [has_spatial_index], lines 140-162, of a shapefile: there is an index
    when there is a [.qix] file.  For a GeoPackage the answer is the
    engine's. *)
Variable has_spatial_index_sql : Path -> string -> G bool.

Definition has_spatial_index (path_p : Path) (layer : option string) : G bool :=
  driver ← pure (get_driver path_p);
  if String.eqb driver "GPKG" then
    layerinfo ← getlayerinfo path_p layer;
    has_spatial_index_sql path_p
      ("SELECT HasSpatialIndex('" +:+ LayerInfo.name layerinfo +:+ "', '"
         +:+ LayerInfo.geometrycolumn layerinfo +:+ "')")
  else if String.eqb driver "ESRI Shapefile" then
    helper (Gfo.exists_ (side_file path_p ".qix"))
  else fail (SpatialIndexNotSupported path_p).

(** [gdal.OpenEx(str(path_p), nOpenFlags=gdal.OF_UPDATE)] *)
Definition open_for_update (path_p : Path) : G unit := fun w =>
  match fs w !! path_p with
  | Some (File _) => (Done tt, w)
  | _ => (Failed (Helper (CannotOpen path_p)), w)
  end.

(** [remove_spatial_index], lines 181-200 *)
Definition remove_spatial_index (path_p : Path) (layer : option string) : G unit :=
  layerinfo ← getlayerinfo path_p layer;
  _ ← open_for_update path_p;
  driver ← pure (get_driver path_p);
  if String.eqb driver "GPKG" then
    execute_sql path_p
      ("SELECT DisableSpatialIndex('" +:+ LayerInfo.name layerinfo +:+ "', '"
         +:+ LayerInfo.geometrycolumn layerinfo +:+ "')")
  else if String.eqb driver "ESRI Shapefile" then
    unlink (side_file path_p ".qix")
  else
    execute_sql path_p ("DROP SPATIAL INDEX ON " +:+ quoted (LayerInfo.name layerinfo)).

(** [add_column], lines 216-252.  [column_name not in ('area')] tests a
    string against a string: the parentheses make no tuple. *)
Definition add_column (path_p : Path) (column_name : string)
    (column_type : option string) (layer : option string) : G unit :=
  let column_name := lower column_name in
  layer ← match layer with
          | None => helper (Gfo.get_only_layer path_p)
          | Some layer => ret layer
          end;
  if negb (str_in column_name "area") then fail (UnsupportedColumnType column_type)
  else
    column_type ← match column_type with
                   | None =>
                       if String.eqb column_name "area" then ret "real"%string
                       else fail (ColumnTypeNeeded column_name)
                   | Some column_type => ret column_type
                   end;
    try_except
      (_ ← open_for_update path_p;
       _ ← execute_sql path_p
             ("ALTER TABLE " +:+ quoted layer +:+ " ADD COLUMN " +:+ quoted column_name
                +:+ " " +:+ column_type);
       if String.eqb column_name "area" then
         execute_sql path_p
           ("UPDATE " +:+ quoted layer +:+ " SET " +:+ quoted column_name
              +:+ " = ST_area(geom)")
       else ret tt)
      (fun ex =>
         match ex with
         | EngineError message =>
             if str_in "duplicate column name:" message
             then helper (logger (LogWarning ("Column " +:+ column_name
                                               +:+ " existed already")))
             else fail ex
         | _ => fail ex
         end).

(** [remove], lines 474-492 *)
Definition remove (path_p : Path) : G unit :=
  if String.eqb (lower (PathOps.suffix path_p)) ".shp" then
    for_each shapefile_suffixes (fun ext =>
      let curr_path := side_file path_p ext in
      curr_path_exists ← helper (Gfo.exists_ curr_path);
      if curr_path_exists : bool then unlink curr_path else ret tt)
  else unlink path_p.

End Functions.

End Geofile.

(** The substrings of ['area'], the empty one included. *)
Definition substrings_of_area : list string :=
  [""; "a"; "r"; "e"; "ar"; "re"; "ea"; "are"; "rea"; "area"]%string.

(** ** geometry.py and geodataframe.py: geometries

    A [shapely] geometry by its coordinates.  What GEOS computes (the area
    of a ring, validity, a buffer) is left to functions about which nothing
    is assumed. *)

Module Shapely.

Definition Coord : Type := float * float.

Record PolygonRings := mkPolygonRings {
  exterior : list Coord;
  interiors : list (list Coord)
}.

#[warnings="-register-all"] Inductive Geometry :=
| Point (coord : Coord)
| LineString (coords : list Coord)
| LinearRing (coords : list Coord)
| Polygon (rings : PolygonRings)
| MultiPoint (points : list Coord)
| MultiLineString (lines : list (list Coord))
| MultiPolygon (polygons : list PolygonRings)
| GeometryCollection (geoms : list Geometry).

(** [geometry.geom_type], which [geometry.type] is another name of. *)
Definition geom_type (g : Geometry) : string :=
  match g with
  | Point _ => "Point"
  | LineString _ => "LineString"
  | LinearRing _ => "LinearRing"
  | Polygon _ => "Polygon"
  | MultiPoint _ => "MultiPoint"
  | MultiLineString _ => "MultiLineString"
  | MultiPolygon _ => "MultiPolygon"
  | GeometryCollection _ => "GeometryCollection"
  end.

Inductive Error :=
| UnsupportedGeometryType (operation type : string)
| AttributeError (module attribute : string).

Inductive Result (A : Type) :=
| Ok (a : A)
| Raised (e : Error).
Arguments Ok {A} a.
Arguments Raised {A} e.

Section Geometry.

(** [sh_ops.Polygon(ring).area] *)
Variable ring_area : list Coord -> float.

(** [geometry.is_valid] and [geometry.buffer(0)] *)
Variable is_valid : Geometry -> bool.
Variable buffer_0 : Geometry -> Geometry.

(** [makevalid], geometry.py lines 56-71; the second component says whether
    the error of line 70 is logged. *)
Definition makevalid (geometry : option Geometry) : option Geometry * bool :=
  match geometry with
  | None => (None, false)
  | Some geometry =>
      if is_valid geometry then (Some geometry, false)
      else
        let geom_buf := buffer_0 geometry in
        if is_valid geom_buf then (Some geom_buf, false)
        else (Some geometry, true)
  end.

(** Lines 122-128: the loop over the interior rings. *)
Fixpoint rings_to_keep (interiors : list (list Coord)) (min_area_to_keep : float)
    (ring_coords_to_keep : list (list Coord)) (small_ring_found : bool)
  : list (list Coord) * bool :=
  match interiors with
  | [] => (ring_coords_to_keep, small_ring_found)
  | ring :: rest =>
      if (abs (ring_area ring) <=? min_area_to_keep)%float
      then rings_to_keep rest min_area_to_keep ring_coords_to_keep true
      else rings_to_keep rest min_area_to_keep (ring_coords_to_keep ++ [ring])
             small_ring_found
  end.

(** Lines 113-119: all the inner rings are to go. *)
Definition without_inner_rings (rings : PolygonRings) : Geometry :=
  match interiors rings with
  | [] => Polygon rings
  | _ => Polygon (mkPolygonRings (exterior rings) [])
  end.

(** [remove_inner_rings], geometry.py lines 99-134.  No geometry has the
    type ['Multipolgon'] of line 106, so that only a polygon gets past it. *)
Definition remove_inner_rings (geometry : option Geometry)
    (min_area_to_keep : option float) : Result (option Geometry) :=
  match geometry with
  | None => Ok None
  | Some geometry =>
      if negb (bool_decide (geom_type geometry ∈ ["Polygon"; "Multipolgon"]%string))
      then Raised (UnsupportedGeometryType "remove_inner_rings" (geom_type geometry))
      else
        match geometry with
        | Polygon rings =>
            match min_area_to_keep with
            | None => Ok (Some (without_inner_rings rings))
            | Some m =>
                if (m =? 0)%float then Ok (Some (without_inner_rings rings))
                else
                  let '(ring_coords_to_keep, small_ring_found) :=
                    rings_to_keep (interiors rings) m [] false in
                  if negb small_ring_found then Ok (Some geometry)
                  else Ok (Some (Polygon (mkPolygonRings (exterior rings)
                                            ring_coords_to_keep)))
            end
        | _ =>
            (* not reached: only a polygon has [interiors] *)
            Raised (AttributeError (geom_type geometry) "interiors")
        end
  end.

(** An interior ring that [remove_inner_rings] takes out. *)
Definition taken_out (min_area_to_keep : option float) (ring : list Coord) : bool :=
  match min_area_to_keep with
  | None => true
  | Some m => (m =? 0)%float || (abs (ring_area ring) <=? m)%float
  end.

End Geometry.

(** [extract_polygons_from_gdf], geodataframe.py lines 25-48, on the
    geometry column of the frame.  Line 37 asks the module [geometry] for
    [extract_polygons_from_geometry], which geometry.py does not define. *)
Definition extract_polygons_from_gdf (in_gdf : list Geometry) : Result (list Geometry) :=
  let poly_gdf :=
    filter (fun g => geom_type g = "Polygon"%string) in_gdf in
  let multipoly_gdf :=
    filter (fun g => geom_type g = "MultiPolygon"%string) in_gdf in
  let collection_gdf :=
    filter (fun g => geom_type g = "GeometryCollection"%string) in_gdf in
  match collection_gdf with
  | _ :: _ => Raised (AttributeError "geometry" "extract_polygons_from_geometry")
  | [] =>
      let ret_gdf := poly_gdf in
      let exploded :=
        mbind (M := list) (fun g => match g with
                        | MultiPolygon polygons => Polygon <$> polygons
                        | _ => []
                        end) multipoly_gdf in
      Ok (if bool_decide (0 < length multipoly_gdf)%nat
          then ret_gdf ++ exploded else ret_gdf)
  end.

End Shapely.

(** ** Working directories *)

(** The directory below which [create_tempdir] makes the working
    directories. *)
Definition temp_area : Path := ["tmp"; "geofileops"]%string.

(** No working directory of the operation named [base_dirname] is there,
    nor anything in one. *)
Definition no_working_directory (base_dirname : string) (w : World) : Prop :=
  forall i p, Gfo.tempdir_candidate base_dirname i `prefix_of` p -> fs w !! p = None.

(** The working directory [td] is there, and there is nothing at the paths
    [P]. *)
Definition working_in (td : Path) (P : Path -> Prop) (w : World) : Prop :=
  fs w !! td = Some Dir /\ forall p, P p -> fs w !! p = None.

(** The paths in the other working directories of the operation. *)
Definition in_another_working_directory (base_dirname : string) (td p : Path) : Prop :=
  (exists i, Gfo.tempdir_candidate base_dirname i `prefix_of` p) /\ ¬ td `prefix_of` p.

(** A path that lies neither in nor above the directory of the working
    directories. *)
Definition apart_from_temp_area (p : Path) : Prop :=
  ¬ temp_area `prefix_of` p /\ ¬ p `prefix_of` temp_area.

(** ** Outcomes *)

(** [m], started where [I] holds, ends with an outcome and in a world that
    satisfy [Q]. *)
Definition ends {A : Type} (I : World -> Prop) (m : M A)
    (Q : Outcome A -> World -> Prop) : Prop :=
  forall w o w', I w -> m w = (o, w') -> Q o w'.

Definition has_raised {A : Type} (o : Outcome A) : Prop :=
  match o with
  | Raised _ => True
  | Returned _ => False
  end.

(** There is [node] at the path [p]. *)
Definition stays (p : Path) (node : Node) (w : World) : Prop :=
  fs w !! p = Some node.
(** * Properties *)

(** ** Worked values *)

Example round_half_even_down : Py.round_div 21 2 = 10.
Proof. vm_compute. reflexivity. Qed.

Example round_half_even_up : Py.round_div 23 2 = 12.
Proof. vm_compute. reflexivity. Qed.

Example round_dense_offset : Py.round_div 99 4 = 25.
Proof. vm_compute. reflexivity. Qed.

Example int_div_truncates : Py.int_div (1000 * 4) (-100) = -40.
Proof. vm_compute. reflexivity. Qed.

(** The model of binary64 against the floats of the machine: one million
    rows in batches of 200000/3 rows are 14 batches, not 15. *)
Example binary64_quotient_of_a_quotient :
  Binary64.same_number
    (Binary64.truediv (Binary64.float_of_int 1000000) (Binary64.int_truediv 200000 3))
    (1000000 / (200000 / 3))%float = true
  /\ Planner.initial_nb_batches 1000000 3 3 (-1) = 14.
Proof. split; vm_compute; reflexivity. Qed.

Example binary64_literal :
  Binary64.same_number (Binary64.round (11 # 10)) (11 / 10)%float = true.
Proof. vm_compute. reflexivity. Qed.

Example binary64_negative_quotient :
  Binary64.same_number
    (Binary64.truediv (Binary64.float_of_int 1000) (Binary64.int_truediv (-100) 3))
    (1000 / (-100 / 3))%float = true
  /\ Planner.initial_nb_batches 1000 (-1) 3 100 = -29.
Proof. split; vm_compute; reflexivity. Qed.

(** An integer of more than 53 bits is rounded when it becomes a float. *)
Example binary64_of_a_large_integer :
  Binary64.float_of_int (2 ^ 63 - 1) = inject_Z (2 ^ 63)
  /\ Binary64.same_number (Binary64.float_of_int (2 ^ 63 - 1))
       (9223372036854775808)%float = true.
Proof. split; vm_compute; reflexivity. Qed.

Example int64_wraps : Np.int64 (2 ^ 63 - 1 - -10) = - 2 ^ 63 + 9.
Proof. vm_compute. reflexivity. Qed.

(** Rowids from -10 to 8 and the highest rowid there is: their difference
    wraps, and the rowids are taken for quite consecutive. *)
Example rowids_that_wrap_are_quite_consecutive :
  Planner.rowids_quite_consecutive (-10) (2 ^ 63 - 1) 20 = true
  /\ Planner.rowids_quite_consecutive 10 1000 100 = false
  /\ Planner.rowids_quite_consecutive 1 100 100 = true.
Proof. split; [| split]; vm_compute; reflexivity. Qed.

Example upper_mixed : Py.upper "Name_1" = "NAME_1"%string.
Proof. reflexivity. Qed.

Example stem_gpkg : PathOps.stem ["data"; "parcels.v2.gpkg"] = "parcels.v2"%string.
Proof. reflexivity. Qed.

Example suffix_gpkg : PathOps.suffix ["data"; "parcels.v2.gpkg"] = ".gpkg"%string.
Proof. reflexivity. Qed.

Example suffix_hidden : PathOps.suffix ["data"; ".hidden"] = ""%string.
Proof. reflexivity. Qed.

Example ntile_sizes_7_3 : Engine.ntile_sizes 3 7 = [3; 2; 2]%nat.
Proof. reflexivity. Qed.

Example ntile_gapped :
  Engine.ntile 3 [40; 10; 1000; 20; 30; 2000; 3000]
  = [BatchInfo.mk 1 3 10 30; BatchInfo.mk 2 2 40 1000; BatchInfo.mk 3 2 2000 3000].
Proof. reflexivity. Qed.

Example projector_keeps_layer_casing :
  format_column_strings Py.upper (Some ["NAME"; "area"]%string)
    ["id"; "Name"; "AREA"; "geom"]%string "layer1" "l1_"
  = Returned (format_fragments ["Name"; "AREA"]%string "layer1" "l1_").
Proof. reflexivity. Qed.

Example projector_columns_fragment :
  FormattedColumnStrings.columns_prefix_alias_null
    (format_fragments ["Name"; "AREA"]%string "layer1" "l1_")
  = ("," +:+ "NULL " +:+ quoted "l1_Name" +:+ ", " +:+ "NULL " +:+ quoted "l1_AREA")%string.
Proof. reflexivity. Qed.

Example projector_rejects_bogus :
  format_column_strings Py.upper (Some ["bogus"]%string)
    ["id"; "Name"; "AREA"; "geom"]%string "" ""
  = Raised (ColumnsNotAvailable ["bogus"]%string ["id"; "Name"; "AREA"; "geom"]%string).
Proof. reflexivity. Qed.

Example lang_collinear_distance :
  Lang.point_line_distance 10 10 0 0 20 20 = 0%float.
Proof. reflexivity. Qed.

Example lang_degenerate_segment_is_nan :
  is_nan (Lang.point_line_distance 10 10 5 5 5 5) = true.
Proof. reflexivity. Qed.

(** ** Numbers *)

Lemma nearest_half (a b : Z) :
  0 < b -> - b <= 2 * (Binary64.nearest a b * b - a) <= b.
Proof.
  intros Hb. unfold Binary64.nearest.
  destruct (Z.ltb_spec b 0); [lia |].
  rewrite Z.abs_eq by lia.
  pose proof (Z.div_mod a b ltac:(lia)) as Hdm.
  pose proof (Z.mod_pos_bound a b Hb) as Hr.
  set (q := a / b) in *. set (r := a mod b) in *.
  destruct (Z.ltb_spec (2 * r) b); [nia |].
  destruct (Z.ltb_spec b (2 * r)); [nia |].
  destruct (Z.even q); nia.
Qed.

(** The significand of a rounded quotient has its 53 bits. *)
Lemma scale_exponent (a b : Z) :
  0 < a -> 0 < b ->
  0 < snd (Binary64.scale a b (Binary64.exponent a b))
  /\ 2 ^ 52 * snd (Binary64.scale a b (Binary64.exponent a b))
     <= fst (Binary64.scale a b (Binary64.exponent a b)).
Proof.
  intros Ha Hb.
  pose proof (Z.log2_spec a Ha) as [Hla _].
  pose proof (Z.log2_spec b Hb) as [_ Hlb].
  pose proof (Z.log2_nonneg a) as Hna. pose proof (Z.log2_nonneg b) as Hnb.
  rewrite Z.pow_succ_r in Hlb by lia.
  set (la := Z.log2 a) in *. set (lb := Z.log2 b) in *.
  assert (H51 : 2 ^ 51 * snd (Binary64.scale a b (la - lb - 52))
                <= fst (Binary64.scale a b (la - lb - 52))
                /\ 0 < snd (Binary64.scale a b (la - lb - 52))).
  { unfold Binary64.scale. destruct (Z.leb_spec 0 (la - lb - 52)); simpl.
    - assert (0 < 2 ^ (la - lb - 52)) by (apply Z.pow_pos_nonneg; lia).
      split; [| nia].
      replace la with (lb + 52 + (la - lb - 52)) in Hla by lia.
      rewrite !Z.pow_add_r in Hla by lia.
      set (P := 2 ^ (la - lb - 52)) in *. set (L := 2 ^ lb) in *.
      change (2 ^ 51) with 2251799813685248 in *.
      change (2 ^ 52) with 4503599627370496 in *.
      assert (b * P <= 2 * L * P) by nia. nia.
    - split; [| lia].
      assert (Hpow : 2 ^ (lb + 52) = 2 ^ la * 2 ^ (- (la - lb - 52))).
      { rewrite <- Z.pow_add_r by lia. f_equal. lia. }
      rewrite Z.pow_add_r in Hpow by lia.
      assert (0 < 2 ^ (- (la - lb - 52))) by (apply Z.pow_pos_nonneg; lia).
      set (P := 2 ^ (- (la - lb - 52))) in *. set (L := 2 ^ lb) in *.
      set (A := 2 ^ la) in *.
      change (2 ^ 51) with 2251799813685248 in *.
      change (2 ^ 52) with 4503599627370496 in *. nia. }
  unfold Binary64.exponent. fold la lb.
  destruct (Z.ltb_spec (fst (Binary64.scale a b (la - lb - 52)))
              (2 ^ 52 * snd (Binary64.scale a b (la - lb - 52)))) as [Hlt|Hge];
    [| split; [tauto | lia]].
  clear Hlt. destruct H51 as [H51 Hpos]. revert H51 Hpos.
  unfold Binary64.scale.
  destruct (Z.leb_spec 0 (la - lb - 52)), (Z.leb_spec 0 (la - lb - 52 - 1));
    simpl; try lia.
  - replace (la - lb - 52) with ((la - lb - 52 - 1) + 1) at 1 2 by lia.
    rewrite Z.pow_add_r by lia. change (2 ^ 1) with 2.
    change (2 ^ 51) with 2251799813685248. change (2 ^ 52) with 4503599627370496.
    assert (0 < 2 ^ (la - lb - 52 - 1)) by (apply Z.pow_pos_nonneg; lia).
    nia.
  - assert (la - lb - 52 = 0) as -> by lia. simpl.
    change (2 ^ 51) with 2251799813685248. change (2 ^ 52) with 4503599627370496.
    change (2 ^ 0) with 1. change (2 ^ 1) with 2. lia.
  - replace (- (la - lb - 52 - 1)) with (- (la - lb - 52) + 1) by lia.
    rewrite Z.pow_add_r by lia. change (2 ^ 1) with 2.
    change (2 ^ 51) with 2251799813685248. change (2 ^ 52) with 4503599627370496.
    nia.
Qed.

Lemma round_pos_bounds (a b : Z) :
  0 < a -> 0 < b ->
  ((a # Z.to_pos b) * (1 - (1 # 9007199254740992)) <= Binary64.round_pos a b)%Q
  /\ (Binary64.round_pos a b <= (a # Z.to_pos b) * (1 + (1 # 9007199254740992)))%Q.
Proof.
  intros Ha Hb.
  destruct (scale_exponent a b Ha Hb) as [HB Hbin].
  pose proof (nearest_half (fst (Binary64.scale a b (Binary64.exponent a b)))
                (snd (Binary64.scale a b (Binary64.exponent a b))) HB) as Hm.
  unfold Binary64.round_pos.
  set (e := Binary64.exponent a b) in *.
  set (m := Binary64.nearest _ _) in *. clearbody m.
  change (2 ^ 52) with 4503599627370496 in Hbin.
  unfold Binary64.scale in *.
  replace (1 - (1 # 9007199254740992))%Q
    with (9007199254740991 # 9007199254740992)%Q by reflexivity.
  replace (1 + (1 # 9007199254740992))%Q
    with (9007199254740993 # 9007199254740992)%Q by reflexivity.
  destruct (Z.leb_spec 0 e) as [He|He]; simpl in HB, Hbin, Hm.
  - assert (HP : 0 < 2 ^ e) by (apply Z.pow_pos_nonneg; lia).
    set (P := 2 ^ e) in *. clearbody P.
    unfold Qle, Qmult, inject_Z. cbn [Qnum Qden].
    rewrite !Pos2Z.inj_mul, !Z2Pos.id by lia.
    split; nia.
  - assert (HP : 0 < 2 ^ (- e)) by (apply Z.pow_pos_nonneg; lia).
    set (P := 2 ^ (- e)) in *. clearbody P.
    unfold Qle, Qmult. cbn [Qnum Qden].
    rewrite !Pos2Z.inj_mul, !Z2Pos.id by lia.
    split; nia.
Qed.

(** Rounding moves a positive number by at most one part in 2^53. *)
Lemma round_bounds (q : Q) :
  (0 < q)%Q ->
  (q * (1 - (1 # 9007199254740992)) <= Binary64.round q)%Q
  /\ (Binary64.round q <= q * (1 + (1 # 9007199254740992)))%Q.
Proof.
  intros Hq. destruct q as [n d]. unfold Qlt in Hq. simpl in Hq.
  unfold Binary64.round. cbn [Qnum Qden].
  destruct (Z.compare_spec n 0) as [|Hlt|Hgt]; try lia.
  pose proof (round_pos_bounds n (Zpos d) ltac:(lia) ltac:(lia)) as H.
  by rewrite Pos2Z.id in H.
Qed.

Lemma int_of_nonneg (v : Q) :
  (0 <= v)%Q -> 0 <= Binary64.int_of v /\ (inject_Z (Binary64.int_of v) <= v)%Q.
Proof.
  destruct v as [n d]. unfold Qle, Binary64.int_of. cbn [Qnum Qden inject_Z].
  intros Hn. rewrite Z.quot_div_nonneg by lia.
  split; [apply Z.div_pos; lia |].
  pose proof (Z.mul_div_le n (Zpos d) ltac:(lia)). lia.
Qed.

Lemma int_truediv_zero (b : Z) : Binary64.int_truediv 0 b = 0%Q.
Proof. reflexivity. Qed.

Lemma int_truediv_bounds (a b : Z) :
  0 < a -> 0 < b ->
  (0 < Binary64.int_truediv a b)%Q
  /\ (Binary64.int_truediv a b * inject_Z b
      <= inject_Z a * (1 + (1 # 9007199254740992)))%Q.
Proof.
  intros Ha Hb. unfold Binary64.int_truediv.
  assert (HQa : (0 < inject_Z a)%Q) by (unfold Qlt; simpl; lia).
  assert (HQb : (0 < inject_Z b)%Q) by (unfold Qlt; simpl; lia).
  assert (Hq : (0 < inject_Z a / inject_Z b)%Q) by (apply Qlt_shift_div_l; lra).
  destruct (round_bounds _ Hq) as [Hlo Hhi].
  assert (Heq : (inject_Z a / inject_Z b * inject_Z b == inject_Z a)%Q)
    by (field; lra).
  set (v := Binary64.round (inject_Z a / inject_Z b)) in *.
  set (q := (inject_Z a / inject_Z b)%Q) in *.
  split; [lra |]. nra.
Qed.

Lemma int_div_nonneg (a b : Z) : 0 <= a -> 0 < b -> 0 <= Py.int_div a b.
Proof.
  intros Ha Hb. unfold Py.int_div.
  destruct (Z.eq_dec a 0) as [->|]; [by rewrite int_truediv_zero |].
  apply int_of_nonneg.
  destruct (int_truediv_bounds a b ltac:(lia) Hb) as [H _]. lra.
Qed.

(** [int(a / b)] is below [c] when [a / b] is, by more than one part in
    2^53. *)
Lemma int_div_lt (a b c : Z) :
  0 <= a -> 0 < b ->
  a * 9007199254740993 < c * b * 9007199254740992 ->
  Py.int_div a b < c.
Proof.
  intros Ha Hb Hc. unfold Py.int_div.
  destruct (Z.eq_dec a 0) as [->|].
  { rewrite int_truediv_zero. change (Binary64.int_of 0%Q) with 0.
    destruct (Z.lt_ge_cases 0 c); [lia | nia]. }
  destruct (int_truediv_bounds a b ltac:(lia) Hb) as [Hpos Hhi].
  destruct (int_of_nonneg (Binary64.int_truediv a b) ltac:(lra)) as [_ Hint].
  set (v := Binary64.int_truediv a b) in *.
  set (k := Binary64.int_of v) in *.
  assert (HQb : (0 < inject_Z b)%Q) by (unfold Qlt; simpl; lia).
  assert (Hk : (inject_Z k * inject_Z b
                <= inject_Z a * (1 + (1 # 9007199254740992)))%Q) by nra.
  unfold Qle, Qmult, Qplus, inject_Z in Hk. cbn [Qnum Qden] in Hk.
  nia.
Qed.

Lemma int_div_le (a b : Z) : 0 <= a -> 2 <= b -> Py.int_div a b <= a.
Proof.
  intros Ha Hb. destruct (Z.eq_dec a 0) as [->|].
  { unfold Py.int_div. by rewrite int_truediv_zero. }
  pose proof (int_div_lt a b (a + 1) Ha ltac:(lia)) as H.
  assert (a * 9007199254740993 < (a + 1) * b * 9007199254740992) by nia.
  lia.
Qed.

(** Line 1582 on valid arguments: more rows than go in parallel, in at
    least two processes, make at least one batch. *)
Lemma quotient_of_a_quotient_positive (n m r : Z) :
  0 < m -> m < n -> 2 <= r ->
  1 <= Binary64.int_of
         (Binary64.truediv (Binary64.float_of_int n) (Binary64.int_truediv m r)).
Proof.
  intros Hm Hn Hr.
  unfold Binary64.float_of_int, Binary64.int_truediv, Binary64.truediv.
  assert (Hqn : (0 < inject_Z n)%Q) by (unfold Qlt; simpl; lia).
  assert (Hqm : (0 < inject_Z m / inject_Z r)%Q).
  { apply Qlt_shift_div_l; unfold Qlt; simpl; lia. }
  destruct (round_bounds _ Hqn) as [Hx _].
  destruct (round_bounds _ Hqm) as [Hy0 Hy].
  set (x := Binary64.round (inject_Z n)) in *.
  set (y := Binary64.round (inject_Z m / inject_Z r)) in *.
  assert (Hmr : (inject_Z m / inject_Z r <= inject_Z m * (1 # 2))%Q).
  { apply Qle_shift_div_r; [unfold Qlt; simpl; lia |].
    assert (2 <= inject_Z r)%Q by (unfold Qle; simpl; lia).
    assert (0 < inject_Z m)%Q by (unfold Qlt; simpl; lia). nra. }
  assert (Hnm : (inject_Z m + 1 <= inject_Z n)%Q).
  { unfold Qle, Qplus; simpl. lia. }
  assert (Hm1 : (1 <= inject_Z m)%Q) by (unfold Qle; simpl; lia).
  assert (Hypos : (0 < y)%Q) by lra.
  assert (Hxy : (y * (3 # 2) <= x)%Q) by lra.
  assert (Hq : (0 < x / y)%Q) by (apply Qlt_shift_div_l; lra).
  destruct (round_bounds _ Hq) as [Hz _].
  assert (Hdiv : (3 # 2 <= x / y)%Q) by (apply Qle_shift_div_l; lra).
  assert (Hone : (1 <= Binary64.round (x / y))%Q) by lra.
  unfold Binary64.int_of. destruct (Binary64.round (x / y)) as [zn zd].
  unfold Qle in Hone. simpl in Hone. cbn [Qnum Qden].
  rewrite Z.quot_div_nonneg by lia.
  apply Z.div_le_lower_bound; lia.
Qed.

(** ** Running the monad *)

Lemma bind_returned {A B : Type} (m : M A) (f : A -> M B) (w w' : World) (a : A) :
  m w = (Returned a, w') -> (m ≫= f) w = f a w'.
Proof. intros H. unfold mbind, M_bind. rewrite H. reflexivity. Qed.

Lemma bind_raised {A B : Type} (m : M A) (f : A -> M B) (w w' : World) (e : Exception) :
  m w = (Raised e, w') -> (m ≫= f) w = (Raised e, w').
Proof. intros H. unfold mbind, M_bind. rewrite H. reflexivity. Qed.

(** One step of a run: the first action of a sequence is known to return. *)
Tactic Notation "run" uconstr(H) := rewrite (bind_returned _ _ _ _ _ H).

Lemma get_layerinfo_of_layer (p : Path) (layer : string) (w : World) (l : Layer) :
  Gfo.read_layer p layer w = (Returned l, w) ->
  Gfo.get_layerinfo p layer w = (Returned (Gfo.layerinfo_of l), w).
Proof. intros H. unfold Gfo.get_layerinfo. rewrite (bind_returned _ _ _ _ _ H). reflexivity. Qed.

Lemma try_except_reraise_returned {A : Type} (body : M A) (handler : M unit)
    (w w' : World) (a : A) :
  body w = (Returned a, w') -> try_except_reraise body handler w = (Returned a, w').
Proof. intros H. unfold try_except_reraise. by rewrite H. Qed.

(** ** The batch planner *)

Lemma clamp_one (n : Z) : Planner.clamp_nb_batches n 1 = 1.
Proof.
  unfold Planner.clamp_nb_batches.
  destruct (Z.ltb_spec (Py.int_div n 10) 1); lia.
Qed.

Lemma featurecount_zero_iff (l : Layer) :
  LayerInfo.featurecount (Gfo.layerinfo_of l) = 0 <-> layer_rowids l = [].
Proof.
  unfold Gfo.layerinfo_of; simpl. destruct (layer_rowids l); simpl; split; intros; try done; lia.
Qed.

Lemma prepare_input_files_as_given
    (p1 : Path) (l1 : string) (td : Path) (p2 : option Path) (l2 : option string)
    (w : World) :
  Planner.prepare_input_files p1 l1 td false p2 l2 w = (Returned (p1, p2), w).
Proof. reflexivity. Qed.

Lemma initial_nb_batches_sequential (n nb_parallel resolved batchsize : Z) :
  resolved <= 1 -> Planner.initial_nb_batches n nb_parallel resolved batchsize = 1.
Proof.
  intros H. unfold Planner.initial_nb_batches.
  destruct (Z.ltb_spec 1 resolved); [lia | reflexivity].
Qed.

Lemma prepare_batches_one
    (p : Path) (layer : string) (li : LayerInfo.t) (alias : option string) (w : World) :
  Planner.prepare_batches p layer li alias 1 w
  = (Returned [(0, mkBatch layer p NoFilter)], w).
Proof. reflexivity. Qed.

(** C6.  A layer with rows, planned with a resolved parallelism of at most
    one (the caller passes [nb_parallel = 1], or the automatic choice comes
    out at one): the planner returns exactly one batch, batch 0, and its
    filter is the empty string, whatever the number of rows.  The planner
    can raise only while it normalizes the inputs of a two layer
    operation. *)
Theorem sequential_plan_is_one_unfiltered_batch
    (w : World) (input1_path : Path) (input1_layer : string) (tempdir : Path)
    (convert_to_spatialite_based : bool) (nb_parallel batchsize : Z)
    (input1_layer_alias : option string)
    (input2_path : option Path) (input2_layer : option string) (l : Layer) :
  Gfo.read_layer input1_path input1_layer w = (Returned l, w) ->
  layer_rowids l <> [] ->
  Planner.resolved_nb_parallel (cpu_count w)
    (Z.of_nat (length (layer_rowids l))) nb_parallel <= 1 ->
  match _prepare_processing_params input1_path input1_layer tempdir
          convert_to_spatialite_based nb_parallel batchsize input1_layer_alias
          input2_path input2_layer w with
  | (Returned (Some pp), _) =>
      exists b, ProcessingParams.batches pp = [(0, b)]
                /\ batch_filter b = NoFilter
                /\ RowFilter.render (batch_filter b) = ""%string
  | (Returned None, _) => False
  | (Raised _, _) => convert_to_spatialite_based = true
  end.
Proof.
  intros Hl Hne Hres.
  unfold _prepare_processing_params.
  run (get_layerinfo_of_layer _ _ _ _ Hl).
  destruct (Z.eqb_spec (LayerInfo.featurecount (Gfo.layerinfo_of l)) 0) as [E|E].
  { apply featurecount_zero_iff in E. done. }
  rewrite (bind_returned get_world _ w w w eq_refl).
  rewrite initial_nb_batches_sequential by exact Hres.
  destruct (Planner.prepare_input_files input1_path input1_layer tempdir
              convert_to_spatialite_based input2_path input2_layer w)
    as [[[p1 p2]|e] w2] eqn:Hfiles.
  2: { rewrite (bind_raised _ _ _ _ _ Hfiles).
       destruct convert_to_spatialite_based; [reflexivity | discriminate]. }
  run Hfiles.
  destruct (Gfo.get_layerinfo p1 input1_layer w2) as [[li|e] w3] eqn:Hinfo.
  2: { rewrite (bind_raised _ _ _ _ _ Hinfo).
       destruct convert_to_spatialite_based; [reflexivity |].
       rewrite prepare_input_files_as_given in Hfiles.
       injection Hfiles as <- <- <-.
       rewrite (get_layerinfo_of_layer _ _ _ _ Hl) in Hinfo. discriminate. }
  run Hinfo.
  rewrite clamp_one.
  run (prepare_batches_one _ _ _ _ _).
  simpl. eexists. split; [reflexivity | split; reflexivity].
Qed.

(** A layer of 250 rows, one processor asked for. *)
Lemma sequential_plan_is_one_unfiltered_batch_witness :
  match Fixture.plan (Fixture.world (Fixture.consecutive 250) 8) 1 (-1) with
  | (Returned (Some pp), _) =>
      exists b, ProcessingParams.batches pp = [(0, b)]
                /\ batch_filter b = NoFilter
                /\ RowFilter.render (batch_filter b) = ""%string
  | (Returned None, _) => False
  | (Raised _, _) => false = true
  end.
Proof.
  apply (sequential_plan_is_one_unfiltered_batch
           (Fixture.world (Fixture.consecutive 250) 8) Fixture.parcels_path "parcels"
           ["tmp"; "work"]%string false 1 (-1) (Some "layer"%string) None None
           (Fixture.layer_of "parcels" (Fixture.consecutive 250))).
  - vm_compute. reflexivity.
  - discriminate.
  - vm_compute. discriminate.
Defined.

(** ** An output that exists already *)

Lemma exists_run (p : Path) (w : World) :
  Gfo.exists_ p w = (Returned (Gfo.path_exists w p), w).
Proof. reflexivity. Qed.

Lemma logger_run (l : LogLine) (w : World) :
  logger l w = (Returned tt, logged l w).
Proof. reflexivity. Qed.

(** The return of lines 393-396 and 1322-1325. *)
Lemma output_exists_run
    (upper : string -> string) (worker : Z -> string -> WorkerResult)
    (as_completed : list Z -> list Z) (c : Call) (w : World) :
  Call.inputs_accepted c w ->
  Gfo.path_exists w (Call.output_path c) = true ->
  Call.force c = false ->
  Call.run upper worker as_completed c w
  = (Returned tt,
     logged (LogInfo ("Stop " +:+ Call.operation_name c +:+ ": output exists already")) w).
Proof.
  intros Hin Hout Hforce.
  destruct c as [c|c]; simpl in *.
  - destruct Hin as [Hexists Hlayer].
    unfold _single_layer_vector_operation.
    rewrite (bind_returned _ _ _ _ _ (exists_run _ w)), Hexists. simpl.
    destruct (SingleLayerCall.input_layer c) as [l|] eqn:El.
    + rewrite (bind_returned (mret l) _ w w l eq_refl).
      rewrite (bind_returned _ _ _ _ _ (exists_run _ w)), Hout, Hforce. simpl.
      apply logger_run.
    + destruct (Hlayer eq_refl) as [l Hl].
      run Hl.
      rewrite (bind_returned _ _ _ _ _ (exists_run _ w)), Hout, Hforce. simpl.
      apply logger_run.
  - destruct Hin as (Hexists1 & Hexists2 & Hogr).
    unfold _two_layer_vector_operation.
    rewrite (bind_returned _ _ _ _ _ (exists_run _ w)), Hexists1. simpl.
    rewrite (bind_returned _ _ _ _ _ (exists_run _ w)), Hexists2. simpl.
    destruct (TwoLayerCall.use_ogr c) eqn:Eogr; simpl.
    + rewrite bool_decide_true by (apply Hogr; reflexivity). simpl.
      rewrite (bind_returned _ _ _ _ _ (exists_run _ w)), Hout, Hforce. simpl.
      apply logger_run.
    + rewrite (bind_returned _ _ _ _ _ (exists_run _ w)), Hout, Hforce. simpl.
      apply logger_run.
Qed.

(** C3, as the code has it.  An invocation whose inputs pass the checks made
    before the output is looked at (the input paths exist; the only layer of
    a single input can be named; with [use_ogr] both inputs are one file),
    whose output path exists and that does not force: the operation logs one
    line and returns; the file system is as it was, and the engine was not
    asked anything (no statement, no query of the planner). *)
Theorem existing_output_is_left_alone
    (upper : string -> string) (worker : Z -> string -> WorkerResult)
    (as_completed : list Z -> list Z) (c : Call) (w : World) :
  Call.inputs_accepted c w ->
  Gfo.path_exists w (Call.output_path c) = true ->
  Call.force c = false ->
  Call.run upper worker as_completed c w
  = (Returned tt,
     logged (LogInfo ("Stop " +:+ Call.operation_name c +:+ ": output exists already")) w).
Proof. apply output_exists_run. Qed.

(** A buffer of the 100 parcels onto a result of an earlier run. *)
Lemma existing_output_is_left_alone_witness :
  Call.run Py.upper Fixture.worker_ok Fixture.in_submission_order
    (Fixture.single_layer_call Fixture.parcels_path 2 (-1) false)
    (Fixture.world_with_output (Fixture.consecutive 100) 8)
  = (Returned tt,
     logged (LogInfo "Stop buffer: output exists already")
       (Fixture.world_with_output (Fixture.consecutive 100) 8)).
Proof.
  apply (existing_output_is_left_alone Py.upper Fixture.worker_ok
           Fixture.in_submission_order
           (Fixture.single_layer_call Fixture.parcels_path 2 (-1) false)
           (Fixture.world_with_output (Fixture.consecutive 100) 8)).
  - split; [vm_compute; reflexivity |].
    intros _. exists "parcels"%string. vm_compute. reflexivity.
  - vm_compute. reflexivity.
  - reflexivity.
Defined.

(** C3 as it is written fails: the output exists and is not forced, yet the
    invocation is no silent return, it raises, because the input path is
    looked at first (line 383) and there is nothing at it. *)
Lemma existing_output_but_missing_input_raises :
  Gfo.path_exists (Fixture.world_with_output (Fixture.consecutive 100) 8)
    (Call.output_path (Fixture.single_layer_call Fixture.missing_path 2 (-1) false))
  = true
  /\ Call.force (Fixture.single_layer_call Fixture.missing_path 2 (-1) false) = false
  /\ Call.run Py.upper Fixture.worker_ok Fixture.in_submission_order
       (Fixture.single_layer_call Fixture.missing_path 2 (-1) false)
       (Fixture.world_with_output (Fixture.consecutive 100) 8)
     = (Raised (InputPathMissing "buffer" "input_path" Fixture.missing_path),
        Fixture.world_with_output (Fixture.consecutive 100) 8).
Proof. split; [| split]; vm_compute; reflexivity. Qed.

(** ** The working directory *)

Lemma tempdir_candidate_inj (base : string) : Inj (=) (=) (Gfo.tempdir_candidate base).
Proof.
  intros i j H. unfold Gfo.tempdir_candidate in H.
  injection H as H.
  apply (inj (String.app base)) in H.
  apply (inj (String.app "_")) in H.
  apply (inj pretty) in H. lia.
Qed.

Lemma some_candidate_is_free (base : string) (w : World) :
  exists i,
    List.find (fun i => negb (Gfo.path_exists w (Gfo.tempdir_candidate base i)))
      (seq 1 (S (size (fs w)))) = Some i.
Proof.
  destruct (List.find _ _) as [i|] eqn:Hfind; [by exists i |].
  exfalso.
  pose proof (List.find_none _ _ Hfind) as Hall.
  set (cands := Gfo.tempdir_candidate base <$> seq 1 (S (size (fs w)))).
  assert (Hnodup : NoDup cands).
  { apply (NoDup_fmap_2 _ (Inj0 := tempdir_candidate_inj base)). apply NoDup_seq. }
  assert (Hsub : (list_to_set cands : gset Path) ⊆ dom (fs w)).
  { intros p Hp. apply elem_of_list_to_set in Hp.
    apply list_elem_of_fmap in Hp as (i & -> & Hi).
    apply list_elem_of_In in Hi. specialize (Hall i Hi). simpl in Hall.
    apply negb_false_iff in Hall. unfold Gfo.path_exists in Hall.
    apply bool_decide_eq_true in Hall. by apply elem_of_dom. }
  apply subseteq_size in Hsub.
  rewrite size_list_to_set in Hsub by exact Hnodup.
  rewrite size_dom in Hsub.
  unfold cands in Hsub. rewrite length_fmap, length_seq in Hsub. lia.
Qed.

Lemma ancestors_or_self_length (p q : Path) :
  q ∈ PathOps.ancestors_or_self p -> (1 <= length q <= length p)%nat.
Proof.
  unfold PathOps.ancestors_or_self. intros H.
  apply list_elem_of_fmap in H as (n & -> & Hn).
  apply elem_of_seq in Hn. rewrite length_take. lia.
Qed.

Lemma self_in_ancestors_or_self (p : Path) :
  p <> [] -> p ∈ PathOps.ancestors_or_self p.
Proof.
  intros Hp. unfold PathOps.ancestors_or_self.
  apply list_elem_of_fmap. exists (length p). split.
  - by rewrite firstn_all.
  - apply elem_of_seq. destruct p; [done | simpl; lia].
Qed.

(** What [make_dirs] leaves at a path: what was there, or a directory at the
    new ones. *)
Lemma make_dirs_lookup (p q : Path) (m : gmap Path Node) :
  Gfo.make_dirs p m !! q
  = match m !! q with
    | Some n => Some n
    | None => if bool_decide (q ∈ PathOps.ancestors_or_self p) then Some Dir else None
    end.
Proof.
  unfold Gfo.make_dirs.
  induction (PathOps.ancestors_or_self p) as [|d ds IH]; cbn [foldr].
  - destruct (m !! q); [done |].
    case_bool_decide as H; [by apply elem_of_nil in H | done].
  - assert (Hstep : forall acc : gmap Path Node,
      match acc !! d with Some _ => acc | None => <[d := Dir]> acc end !! q
      = match acc !! q with
        | Some n => Some n
        | None => if bool_decide (q = d) then Some Dir else None
        end).
    { intros acc. destruct (decide (q = d)) as [->|Hne].
      - rewrite bool_decide_true by done.
        destruct (acc !! d) eqn:E; simpl; [exact E | apply lookup_insert_eq].
      - rewrite bool_decide_false by done.
        destruct (acc !! d) eqn:E; simpl.
        + by destruct (acc !! q).
        + rewrite lookup_insert_ne by done. by destruct (acc !! q). }
    rewrite Hstep, IH. destruct (m !! q); [done |].
    destruct (decide (q ∈ ds)) as [Hin|Hnin].
    + rewrite (bool_decide_true (q ∈ ds)) by done.
      by rewrite (bool_decide_true (q ∈ d :: ds)) by by apply list_elem_of_further.
    + rewrite (bool_decide_false (q ∈ ds)) by done.
      destruct (decide (q = d)) as [->|Hne].
      * rewrite (bool_decide_true (d = d)) by done.
        by rewrite (bool_decide_true (d ∈ d :: ds)) by apply list_elem_of_here.
      * rewrite (bool_decide_false (q = d)) by done.
        rewrite (bool_decide_false (q ∈ d :: ds)); [done |].
        intros [?|?]%elem_of_cons; done.
Qed.

(** The working directory can always be made: it is a path at which there
    was nothing, and the world differs by the new directories only. *)
Lemma create_tempdir_run (base : string) (w : World) :
  exists td,
    Gfo.create_tempdir base w = (Returned td, set_fs (Gfo.make_dirs td) w)
    /\ fs w !! td = None
    /\ (length td = 3)%nat.
Proof.
  destruct (some_candidate_is_free base w) as [i Hi].
  exists (Gfo.tempdir_candidate base i).
  pose proof (List.find_some _ _ Hi) as [_ Hfree]. simpl in Hfree.
  apply negb_true_iff in Hfree. unfold Gfo.path_exists in Hfree.
  apply bool_decide_eq_false in Hfree.
  assert (Hnone : fs w !! Gfo.tempdir_candidate base i = None).
  { destruct (fs w !! Gfo.tempdir_candidate base i) eqn:E; [| done].
    exfalso. apply Hfree. by eexists. }
  split; [| split; [exact Hnone | reflexivity]].
  unfold Gfo.create_tempdir.
  rewrite (bind_returned get_world _ w w w eq_refl).
  rewrite Hi.
  unfold Gfo.mkdir_parents at 1.
  unfold mbind, M_bind. rewrite Hnone. reflexivity.
Qed.

(** ** A world that differs in places an operation does not read *)

Lemma read_layer_agrees (p : Path) (layer : string) (w w' : World) (l : Layer) :
  fs w' !! p = fs w !! p ->
  Gfo.read_layer p layer w = (Returned l, w) ->
  Gfo.read_layer p layer w' = (Returned l, w').
Proof.
  unfold Gfo.read_layer. intros ->.
  destruct (fs w !! p) as [[|layers]|]; try discriminate.
  destruct (Gfo.find_layer layers layer); [| discriminate].
  intros H. injection H as ->. reflexivity.
Qed.

Lemma read_layer_exists (p : Path) (layer : string) (w w' : World) (l : Layer) :
  Gfo.read_layer p layer w = (Returned l, w') ->
  exists layers, fs w !! p = Some (File layers).
Proof.
  unfold Gfo.read_layer.
  destruct (fs w !! p) as [[|layers]|]; try discriminate. eauto.
Qed.

Lemma get_only_layer_agrees (p : Path) (w w' : World) (name : string) :
  fs w' !! p = fs w !! p ->
  Gfo.get_only_layer p w = (Returned name, w) ->
  Gfo.get_only_layer p w' = (Returned name, w').
Proof.
  unfold Gfo.get_only_layer, Gfo.listlayers, mbind, M_bind. intros ->.
  destruct (fs w !! p) as [[|layers]|]; try discriminate.
  destruct (layer_name <$> layers) as [|x [|y rest]]; try discriminate.
  intros H. injection H as ->. reflexivity.
Qed.

Lemma get_only_layer_exists (p : Path) (w w' : World) (name : string) :
  Gfo.get_only_layer p w = (Returned name, w') ->
  exists layers, fs w !! p = Some (File layers).
Proof.
  unfold Gfo.get_only_layer, Gfo.listlayers, mbind, M_bind.
  destruct (fs w !! p) as [[|layers]|]; try discriminate. eauto.
Qed.

Lemma names_layer_agrees (layer : option string) (p : Path) (w w' : World) (name : string) :
  fs w' !! p = fs w !! p ->
  Call.names_layer layer p w name ->
  Call.names_layer layer p w' name.
Proof.
  destruct layer; simpl; [done |]. apply get_only_layer_agrees.
Qed.

Lemma names_layer_run (layer : option string) (p : Path) (w : World) (name : string) :
  Call.names_layer layer p w name ->
  (match layer with
   | Some l => mret l
   | None => Gfo.get_only_layer p
   end) w = (Returned name, w).
Proof. destruct layer; simpl; [by intros -> | done]. Qed.

(** ** Trees *)

Lemma parent_in_proper_ancestors (d : Path) (n : string) :
  d <> [] -> d ∈ proper_ancestors (d ++ [n]).
Proof.
  intros Hd. unfold proper_ancestors.
  apply list_elem_of_fmap. exists (length d). split.
  - by rewrite take_app_length.
  - apply elem_of_seq. rewrite length_app. simpl. destruct d; [done | simpl; lia].
Qed.

Lemma nothing_below_nothing (m : gmap Path Node) (d : Path) (n : string) :
  tree m -> d <> [] -> m !! d = None -> m !! (d ++ [n]) = None.
Proof.
  intros Htree Hd Hnone.
  destruct (m !! (d ++ [n])) as [x|] eqn:E; [| done].
  specialize (Htree _ _ E). simpl in Htree.
  rewrite Forall_forall in Htree.
  specialize (Htree d (parent_in_proper_ancestors d n Hd)). congruence.
Qed.

Lemma tree_delete_file (m : gmap Path Node) (p : Path) (layers : list Layer) :
  tree m -> m !! p = Some (File layers) -> tree (delete p m).
Proof.
  intros Htree Hp q x Hq.
  apply lookup_delete_Some in Hq as [Hne Hq].
  specialize (Htree _ _ Hq). simpl in *.
  eapply Forall_impl; [exact Htree |].
  intros a Ha. simpl in Ha.
  rewrite lookup_delete_ne; [done |]. intros ->. congruence.
Qed.

(** ** A layer without rows *)

Lemma plan_of_empty_layer
    (w : World) (input1_path : Path) (input1_layer : string) (tempdir : Path)
    (convert_to_spatialite_based : bool) (nb_parallel batchsize : Z)
    (input1_layer_alias : option string)
    (input2_path : option Path) (input2_layer : option string) (l : Layer) :
  Gfo.read_layer input1_path input1_layer w = (Returned l, w) ->
  layer_rowids l = [] ->
  _prepare_processing_params input1_path input1_layer tempdir
    convert_to_spatialite_based nb_parallel batchsize input1_layer_alias
    input2_path input2_layer w
  = (Returned None, logged (LogInfo "The input layer doesn't contain any rows.") w).
Proof.
  intros Hl Hempty.
  unfold _prepare_processing_params.
  run (get_layerinfo_of_layer _ _ _ _ Hl).
  destruct (Z.eqb_spec (LayerInfo.featurecount (Gfo.layerinfo_of l)) 0) as [E|E].
  - reflexivity.
  - exfalso. apply E. by apply featurecount_zero_iff.
Qed.

(** An output that is in the way is removed, when it is no directory. *)
Lemma forced_output_removed (w : World) (out : Path) :
  fs w !! out <> Some Dir ->
  exists w1,
    (if Gfo.path_exists w out then Gfo.remove out else mret tt) w = (Returned tt, w1)
    /\ fs w1 !! out = None
    /\ (forall p, p <> out -> fs w1 !! p = fs w !! p)
    /\ (tree (fs w) -> tree (fs w1))
    /\ spatialite_available w1 = spatialite_available w
    /\ engine w1 = engine w.
Proof.
  intros Hnodir. unfold Gfo.path_exists.
  destruct (fs w !! out) as [[|layers]|] eqn:E.
  - done.
  - rewrite bool_decide_true by eauto.
    exists (set_fs (delete out) w). unfold Gfo.remove. rewrite E.
    split; [reflexivity |]. simpl.
    split; [apply lookup_delete_eq |].
    split; [intros p Hp; by apply lookup_delete_ne |].
    split; [intros Ht; by eapply tree_delete_file | done].
  - rewrite bool_decide_false by (intros [? ?]; done).
    exists w. split; [reflexivity |]. done.
Qed.

Lemma make_dirs_keeps (d p : Path) (m : gmap Path Node) (n : Node) :
  m !! p = Some n -> Gfo.make_dirs d m !! p = Some n.
Proof. intros H. by rewrite make_dirs_lookup, H. Qed.

Lemma make_dirs_only_adds_dirs (d p : Path) (m : gmap Path Node) (layers : list Layer) :
  Gfo.make_dirs d m !! p = Some (File layers) -> m !! p = Some (File layers).
Proof.
  rewrite make_dirs_lookup. destruct (m !! p); [done |].
  by case_bool_decide.
Qed.

Lemma make_dirs_self (d : Path) (m : gmap Path Node) :
  d <> [] -> m !! d = None -> Gfo.make_dirs d m !! d = Some Dir.
Proof.
  intros Hd H. rewrite make_dirs_lookup, H.
  by rewrite bool_decide_true by by apply self_in_ancestors_or_self.
Qed.

Lemma make_dirs_not_below (d : Path) (n : string) (m : gmap Path Node) :
  m !! (d ++ [n]) = None -> Gfo.make_dirs d m !! (d ++ [n]) = None.
Proof.
  intros H. rewrite make_dirs_lookup, H.
  rewrite bool_decide_false; [done |].
  intros Hin%ancestors_or_self_length. rewrite length_app in Hin. simpl in Hin. lia.
Qed.

(** C5.  A layer without rows: the planner returns [None] and only logs;
    an operation that gets as far as the planner returns without an error,
    the engine was asked nothing (no batch was submitted, no query sent),
    and no container was made at the output path: a container found there
    afterwards is the one of before, kept because the call does not force. *)
Theorem empty_layer_is_nothing_to_do
    (upper : string -> string) (worker : Z -> string -> WorkerResult)
    (as_completed : list Z -> list Z) (c : Call) (w : World) (l : Layer) :
  Call.reaches_planner c w l ->
  layer_rowids l = [] ->
  (forall name tempdir convert_to_spatialite_based nb_parallel batchsize
          input1_layer_alias input2_path input2_layer,
     Gfo.read_layer (Call.input1_path c) name w = (Returned l, w) ->
     _prepare_processing_params (Call.input1_path c) name tempdir
       convert_to_spatialite_based nb_parallel batchsize input1_layer_alias
       input2_path input2_layer w
     = (Returned None,
        logged (LogInfo "The input layer doesn't contain any rows.") w))
  /\ exists w',
    Call.run upper worker as_completed c w = (Returned tt, w')
    /\ engine w' = engine w
    /\ forall layers,
         fs w' !! Call.output_path c = Some (File layers) ->
         fs w !! Call.output_path c = Some (File layers) /\ Call.force c = false.
Proof.
  intros (Htree & Hnodir & Hc) Hempty.
  split.
  { intros. by apply (plan_of_empty_layer _ _ _ _ _ _ _ _ _ _ l). }
  destruct (Gfo.path_exists w (Call.output_path c) && negb (Call.force c)) eqn:Hearly.
  { apply andb_true_iff in Hearly as [Hout Hforce%negb_true_iff].
    eexists. split; [| split].
    - apply output_exists_run; [| done | done].
      destruct c as [c|c]; simpl in *.
      + destruct Hc as (_ & name & Hname & Hread).
        apply read_layer_exists in Hread as [layers Hfile].
        split; [unfold Gfo.path_exists; rewrite Hfile; by apply bool_decide_true |].
        intros Hnone. rewrite Hnone in Hname. simpl in Hname. eauto.
      + destruct Hc as (_ & _ & Hogr & _ & (n1 & _ & Hr1) & (n2 & l2 & _ & Hr2)).
        apply read_layer_exists in Hr1 as [ls1 Hf1].
        apply read_layer_exists in Hr2 as [ls2 Hf2].
        split; [unfold Gfo.path_exists; rewrite Hf1; by apply bool_decide_true |].
        split; [unfold Gfo.path_exists; rewrite Hf2; by apply bool_decide_true | done].
    - reflexivity.
    - simpl. done. }
  destruct (forced_output_removed w (Call.output_path c) Hnodir)
    as (w1 & Hremove & Hgone & Hsame & Htree1 & Hsl1 & Heng1).
  specialize (Htree1 Htree).
  destruct c as [c|c]; simpl in *.
  - destruct Hc as (Hdiff & name & Hname & Hread).
    pose proof (read_layer_exists _ _ _ _ _ Hread) as [layers Hfile].
    unfold _single_layer_vector_operation.
    run (exists_run _ w).
    unfold Gfo.path_exists at 1. rewrite Hfile, bool_decide_true by eauto. simpl.
    run (names_layer_run _ _ _ _ Hname).
    rewrite (bind_returned _ _ _ _ _ (exists_run _ w)), Hearly.
    run Hremove.
    assert (Hin1 : fs w1 !! SingleLayerCall.input_path c = fs w !! SingleLayerCall.input_path c)
      by (apply Hsame; congruence).
    pose proof (read_layer_agrees _ _ _ _ _ Hin1 Hread) as Hread1.
    run (get_layerinfo_of_layer _ _ _ _ Hread1).
    destruct (create_tempdir_run (replace_spaces (SingleLayerCall.operation_name c)) w1)
      as (td & Htd & Hfresh & Hlen).
    run Htd.
    assert (Htd_ne : td <> []) by (destruct td; [discriminate | done]).
    set (w2 := set_fs (Gfo.make_dirs td) w1).
    assert (Hread2 : Gfo.read_layer (SingleLayerCall.input_path c) name w2 = (Returned l, w2)).
    { apply (read_layer_agrees _ _ w1); [| done].
      simpl. rewrite Hin1, Hfile. by apply make_dirs_keeps; rewrite Hin1. }
    unfold try_finally.
    run (plan_of_empty_layer _ _ _ _ _ _ _ _ _ _ _ Hread2 Hempty).
    simpl.
    unfold Gfo.rmtree, mbind, M_bind. simpl.
    rewrite (make_dirs_self _ _ Htd_ne Hfresh). simpl.
    eexists. split; [reflexivity |]. simpl. split; [done |].
    intros ls Hls.
    apply map_lookup_filter_Some in Hls as [Hls _].
    apply make_dirs_only_adds_dirs in Hls. congruence.
  - destruct Hc as (Hdiff1 & Hdiff2 & Hogr & Hsl & (n1 & Hn1 & Hr1) & (n2 & l2 & Hn2 & Hr2)).
    pose proof (read_layer_exists _ _ _ _ _ Hr1) as [ls1 Hf1].
    pose proof (read_layer_exists _ _ _ _ _ Hr2) as [ls2 Hf2].
    unfold _two_layer_vector_operation.
    run (exists_run _ w).
    unfold Gfo.path_exists at 1. rewrite Hf1, bool_decide_true by eauto. simpl.
    run (exists_run _ w).
    unfold Gfo.path_exists at 1. rewrite Hf2, bool_decide_true by eauto. simpl.
    assert (Hogr' : TwoLayerCall.use_ogr c
                    && negb (bool_decide (TwoLayerCall.input1_path c = TwoLayerCall.input2_path c))
                    = false).
    { destruct (TwoLayerCall.use_ogr c); [| done].
      by rewrite bool_decide_true by by apply Hogr. }
    rewrite Hogr'.
    rewrite (bind_returned _ _ _ _ _ (exists_run _ w)), Hearly.
    run Hremove.
    assert (Hin1 : fs w1 !! TwoLayerCall.input1_path c = fs w !! TwoLayerCall.input1_path c)
      by (apply Hsame; congruence).
    assert (Hin2 : fs w1 !! TwoLayerCall.input2_path c = fs w !! TwoLayerCall.input2_path c)
      by (apply Hsame; congruence).
    assert (Hdeps : Gfo.check_runtimedependencies w1 = (Returned tt, w1)).
    { unfold Gfo.check_runtimedependencies. by rewrite Hsl1, Hsl. }
    run Hdeps.
    rewrite (bind_returned _ _ _ _ _
               (names_layer_run _ _ _ _ (names_layer_agrees _ _ _ _ _ Hin1 Hn1))).
    rewrite (bind_returned _ _ _ _ _
               (names_layer_run _ _ _ _ (names_layer_agrees _ _ _ _ _ Hin2 Hn2))).
    destruct (create_tempdir_run (TwoLayerCall.operation_name c) w1)
      as (td & Htd & Hfresh & Hlen).
    run Htd.
    assert (Htd_ne : td <> []) by (destruct td; [discriminate | done]).
    set (w2 := set_fs (Gfo.make_dirs td) w1).
    assert (Hread1 : Gfo.read_layer (TwoLayerCall.input1_path c) n1 w2 = (Returned l, w2)).
    { apply (read_layer_agrees _ _ w); [| done].
      simpl. rewrite Hf1. by apply make_dirs_keeps; rewrite Hin1. }
    assert (Hread2 : Gfo.read_layer (TwoLayerCall.input2_path c) n2 w2 = (Returned l2, w2)).
    { apply (read_layer_agrees _ _ w); [| done].
      simpl. rewrite Hf2. by apply make_dirs_keeps; rewrite Hin2. }
    run (get_layerinfo_of_layer _ _ _ _ Hread1).
    run (get_layerinfo_of_layer _ _ _ _ Hread2).
    assert (Hparent : PathOps.parent (PathOps.join td (PathOps.name (TwoLayerCall.output_path c))) = td).
    { unfold PathOps.parent, PathOps.join. apply removelast_last. }
    rewrite Hparent.
    assert (Hmk : Gfo.mkdir_parents td w2 = (Returned tt, set_fs (Gfo.make_dirs td) w2)).
    { unfold Gfo.mkdir_parents. subst w2. simpl.
      by rewrite (make_dirs_self _ _ Htd_ne Hfresh). }
    run Hmk.
    set (w3 := set_fs (Gfo.make_dirs td) w2).
    assert (Hbelow : fs w3 !! PathOps.join td (PathOps.name (TwoLayerCall.output_path c)) = None).
    { subst w3 w2. simpl. unfold PathOps.join.
      do 2 apply make_dirs_not_below. by apply nothing_below_nothing. }
    assert (Hrm : Gfo.remove (PathOps.join td (PathOps.name (TwoLayerCall.output_path c))) w3
                  = (Returned tt, w3)).
    { unfold Gfo.remove. by rewrite Hbelow. }
    run Hrm.
    assert (Hread3 : forall w4, fs w4 = fs w3 ->
              Gfo.read_layer (TwoLayerCall.input1_path c) n1 w4 = (Returned l, w4)).
    { intros w4 Hw4. apply (read_layer_agrees _ _ w2); [| done].
      rewrite Hw4. subst w3. simpl.
      destruct (read_layer_exists _ _ _ _ _ Hread1) as [ls Hls].
      simpl in Hls. rewrite Hls. by apply make_dirs_keeps. }
    erewrite (bind_returned (try_except_reraise _ _)); cycle 1.
    { apply try_except_reraise_returned.
      run (logger_run _ w3).
      rewrite (bind_returned _ _ _ _ _
                 (plan_of_empty_layer _ _ _ _ _ _ _ _ _ _ _
                    (Hread3 (logged (LogInfo ("Prepare input (params) for "
                                               +:+ TwoLayerCall.operation_name c)) w3)
                       eq_refl)
                    Hempty)).
      reflexivity. }
    eexists. split; [reflexivity |]. simpl. split; [done |].
    intros ls Hls.
    do 2 apply make_dirs_only_adds_dirs in Hls. congruence.
Qed.

(** An intersection of an empty layer of parcels with the zones, forced. *)
Lemma empty_layer_is_nothing_to_do_witness :
  exists w',
    Call.run Py.upper Fixture.worker_ok Fixture.in_submission_order
      (Fixture.two_layer_call Fixture.parcels_path 2 (-1) true)
      (Fixture.world_with_output [] 8) = (Returned tt, w')
    /\ engine w' = []
    /\ forall layers,
         fs w' !! Fixture.output_path = Some (File layers) ->
         fs (Fixture.world_with_output [] 8) !! Fixture.output_path = Some (File layers)
         /\ true = false.
Proof.
  refine (proj2 (empty_layer_is_nothing_to_do Py.upper Fixture.worker_ok
                   Fixture.in_submission_order
                   (Fixture.two_layer_call Fixture.parcels_path 2 (-1) true)
                   (Fixture.world_with_output [] 8)
                   (Fixture.layer_of "parcels" []) _ _)).
  - split; [apply (bool_decide_unpack (tree _)); vm_compute; exact I |].
    split; [vm_compute; discriminate |].
    simpl. repeat split; try discriminate.
    + exists "parcels"%string. split; vm_compute; reflexivity.
    + exists "zones"%string, (Fixture.layer_of "zones" [1; 2; 3]).
      split; vm_compute; reflexivity.
  - reflexivity.
Defined.

(** ** The column projector *)

Lemma missing_columns_spec (upper : string -> string)
    (columns_specified columns_available : list string) (c : string) :
  c ∈ missing_columns upper columns_specified columns_available
  <-> c ∈ columns_specified /\ matches_no_column upper columns_available c.
Proof.
  unfold missing_columns, matches_no_column.
  rewrite list_elem_of_filter. split.
  - intros [Hnot Hin]. split; [done |].
    intros a Ha Heq. apply Hnot. rewrite <- Heq. by apply list_elem_of_fmap_2.
  - intros [Hin Hno]. split; [| done].
    intros (a & Heq & Ha)%list_elem_of_fmap. by apply (Hno a).
Qed.

Lemma columns_to_keep_spec (upper : string -> string)
    (columns_specified columns_available : list string) (c : string) :
  c ∈ columns_to_keep upper columns_specified columns_available
  <-> c ∈ columns_available
      /\ exists s, s ∈ columns_specified /\ upper s = upper c.
Proof.
  unfold columns_to_keep. rewrite list_elem_of_filter, list_elem_of_fmap.
  split.
  - intros [(s & Heq & Hs) Hin]. eauto.
  - intros [Hin (s & Hs & Heq)]. eauto.
Qed.

(** C8.  When a requested column matches no column of the layer, the case
    ignored, the projector raises, and the columns the error names are
    exactly the requested columns without a match; when every requested
    column has a match, it raises nothing. *)
Theorem unknown_columns_are_an_error
    (upper : string -> string) (columns_specified columns_available : list string)
    (table_alias columnname_prefix : string) :
  ((exists c, c ∈ columns_specified /\ matches_no_column upper columns_available c) ->
   exists missing,
     format_column_strings upper (Some columns_specified) columns_available
       table_alias columnname_prefix
     = Raised (ColumnsNotAvailable missing columns_available)
     /\ forall c, c ∈ missing
                  <-> c ∈ columns_specified
                      /\ matches_no_column upper columns_available c)
  /\ ((forall c, c ∈ columns_specified ->
                 exists a, a ∈ columns_available /\ upper a = upper c) ->
      exists r,
        format_column_strings upper (Some columns_specified) columns_available
          table_alias columnname_prefix
        = Returned r).
Proof.
  split.
  - intros (c & Hc & Hno).
    exists (missing_columns upper columns_specified columns_available).
    split; [| apply missing_columns_spec].
    assert (Hin : c ∈ missing_columns upper columns_specified columns_available)
      by by apply missing_columns_spec.
    unfold format_column_strings.
    destruct (missing_columns upper columns_specified columns_available);
      [by apply elem_of_nil in Hin | reflexivity].
  - intros Hall. unfold format_column_strings.
    destruct (missing_columns upper columns_specified columns_available)
      as [|c rest] eqn:E; [eauto |].
    exfalso.
    assert (Hin : c ∈ missing_columns upper columns_specified columns_available)
      by (rewrite E; apply list_elem_of_here).
    apply missing_columns_spec in Hin as [Hc Hno].
    destruct (Hall c Hc) as (a & Ha & Heq). by apply (Hno a).
Qed.

(** C9.  When every requested column matches a column of the layer, the case
    ignored, the projector returns five fragments, and each of them is
    written from one list of columns taken from the layer's own columns, in
    the layer's order and spelling: the columns of the layer that some
    requested column matches.  A requested spelling that is not the layer's
    is not among them.  The text of the fragments is the one of lines
    1763-1774: empty when no column is kept, otherwise a comma followed by
    the pieces of the columns, joined with a comma and a space; the piece
    of a column is its quoted name, its quoted name after the alias of the
    table, the same followed by its quoted prefixed name, NULL followed by
    its quoted prefixed name, and its quoted prefixed name after [sub.]. *)
Theorem fragments_use_layer_casing
    (upper : string -> string) (columns_specified columns_available : list string)
    (table_alias columnname_prefix : string) :
  (forall c, c ∈ columns_specified ->
             exists a, a ∈ columns_available /\ upper a = upper c) ->
  exists cols r,
    let table_alias_d :=
      if String.eqb table_alias "" then ""%string else table_alias +:+ "." in
    let listed (piece : string -> string) :=
      match cols with
      | [] => ""%string
      | _ => "," +:+ Py.join ", " (piece <$> cols)
      end in
    format_column_strings upper (Some columns_specified) columns_available
      table_alias columnname_prefix
    = Returned r
    /\ r = format_fragments cols table_alias columnname_prefix
    /\ cols `sublist_of` columns_available
    /\ (forall c, c ∈ cols
                  <-> c ∈ columns_available
                      /\ exists s, s ∈ columns_specified /\ upper s = upper c)
    /\ (forall s, s ∈ columns_specified -> s ∉ columns_available -> s ∉ cols)
    /\ FormattedColumnStrings.columns r
       = listed (fun c => dquote +:+ c +:+ dquote)
    /\ FormattedColumnStrings.columns_prefix r
       = listed (fun c => table_alias_d +:+ (dquote +:+ c +:+ dquote))
    /\ FormattedColumnStrings.columns_prefix_alias r
       = listed (fun c => table_alias_d +:+ (dquote +:+ c +:+ dquote) +:+ " "
                          +:+ (dquote +:+ (columnname_prefix +:+ c) +:+ dquote))
    /\ FormattedColumnStrings.columns_prefix_alias_null r
       = listed (fun c => "NULL " +:+ (dquote +:+ (columnname_prefix +:+ c) +:+ dquote))
    /\ FormattedColumnStrings.columns_from_subselect r
       = listed (fun c => "sub." +:+ (dquote +:+ (columnname_prefix +:+ c) +:+ dquote)).
Proof.
  intros Hall.
  exists (columns_to_keep upper columns_specified columns_available).
  exists (format_fragments (columns_to_keep upper columns_specified columns_available)
            table_alias columnname_prefix).
  cbv zeta.
  split; [| split; [reflexivity | split; [| split; [| split]]]].
  - unfold format_column_strings.
    destruct (missing_columns upper columns_specified columns_available)
      as [|c rest] eqn:E; [reflexivity |].
    exfalso.
    assert (Hin : c ∈ missing_columns upper columns_specified columns_available)
      by (rewrite E; apply list_elem_of_here).
    apply missing_columns_spec in Hin as [Hc Hno].
    destruct (Hall c Hc) as (a & Ha & Heq). by apply (Hno a).
  - apply sublist_filter.
  - apply columns_to_keep_spec.
  - intros s _ Hnot Hin. apply columns_to_keep_spec in Hin as [Hin _]. done.
  - destruct (columns_to_keep upper columns_specified columns_available) as [|c rest].
    + repeat split.
    + unfold format_fragments, quoted.
      destruct (String.eqb table_alias ""); repeat split.
Qed.

(** The request ["NAME"; "area"] on the columns id, Name, AREA, geom. *)
Lemma fragments_use_layer_casing_witness :
  exists cols r,
    let table_alias_d :=
      if String.eqb "layer1" "" then ""%string else "layer1" +:+ "." in
    let listed (piece : string -> string) :=
      match cols with
      | [] => ""%string
      | _ => "," +:+ Py.join ", " (piece <$> cols)
      end in
    format_column_strings Py.upper (Some ["NAME"; "area"]%string)
      ["id"; "Name"; "AREA"; "geom"]%string "layer1" "l1_"
    = Returned r
    /\ r = format_fragments cols "layer1" "l1_"
    /\ cols `sublist_of` ["id"; "Name"; "AREA"; "geom"]%string
    /\ (forall c, c ∈ cols
                  <-> c ∈ ["id"; "Name"; "AREA"; "geom"]%string
                      /\ exists s, s ∈ ["NAME"; "area"]%string
                                   /\ Py.upper s = Py.upper c)
    /\ (forall s, s ∈ ["NAME"; "area"]%string ->
                  s ∉ ["id"; "Name"; "AREA"; "geom"]%string -> s ∉ cols)
    /\ FormattedColumnStrings.columns r
       = listed (fun c => dquote +:+ c +:+ dquote)
    /\ FormattedColumnStrings.columns_prefix r
       = listed (fun c => table_alias_d +:+ (dquote +:+ c +:+ dquote))
    /\ FormattedColumnStrings.columns_prefix_alias r
       = listed (fun c => table_alias_d +:+ (dquote +:+ c +:+ dquote) +:+ " "
                          +:+ (dquote +:+ ("l1_" +:+ c) +:+ dquote))
    /\ FormattedColumnStrings.columns_prefix_alias_null r
       = listed (fun c => "NULL " +:+ (dquote +:+ ("l1_" +:+ c) +:+ dquote))
    /\ FormattedColumnStrings.columns_from_subselect r
       = listed (fun c => "sub." +:+ (dquote +:+ ("l1_" +:+ c) +:+ dquote)).
Proof.
  apply (fragments_use_layer_casing Py.upper ["NAME"; "area"]%string
           ["id"; "Name"; "AREA"; "geom"]%string "layer1" "l1_").
  intros c Hc.
  apply elem_of_cons in Hc as [-> | Hc].
  - exists "Name"%string. split; [| reflexivity].
    apply list_elem_of_further, list_elem_of_here.
  - apply list_elem_of_singleton in Hc as ->.
    exists "AREA"%string. split; [| reflexivity].
    do 2 apply list_elem_of_further. apply list_elem_of_here.
Defined.

(** The fragments of that request, letter by letter: the columns are
    written Name and AREA, as the layer has them. *)
Example fragments_of_a_request_in_another_casing :
  format_column_strings Py.upper (Some ["NAME"; "area"]%string)
    ["id"; "Name"; "AREA"; "geom"]%string "layer1" "l1_"
  = Returned
      (FormattedColumnStrings.mk
         ("," +:+ dquote +:+ "Name" +:+ dquote +:+ ", " +:+ dquote +:+ "AREA" +:+ dquote)
         (",layer1." +:+ dquote +:+ "Name" +:+ dquote
          +:+ ", layer1." +:+ dquote +:+ "AREA" +:+ dquote)
         (",layer1." +:+ dquote +:+ "Name" +:+ dquote +:+ " "
          +:+ dquote +:+ "l1_Name" +:+ dquote
          +:+ ", layer1." +:+ dquote +:+ "AREA" +:+ dquote +:+ " "
          +:+ dquote +:+ "l1_AREA" +:+ dquote)
         (",NULL " +:+ dquote +:+ "l1_Name" +:+ dquote
          +:+ ", NULL " +:+ dquote +:+ "l1_AREA" +:+ dquote)
         (",sub." +:+ dquote +:+ "l1_Name" +:+ dquote
          +:+ ", sub." +:+ dquote +:+ "l1_AREA" +:+ dquote)).
Proof. vm_compute. reflexivity. Qed.

(** ** The Lang simplifier *)

(** C10.  The line (0,0), (10,10), (20,20) with tolerance 1 and the whole
    line as window: the loop ends at its first turn, whatever number of
    turns it is given beyond that, and the indices kept are 0 and 2, two
    points; the midpoint, on the segment, is dropped. *)
Theorem lang_keeps_the_ends_of_a_straight_line (turns : nat) :
  Lang.simplify_coords_lang_idx (S turns) Fixture.collinear_line 1 (-1)
  = Some (Lang.Ok (Lang.PyList, [0; 2]))
  /\ length [0; 2] = 2%nat.
Proof. split; [destruct turns; reflexivity | reflexivity]. Qed.

(** C7 fails on the code.  [simplify_coords_lang] calls itself at line 268,
    with the arguments it was given: whatever the number of frames left to
    it and whatever its arguments, it ends in [RecursionError] and returns
    no coordinates. *)
Theorem simplify_coords_lang_never_returns
    (depth : nat) (coords : Lang.Coords) (tolerance : float) (lookahead : Z) :
  Lang.simplify_coords_lang depth coords tolerance lookahead = Lang.RecursionError.
Proof.
  revert coords. induction depth as [|depth IH]; intros coords; simpl.
  - reflexivity.
  - by rewrite IH.
Qed.

(** On the line of the test the index function does return, the other does
    not. *)
Example lang_idx_returns_where_lang_does_not :
  Lang.simplify_coords_lang_idx 1 Fixture.collinear_line 1 (-1)
  = Some (Lang.Ok (Lang.PyList, [0; 2]))
  /\ Lang.simplify_coords_lang 1000 Fixture.collinear_line 1 (-1) = Lang.RecursionError.
Proof. split; vm_compute; reflexivity. Qed.

(** ** The working directory of a failed operation *)

(** C2 fails on the code.  An intersection of 100 parcels in four batches,
    the worker of batch 2 raising: the operation raises one error that
    carries the partial output path and the statement of batch 2, and there
    is no container at the output path; but the working directory is still
    there, as it is when the layer has no rows and the operation returns at
    line 1365.  The single layer operation, which cleans up in a [finally],
    leaves none behind on the same failure. *)
Theorem two_layer_failure_leaves_the_working_directory :
  (length <$> Fixture.planned_batches
                (Fixture.plan (Fixture.world (Fixture.consecutive 100) 8) 2 (-1))
   = Some 4%nat
   /\ fst (Fixture.intersect Fixture.worker_one_fails
             (Fixture.world (Fixture.consecutive 100) 8))
      = Raised (ErrorExecuting
                  (mkJobInfo "result"
                     (PathOps.join Fixture.intersect_tempdir "result_2.gpkg")
                     (Fixture.two_layer_template Fixture.intersect_slots_of_batch_2))
                  (WorkerError "no such function: ST_Bufer"))
   /\ fs (snd (Fixture.intersect Fixture.worker_one_fails
                 (Fixture.world (Fixture.consecutive 100) 8)))
        !! Fixture.output_path = None
   /\ fs (snd (Fixture.intersect Fixture.worker_one_fails
                 (Fixture.world (Fixture.consecutive 100) 8)))
        !! Fixture.intersect_tempdir = Some Dir)
  /\ (fst (Fixture.intersect Fixture.worker_ok (Fixture.world [] 8)) = Returned tt
      /\ fs (snd (Fixture.intersect Fixture.worker_ok (Fixture.world [] 8)))
           !! Fixture.intersect_tempdir = Some Dir)
  /\ (match fst (Fixture.buffer Fixture.worker_one_fails
                   (Fixture.world (Fixture.consecutive 100) 8)) with
      | Raised (ErrorExecuting job (WorkerError _)) =>
          job_tmp_partial_output_path job
          = PathOps.join Fixture.buffer_tempdir "result_2.gpkg"
      | _ => False
      end
      /\ fs (snd (Fixture.buffer Fixture.worker_one_fails
                    (Fixture.world (Fixture.consecutive 100) 8)))
           !! Fixture.buffer_tempdir = None).
Proof.
  split; [| split].
  - split; [| split; [| split]]; vm_compute; reflexivity.
  - split; vm_compute; reflexivity.
  - split; vm_compute; reflexivity.
Qed.

(** ** The batches of the planner *)

Lemma dict_set_new {V : Type} (k : Z) (v : V) (d : list (Z * V)) :
  k ∉ d.*1 -> Py.dict_set k v d = d ++ [(k, v)].
Proof.
  induction d as [|[k' v'] d IH]; simpl; intros Hk; [done |].
  destruct (Z.eqb_spec k' k) as [->|Hne].
  - exfalso. apply Hk. apply list_elem_of_here.
  - f_equal. apply IH. intros Hin. apply Hk. by apply list_elem_of_further.
Qed.

(** Batches with distinct identifiers are filled in in their order. *)
Lemma fill_batches_distinct
    (layer : string) (path : Path) (alias_d : string) (nb_batches : Z)
    (df : list BatchInfo.t) :
  NoDup (BatchInfo.id <$> df) ->
  Planner.fill_batches layer path alias_d nb_batches df
  = (fun bi => (BatchInfo.id bi,
                mkBatch layer path (Planner.filter_of alias_d nb_batches bi))) <$> df.
Proof.
  unfold Planner.fill_batches.
  set (g := fun bi => (BatchInfo.id bi,
                       mkBatch layer path (Planner.filter_of alias_d nb_batches bi))).
  assert (Hgen : forall acc,
    NoDup (acc.*1 ++ (BatchInfo.id <$> df)) ->
    foldl (fun batches bi =>
             Py.dict_set (BatchInfo.id bi)
               (mkBatch layer path (Planner.filter_of alias_d nb_batches bi)) batches)
          acc df
    = acc ++ (g <$> df)).
  { induction df as [|bi df IH]; intros acc Hnd; simpl.
    - by rewrite app_nil_r.
    - rewrite dict_set_new.
      + rewrite IH.
        * by rewrite <- app_assoc.
        * rewrite fmap_app. simpl. rewrite <- app_assoc. exact Hnd.
      + apply NoDup_app in Hnd as (_ & Hdisj & _).
        intros Hin. apply (Hdisj _ Hin). apply list_elem_of_here. }
  intros Hnd. apply (Hgen []). exact Hnd.
Qed.

Lemma range_succ (n : Z) : 0 <= n -> Py.range (n + 1) = Py.range n ++ [n].
Proof.
  intros Hn. unfold Py.range.
  replace (Z.to_nat (n + 1)) with (S (Z.to_nat n)) by lia.
  rewrite seq_S, fmap_app. simpl. do 2 f_equal. lia.
Qed.

Lemma range_nonpositive (n : Z) : n <= 0 -> Py.range n = [].
Proof. intros Hn. unfold Py.range. by replace (Z.to_nat n) with O by lia. Qed.

Lemma elem_of_range (n i : Z) : i ∈ Py.range n <-> 0 <= i < n.
Proof.
  unfold Py.range. rewrite list_elem_of_fmap. split.
  - intros (k & -> & Hk). apply elem_of_seq in Hk. lia.
  - intros Hi. exists (Z.to_nat i). split; [lia |]. apply elem_of_seq. lia.
Qed.

Lemma NoDup_range (n : Z) : NoDup (Py.range n).
Proof.
  unfold Py.range. apply (NoDup_fmap_2 _). apply NoDup_seq.
Qed.

(** The fast distribution in closed form: batch [i] starts at
    [offset + k * offset_per_batch] when it is the [k]-th of the list. *)
Lemma dense_batch_info_closed
    (ids : list Z) (nb_batches nb_rows_per_batch offset offset_per_batch max_rowid : Z) :
  Planner.dense_batch_info ids nb_batches nb_rows_per_batch offset offset_per_batch max_rowid
  = imap (fun k batch_id =>
            BatchInfo.mk batch_id nb_rows_per_batch
              (offset + Z.of_nat k * offset_per_batch)
              (if batch_id <? nb_batches - 1
               then offset + Z.of_nat k * offset_per_batch + offset_per_batch - 1
               else max_rowid)) ids.
Proof.
  revert offset. induction ids as [|i ids IH]; intros offset; simpl; [done |].
  f_equal.
  - f_equal; [lia |]. destruct (i <? nb_batches - 1); [lia | done].
  - rewrite IH. apply imap_ext. intros k x _. simpl.
    f_equal; [lia |]. destruct (x <? nb_batches - 1); [lia | done].
Qed.

Lemma dense_batch_info_ids
    (ids : list Z) (nb_batches nb_rows_per_batch offset offset_per_batch max_rowid : Z) :
  BatchInfo.id <$> Planner.dense_batch_info ids nb_batches nb_rows_per_batch
                     offset offset_per_batch max_rowid
  = ids.
Proof.
  revert offset. induction ids as [|i ids IH]; intros offset; simpl; [done |].
  by rewrite IH.
Qed.

Lemma bind_returned_or_raised {A B : Type} (m : M A) (f : A -> M B) (w w' : World)
    (o : Outcome A) :
  m w = (o, w') ->
  (m ≫= f) w = match o with
               | Returned a => f a w'
               | Raised e => (Raised e, w')
               end.
Proof. intros H. unfold mbind, M_bind. rewrite H. by destruct o. Qed.

Lemma bind_returned_inv {A B : Type} (m : M A) (f : A -> M B) (w w' : World) (b : B) :
  (m ≫= f) w = (Returned b, w') ->
  exists a w1, m w = (Returned a, w1) /\ f a w1 = (Returned b, w').
Proof.
  unfold mbind, M_bind. destruct (m w) as [[a|e] w1]; [eauto | discriminate].
Qed.

Lemma find_layer_name (layers : list Layer) (layer : string) (l : Layer) :
  Gfo.find_layer layers layer = Some l -> layer_name l = layer.
Proof.
  unfold Gfo.find_layer. intros H. apply List.find_some in H as [_ H].
  by apply String.eqb_eq.
Qed.

Lemma read_layer_inv (p : Path) (layer : string) (w w' : World) (l : Layer) :
  Gfo.read_layer p layer w = (Returned l, w') ->
  w' = w /\ layer_name l = layer.
Proof.
  unfold Gfo.read_layer.
  destruct (fs w !! p) as [[|layers]|]; try discriminate.
  destruct (Gfo.find_layer layers layer) eqn:E; [| discriminate].
  intros H. injection H as -> ->. split; [done |]. by eapply find_layer_name.
Qed.

Lemma get_layerinfo_inv (p : Path) (layer : string) (w w' : World) (li : LayerInfo.t) :
  Gfo.get_layerinfo p layer w = (Returned li, w') ->
  exists l, Gfo.read_layer p layer w = (Returned l, w)
            /\ li = Gfo.layerinfo_of l /\ w' = w /\ layer_name l = layer.
Proof.
  unfold Gfo.get_layerinfo. intros H.
  apply bind_returned_inv in H as (l & w1 & Hl & Hret).
  injection Hret as <- <-.
  destruct (read_layer_inv _ _ _ _ _ Hl) as [-> Hname].
  exists l. done.
Qed.

(** ** NTILE *)

Lemma ntile_sizes_length (nb n : nat) : length (Engine.ntile_sizes nb n) = nb.
Proof. unfold Engine.ntile_sizes. by rewrite length_fmap, length_seq. Qed.

Lemma ntile_sizes_sum_from (q r len a : nat) :
  sum_list ((fun i => q + (if i <? r then 1 else 0)) <$> seq a len)%nat
  = (len * q + (Nat.min (a + len) r - Nat.min a r))%nat.
Proof.
  revert a. induction len as [|len IH]; intros a; simpl.
  - lia.
  - rewrite IH. destruct (Nat.ltb_spec a r); lia.
Qed.

Lemma ntile_sizes_sum (nb n : nat) :
  (0 < nb)%nat -> sum_list (Engine.ntile_sizes nb n) = n.
Proof.
  intros Hnb. unfold Engine.ntile_sizes. rewrite ntile_sizes_sum_from.
  pose proof (Nat.div_mod_eq n nb) as Hdiv.
  pose proof (Nat.mod_upper_bound n nb ltac:(lia)) as Hmod.
  simpl. rewrite Nat.min_r by lia. nia.
Qed.

Lemma ntile_sizes_positive (nb n : nat) :
  (0 < nb <= n)%nat -> Forall (fun k => (1 <= k)%nat) (Engine.ntile_sizes nb n).
Proof.
  intros Hnb. unfold Engine.ntile_sizes. apply Forall_fmap, Forall_forall.
  intros i _. simpl.
  assert (1 <= n / nb)%nat by (apply Nat.div_le_lower_bound; lia). lia.
Qed.

(** Groups that all have members are numbered one after the other. *)
Lemma ntile_groups_ids (sizes : list nat) (batch_id : Z) (ordered : list Z) :
  Forall (fun k => (1 <= k)%nat) sizes ->
  (sum_list sizes <= length ordered)%nat ->
  BatchInfo.id <$> Engine.ntile_groups batch_id sizes ordered
  = (fun i => batch_id + Z.of_nat i) <$> seq 0 (length sizes).
Proof.
  revert batch_id ordered.
  induction sizes as [|k sizes IH]; intros batch_id ordered Hpos Hsum; simpl; [done |].
  apply Forall_cons in Hpos as [Hk Hpos]. simpl in Hsum.
  destruct (take k ordered) as [|r g] eqn:Htake.
  - exfalso. apply (f_equal length) in Htake.
    rewrite length_take in Htake. simpl in Htake. lia.
  - simpl. f_equal; [lia |].
    rewrite IH; [| done | rewrite length_drop; lia].
    rewrite <- fmap_S_seq, <- list_fmap_compose.
    apply list_fmap_ext. intros _ i _. simpl. lia.
Qed.

(** ** The shape of a plan of several batches *)

Lemma numbered_split (df : list BatchInfo.t) (a : Z) (n : nat) :
  BatchInfo.id <$> df = (fun i => a + Z.of_nat i) <$> seq 0 (S n) ->
  exists init last,
    df = init ++ [last]
    /\ BatchInfo.id last = a + Z.of_nat n
    /\ Forall (fun bi => BatchInfo.id bi < a + Z.of_nat n) init.
Proof.
  rewrite seq_S, fmap_app. simpl. intros H.
  apply fmap_app_inv in H as (init & tl & Hinit & Htl & ->).
  destruct tl as [|last [|? ?]]; try discriminate.
  injection Htl as Hlast.
  exists init, last. split; [done |]. split; [done |].
  apply Forall_forall. intros bi Hbi.
  assert (Hin : BatchInfo.id bi ∈ BatchInfo.id <$> init) by by apply list_elem_of_fmap_2.
  rewrite <- Hinit in Hin. apply list_elem_of_fmap in Hin as (i & -> & Hi).
  apply elem_of_seq in Hi. lia.
Qed.

Lemma numbered_NoDup (a : Z) (n : nat) :
  NoDup ((fun i => a + Z.of_nat i) <$> seq 0 n).
Proof.
  apply NoDup_fmap_2; [| apply NoDup_seq]. intros i j. lia.
Qed.

Lemma range_numbered (n : Z) : Py.range n = (fun i => 0 + Z.of_nat i) <$> seq 0 (Z.to_nat n).
Proof. reflexivity. Qed.

Lemma dense_batch_info_last_end
    (ids : list Z) (nb_batches nb_rows_per_batch offset offset_per_batch max_rowid : Z) :
  Forall (fun bi => (BatchInfo.id bi <? nb_batches - 1) = false ->
                    BatchInfo.end_rowid bi = max_rowid)
    (Planner.dense_batch_info ids nb_batches nb_rows_per_batch offset
       offset_per_batch max_rowid).
Proof.
  revert offset. induction ids as [|i ids IH]; intros offset; simpl; [constructor |].
  constructor; [| apply IH]. simpl. by intros ->.
Qed.

Lemma clamp_bound (n nb : Z) :
  Planner.clamp_nb_batches n nb <= Z.max (Py.int_div n 10) 1.
Proof.
  unfold Planner.clamp_nb_batches.
  destruct (Z.ltb_spec (Py.int_div n 10) nb); lia.
Qed.

Lemma min_max_rowid_some (rowids : list Z) :
  rowids <> [] -> exists mn mx, Engine.min_max_rowid rowids = Some (mn, mx).
Proof. destruct rowids; [done | simpl; eauto]. Qed.

Lemma query_min_max_rowid_run (p : Path) (layer : string) (w : World) (l : Layer) :
  Gfo.read_layer p layer w = (Returned l, w) ->
  Engine.query_min_max_rowid p layer w
  = (Returned (Engine.min_max_rowid (layer_rowids l)), called (QueryMinMaxRowid p layer) w).
Proof.
  intros Hread. unfold Engine.query_min_max_rowid.
  rewrite (bind_returned (engine_call _) _ w (called (QueryMinMaxRowid p layer) w) tt eq_refl).
  rewrite (bind_returned _ _ _ _ _
             (read_layer_agrees p layer w (called (QueryMinMaxRowid p layer) w) l eq_refl Hread)).
  reflexivity.
Qed.

Lemma query_ntile_run (p : Path) (layer : string) (nb : Z) (w : World) (l : Layer) :
  Gfo.read_layer p layer w = (Returned l, w) ->
  Engine.query_ntile p layer nb w
  = (if nb <=? 0 then Raised (NtileArgumentNotPositive nb)
     else Returned (Engine.ntile nb (layer_rowids l)),
     called (QueryNtile p layer nb) w).
Proof.
  intros Hread. unfold Engine.query_ntile.
  rewrite (bind_returned (engine_call _) _ w (called (QueryNtile p layer nb) w) tt eq_refl).
  rewrite (bind_returned _ _ _ _ _
             (read_layer_agrees p layer w (called (QueryNtile p layer nb) w) l eq_refl Hread)).
  by destruct (nb <=? 0).
Qed.

Lemma filter_of_bounded (alias_d : string) (nb : Z) (df : list BatchInfo.t)
    (layer : string) (p : Path) :
  Forall (fun bi => BatchInfo.id bi < nb) df ->
  Forall (fun kb : Z * Batch => exists s e, batch_filter kb.2 = Between alias_d s e)
    ((fun bi => (BatchInfo.id bi, mkBatch layer p (Planner.filter_of alias_d nb bi))) <$> df).
Proof.
  intros H. apply Forall_fmap. eapply Forall_impl; [exact H |].
  intros bi Hbi. simpl in *. unfold Planner.filter_of.
  destruct (Z.ltb_spec (BatchInfo.id bi) nb); [eauto | lia].
Qed.

(** The plan of a layer in several batches: all batches but the last are
    bounded; the last is bounded by the highest rowid when the rowids are
    quite consecutive, and not bounded above when they are not. *)
Lemma prepare_batches_shape
    (p : Path) (layer : string) (alias : option string) (nb : Z)
    (w w' : World) (l : Layer) (batches : list (Z * Batch)) :
  Gfo.read_layer p layer w = (Returned l, w) ->
  nb <= Z.max (Py.int_div (Z.of_nat (length (layer_rowids l))) 10) 1 ->
  Planner.prepare_batches p layer (Gfo.layerinfo_of l) alias nb w = (Returned batches, w') ->
  (1 < length batches)%nat ->
  fs w' = fs w
  /\ exists min_rowid max_rowid init last_id last,
       Engine.min_max_rowid (layer_rowids l) = Some (min_rowid, max_rowid)
       /\ batches = init ++ [(last_id, last)]
       /\ Forall (fun kb => exists s e,
                    batch_filter kb.2 = Between (Planner.layer_alias_d alias) s e) init
       /\ if Planner.rowids_quite_consecutive min_rowid max_rowid
               (Z.of_nat (length (layer_rowids l)))
          then exists s, batch_filter last = Between (Planner.layer_alias_d alias) s max_rowid
          else exists s, batch_filter last = AtLeast (Planner.layer_alias_d alias) s.
Proof.
  intros Hread Hnb Hrun Hlen.
  pose proof (read_layer_inv _ _ _ _ _ Hread) as [_ Hname].
  unfold Planner.prepare_batches in Hrun.
  destruct (Z.eqb_spec nb 1) as [->|Hnb1].
  { injection Hrun as <- <-. simpl in Hlen. lia. }
  apply bind_returned_inv in Hrun as (min_max & w1 & Hq & Hrun).
  change (LayerInfo.name (Gfo.layerinfo_of l)) with (layer_name l) in *.
  change (LayerInfo.featurecount (Gfo.layerinfo_of l))
    with (Z.of_nat (length (layer_rowids l))) in *.
  rewrite Hname in Hq, Hrun.
  rewrite (query_min_max_rowid_run _ _ _ _ Hread) in Hq. injection Hq as <- <-.
  set (w1 := called (QueryMinMaxRowid p layer) w) in *.
  assert (Hread1 : Gfo.read_layer p layer w1 = (Returned l, w1))
    by by apply (read_layer_agrees _ _ w).
  set (N := Z.of_nat (length (layer_rowids l))) in *.
  destruct (Engine.min_max_rowid (layer_rowids l)) as [[min_rowid max_rowid]|] eqn:Hmm.
  2: { (* no rows: NTILE is asked for at most zero groups *)
       exfalso.
       rewrite (bind_returned_or_raised _ _ _ _ _ (query_ntile_run _ _ nb _ _ Hread1)) in Hrun.
       destruct (layer_rowids l); [| discriminate]. subst N.
       replace (Py.int_div (Z.of_nat (length (@nil Z))) 10) with 0 in Hnb
         by (vm_compute; reflexivity).
       destruct (Z.leb_spec nb 0); [discriminate | lia]. }
  set (g := fun bi => (BatchInfo.id bi,
                       mkBatch layer p
                         (Planner.filter_of (Planner.layer_alias_d alias) nb bi))).
  destruct (Planner.rowids_quite_consecutive min_rowid max_rowid N) eqn:Hdense.
  - (* the fast distribution *)
    unfold Planner.dense_batches in Hrun.
    destruct (Z.eqb_spec nb 0) as [->|Hnb0]; [discriminate |].
    injection Hrun as <- <-.
    set (df := Planner.dense_batch_info _ _ _ _ _ _) in *.
    assert (Hids : BatchInfo.id <$> df = Py.range nb) by apply dense_batch_info_ids.
    rewrite fill_batches_distinct in Hlen |- * by (rewrite Hids; apply NoDup_range).
    fold g in Hlen |- *.
    assert (Hnb2 : 2 <= nb).
    { rewrite length_fmap in Hlen.
      apply (f_equal length) in Hids. rewrite length_fmap in Hids.
      unfold Py.range in Hids. rewrite length_fmap, length_seq in Hids. lia. }
    rewrite range_numbered in Hids.
    replace (Z.to_nat nb) with (S (Z.to_nat (nb - 1))) in Hids by lia.
    destruct (numbered_split _ _ _ Hids) as (init & last & Hdf & Hlast & Hinit).
    split; [reflexivity |].
    exists min_rowid, max_rowid, (g <$> init), (BatchInfo.id last),
      (mkBatch layer p (Planner.filter_of (Planner.layer_alias_d alias) nb last)).
    split; [done |]. split; [by rewrite Hdf, fmap_app |].
    split.
    + apply filter_of_bounded. eapply Forall_impl; [exact Hinit |].
      intros bi Hbi. simpl in Hbi. lia.
    + rewrite Hdense. simpl. unfold Planner.filter_of.
      destruct (Z.ltb_spec (BatchInfo.id last) nb); [| lia].
      exists (BatchInfo.start_rowid last). f_equal.
      pose proof (dense_batch_info_last_end (Py.range nb) nb
                    (Py.round_div N nb) 0
                    (Binary64.round_of
                       (Binary64.truediv
                          (Binary64.float_of_int (Np.int64 (max_rowid - min_rowid)))
                          (Binary64.float_of_int nb)))
                    max_rowid) as Hends.
      fold df in Hends. rewrite Hdf in Hends.
      apply Forall_app in Hends as [_ Hend]. apply Forall_inv in Hend.
      apply Hend. apply Z.ltb_ge. lia.
  - (* the NTILE query *)
    rewrite (bind_returned_or_raised _ _ _ _ _ (query_ntile_run _ _ nb _ _ Hread1)) in Hrun.
    destruct (Z.leb_spec nb 0) as [|Hpos]; [discriminate |].
    injection Hrun as <- <-.
    assert (HN : 0 <= N) by (subst N; lia).
    assert (Hnb2 : 2 <= nb <= N).
    { split; [lia |].
      destruct (Z.max_spec (Py.int_div N 10) 1) as [[_ Hm]|[_ Hm]];
        rewrite Hm in Hnb; [lia |].
      pose proof (int_div_le N 10 ltac:(lia) ltac:(lia)). lia. }
    set (df := Engine.ntile nb (layer_rowids l)) in *.
    assert (Hids : BatchInfo.id <$> df
                   = (fun i => 1 + Z.of_nat i) <$> seq 0 (Z.to_nat nb)).
    { unfold df, Engine.ntile.
      rewrite ntile_groups_ids.
      - by rewrite ntile_sizes_length.
      - apply ntile_sizes_positive. subst N. lia.
      - rewrite ntile_sizes_sum by lia.
        by rewrite (Permutation_length (merge_sort_Permutation Z.le (layer_rowids l))). }
    rewrite fill_batches_distinct by (rewrite Hids; apply numbered_NoDup).
    fold g.
    replace (Z.to_nat nb) with (S (Z.to_nat (nb - 1))) in Hids by lia.
    destruct (numbered_split _ _ _ Hids) as (init & last & Hdf & Hlast & Hinit).
    split; [reflexivity |].
    exists min_rowid, max_rowid, (g <$> init), (BatchInfo.id last),
      (mkBatch layer p (Planner.filter_of (Planner.layer_alias_d alias) nb last)).
    split; [done |]. split; [by rewrite Hdf, fmap_app |].
    split.
    + apply filter_of_bounded. eapply Forall_impl; [exact Hinit |].
      intros bi Hbi. simpl in Hbi. lia.
    + rewrite Hdense. simpl. unfold Planner.filter_of.
      destruct (Z.ltb_spec (BatchInfo.id last) nb); [lia |].
      by exists (BatchInfo.start_rowid last).
Qed.

(** What a plan that was returned went through. *)
Lemma plan_returned_inv
    (w w' : World) (input1_path : Path) (input1_layer : string) (tempdir : Path)
    (convert_to_spatialite_based : bool) (nb_parallel batchsize : Z)
    (input1_layer_alias : option string)
    (input2_path : option Path) (input2_layer : option string)
    (pp : ProcessingParams.t) :
  _prepare_processing_params input1_path input1_layer tempdir
    convert_to_spatialite_based nb_parallel batchsize input1_layer_alias
    input2_path input2_layer w = (Returned (Some pp), w') ->
  exists l0 w2 l nb0 p2,
    Gfo.read_layer input1_path input1_layer w = (Returned l0, w)
    /\ layer_rowids l0 <> []
    /\ Planner.prepare_input_files input1_path input1_layer tempdir
         convert_to_spatialite_based input2_path input2_layer w
       = (Returned (ProcessingParams.input1_path pp, p2), w2)
    /\ Gfo.read_layer (ProcessingParams.input1_path pp) input1_layer w2 = (Returned l, w2)
    /\ ProcessingParams.input1_layer pp = input1_layer
    /\ nb0 = Planner.initial_nb_batches (Z.of_nat (length (layer_rowids l0))) nb_parallel
               (Planner.resolved_nb_parallel (cpu_count w)
                  (Z.of_nat (length (layer_rowids l0))) nb_parallel)
               batchsize
    /\ Planner.prepare_batches (ProcessingParams.input1_path pp) input1_layer
         (Gfo.layerinfo_of l) input1_layer_alias
         (Planner.clamp_nb_batches (Z.of_nat (length (layer_rowids l))) nb0) w2
       = (Returned (ProcessingParams.batches pp), w').
Proof.
  unfold _prepare_processing_params. intros H.
  apply bind_returned_inv in H as (li & w1 & Hinfo & H).
  apply get_layerinfo_inv in Hinfo as (l0 & Hread0 & -> & -> & _).
  destruct (Z.eqb_spec (LayerInfo.featurecount (Gfo.layerinfo_of l0)) 0) as [E|E].
  { apply bind_returned_inv in H as (? & ? & _ & H). discriminate. }
  apply bind_returned_inv in H as (w0 & w1 & Hget & H).
  injection Hget as <- <-.
  apply bind_returned_inv in H as ([p1 p2] & w2 & Hfiles & H).
  apply bind_returned_inv in H as (li1 & w3 & Hinfo1 & H).
  apply get_layerinfo_inv in Hinfo1 as (l & Hread & -> & -> & _).
  apply bind_returned_inv in H as (batches & w4 & Hbatches & H).
  injection H as <- <-. simpl.
  eexists l0, w2, l, _, p2.
  split; [done |]. split; [intros Hnil; apply E; by apply featurecount_zero_iff |].
  split; [done |]. split; [done |]. split; [done |]. split; [reflexivity |].
  exact Hbatches.
Qed.

(** C4, as the code has it.  A plan of more than one batch: every batch but
    the last has a filter bounded on both sides; the filter of the last
    batch has no upper bound ([rowid >= start]) when the rowids are not
    quite consecutive and the batches come from the NTILE query; when the
    rowids are quite consecutive it is bounded too, by the highest rowid of
    the layer, so that in neither case a row at the end is left out.  The
    rowids are quite consecutive when the test of line 1661 says so, as
    the code computes it: the difference of the highest and the lowest
    rowid on 64 bits, where it wraps, and its quotient by the number of
    rows in binary64. *)
Theorem last_batch_reaches_the_highest_rowid
    (w w' : World) (input1_path : Path) (input1_layer : string) (tempdir : Path)
    (convert_to_spatialite_based : bool) (nb_parallel batchsize : Z)
    (input1_layer_alias : option string)
    (input2_path : option Path) (input2_layer : option string)
    (pp : ProcessingParams.t) :
  _prepare_processing_params input1_path input1_layer tempdir
    convert_to_spatialite_based nb_parallel batchsize input1_layer_alias
    input2_path input2_layer w = (Returned (Some pp), w') ->
  (1 < length (ProcessingParams.batches pp))%nat ->
  exists l min_rowid max_rowid init last_id last,
    Gfo.read_layer (ProcessingParams.input1_path pp) (ProcessingParams.input1_layer pp) w'
    = (Returned l, w')
    /\ Engine.min_max_rowid (layer_rowids l) = Some (min_rowid, max_rowid)
    /\ ProcessingParams.batches pp = init ++ [(last_id, last)]
    /\ Forall (fun kb => exists s e,
                 batch_filter kb.2
                 = Between (Planner.layer_alias_d input1_layer_alias) s e) init
    /\ if Planner.rowids_quite_consecutive min_rowid max_rowid
            (Z.of_nat (length (layer_rowids l)))
       then exists s,
              batch_filter last
              = Between (Planner.layer_alias_d input1_layer_alias) s max_rowid
       else exists s,
              batch_filter last = AtLeast (Planner.layer_alias_d input1_layer_alias) s
                /\ RowFilter.unbounded_above (batch_filter last) = true.
Proof.
  intros Hplan Hlen.
  apply plan_returned_inv in Hplan
    as (l0 & w2 & l & nb0 & p2 & _ & _ & _ & Hread & Hlayer & _ & Hbatches).
  destruct (prepare_batches_shape _ _ _ _ _ _ _ _ Hread (clamp_bound _ _) Hbatches Hlen)
    as (Hfs & mn & mx & init & last_id & last & Hmm & Hsplit & Hinit & Hlast).
  exists l, mn, mx, init, last_id, last.
  split; [rewrite Hlayer; apply (read_layer_agrees _ _ w2); [by rewrite Hfs | done] |].
  split; [done |]. split; [done |]. split; [done |].
  destruct (Planner.rowids_quite_consecutive mn mx _); [done |].
  destruct Hlast as [s Hs]. exists s. by rewrite Hs.
Qed.

(** 100 parcels with rowids 10, 20, ..., 1000, two processes asked for. *)
Lemma last_batch_reaches_the_highest_rowid_witness :
  exists l min_rowid max_rowid init last_id last,
    Gfo.read_layer Fixture.parcels_path "parcels"
      (snd (Fixture.plan (Fixture.world (Fixture.gapped 100) 8) 2 (-1)))
    = (Returned l, snd (Fixture.plan (Fixture.world (Fixture.gapped 100) 8) 2 (-1)))
    /\ Engine.min_max_rowid (layer_rowids l) = Some (min_rowid, max_rowid)
    /\ ProcessingParams.batches
         (Fixture.plan_of (Fixture.plan (Fixture.world (Fixture.gapped 100) 8) 2 (-1)))
       = init ++ [(last_id, last)]
    /\ Forall (fun kb => exists s e, batch_filter kb.2 = Between "layer." s e) init
    /\ if Planner.rowids_quite_consecutive min_rowid max_rowid
            (Z.of_nat (length (layer_rowids l)))
       then exists s, batch_filter last = Between "layer." s max_rowid
       else exists s, batch_filter last = AtLeast "layer." s
                      /\ RowFilter.unbounded_above (batch_filter last) = true.
Proof.
  apply (last_batch_reaches_the_highest_rowid
           (Fixture.world (Fixture.gapped 100) 8)
           (snd (Fixture.plan (Fixture.world (Fixture.gapped 100) 8) 2 (-1)))
           Fixture.parcels_path "parcels" ["tmp"; "work"]%string false 2 (-1)
           (Some "layer"%string) None None
           (Fixture.plan_of (Fixture.plan (Fixture.world (Fixture.gapped 100) 8) 2 (-1)))).
  - vm_compute. reflexivity.
  - vm_compute. lia.
Defined.

(** C4 as it is written fails: 100 parcels with rowids 1 to 100 are planned
    in four batches, and the filter of the last one is bounded above, by
    the highest rowid. *)
Lemma last_batch_of_consecutive_rowids_is_bounded :
  Fixture.planned_batches (Fixture.plan (Fixture.world (Fixture.consecutive 100) 8) 2 (-1))
  = Some [(0, Between "layer." 0 24); (1, Between "layer." 25 49);
          (2, Between "layer." 50 74); (3, Between "layer." 75 100)]
  /\ RowFilter.unbounded_above (Between "layer." 75 100) = false
  /\ RowFilter.render (Between "layer." 75 100)
     = "AND (layer.rowid >= 75 AND layer.rowid <= 100) "%string.
Proof. split; [| split]; vm_compute; reflexivity. Qed.

(** Rowids that are not consecutive: the last of the four batches has no
    upper bound. *)
Example last_batch_of_gapped_rowids_is_unbounded :
  Fixture.planned_batches (Fixture.plan (Fixture.world (Fixture.gapped 100) 8) 2 (-1))
  = Some [(1, Between "layer." 10 250); (2, Between "layer." 260 500);
          (3, Between "layer." 510 750); (4, AtLeast "layer." 760)]
  /\ RowFilter.render (AtLeast "layer." 760) = "AND layer.rowid >= 760 "%string.
Proof. split; vm_compute; reflexivity. Qed.

(** Twenty rows, with rowids from -10 to 8 and the highest rowid there is.
    The difference of the highest and the lowest wraps to a negative
    number, the rowids are taken for quite consecutive, and both batches
    are bounded: the last one by the highest rowid. *)
Example last_batch_of_rowids_that_wrap_is_bounded :
  Planner.rowids_quite_consecutive (-10) (2 ^ 63 - 1) 20 = true
  /\ Fixture.planned_batches
       (Fixture.plan
          (Fixture.world (((fun i => Z.of_nat i - 10) <$> seq 0 19) ++ [2 ^ 63 - 1]) 8)
          2 (-1))
     = Some [(0, Between "layer." 0 (-4611686018427387905));
             (1, Between "layer." (-4611686018427387904) 9223372036854775807)].
Proof. split; vm_compute; reflexivity. Qed.

(** ** Handing out the rows *)

(** C1 fails on the code.  1000 rows with rowids 1 to 1000 on four
    processors, the parallelism left to the planner ([-1]) and a batch size
    of 100: line 1578 multiplies the batch size by the argument [-1], not by
    the resolved parallelism 4, the number of batches comes out at -40, the
    loop over [range(-40)] makes no batch, and the plan that is returned has
    none: no row passes any filter.  With rowids that are not consecutive
    the NTILE query is asked for -40 groups and the planner raises; an
    operation on the plan without batches raises when it makes its pool of
    zero workers. *)
Theorem automatic_parallelism_with_batch_size_plans_no_batch :
  Planner.resolved_nb_parallel 4 1000 (-1) = 4
  /\ Planner.initial_nb_batches 1000 (-1) 4 100 = -40
  /\ Fixture.planned_batches
       (Fixture.plan (Fixture.world (Fixture.consecutive 1000) 4) (-1) 100)
     = Some []
  /\ batches_matching 1
       (ProcessingParams.batches
          (Fixture.plan_of (Fixture.plan (Fixture.world (Fixture.consecutive 1000) 4) (-1) 100)))
     = []
  /\ ~ partitions
         (ProcessingParams.batches
            (Fixture.plan_of
               (Fixture.plan (Fixture.world (Fixture.consecutive 1000) 4) (-1) 100)))
         (Fixture.consecutive 1000)
  /\ fst (Fixture.plan (Fixture.world (Fixture.gapped 1000) 4) (-1) 100)
     = Raised (NtileArgumentNotPositive (-40))
  /\ fst (Call.run Py.upper Fixture.worker_ok Fixture.in_submission_order
            (Fixture.single_layer_call Fixture.parcels_path (-1) 100 false)
            (Fixture.world (Fixture.consecutive 1000) 4))
     = Raised (MaxWorkersNotPositive 0).
Proof.
  split; [vm_compute; reflexivity |]. split; [vm_compute; reflexivity |].
  split; [vm_compute; reflexivity |].
  assert (Hnone : ProcessingParams.batches
            (Fixture.plan_of
               (Fixture.plan (Fixture.world (Fixture.consecutive 1000) 4) (-1) 100)) = [])
    by (vm_compute; reflexivity).
  rewrite Hnone.
  split; [reflexivity |].
  split.
  - intros Hpart. specialize (Hpart 1).
    assert (Hin : 1 ∈ Fixture.consecutive 1000).
    { unfold Fixture.consecutive. apply list_elem_of_fmap. exists 1%nat.
      split; [reflexivity | apply elem_of_seq; lia]. }
    specialize (Hpart Hin). discriminate.
  - split; vm_compute; reflexivity.
Qed.



















(** ** What actions keep *)

Lemma keeps_bind {A B : Type} (I : World -> Prop) (m : M A) (f : A -> M B) :
  keeps I m -> (forall a, keeps I (f a)) -> keeps I (m ≫= f).
Proof.
  intros Hm Hf w o w' HI Hrun. unfold mbind, M_bind in Hrun.
  destruct (m w) as [[a|e] w1] eqn:E.
  - exact (Hf a w1 o w' (Hm w _ w1 HI E) Hrun).
  - injection Hrun as <- <-. exact (Hm w _ w1 HI E).
Qed.

Lemma keeps_ret {A : Type} (I : World -> Prop) (a : A) : keeps I (mret a).
Proof. intros w o w' HI Hrun. injection Hrun as <- <-. exact HI. Qed.

Lemma keeps_raise {A : Type} (I : World -> Prop) (e : Exception) :
  keeps I (raise e : M A).
Proof. intros w o w' HI Hrun. injection Hrun as <- <-. exact HI. Qed.

Lemma keeps_reads {A : Type} (I : World -> Prop) (m : M A) : reads m -> keeps I m.
Proof. intros Hm w o w' HI Hrun. by rewrite (Hm w o w' Hrun). Qed.

Lemma keeps_modify (I : World -> Prop) (f : World -> World) :
  (forall w, I w -> I (f w)) -> keeps I (modify f).
Proof. intros Hf w o w' HI Hrun. injection Hrun as <- <-. by apply Hf. Qed.

Lemma keeps_try_finally {A : Type} (I : World -> Prop) (body : M A) (cleanup : M unit) :
  keeps I body -> keeps I cleanup -> keeps I (try_finally body cleanup).
Proof.
  intros Hb Hc w o w' HI Hrun. unfold try_finally in Hrun.
  destruct (body w) as [r w1] eqn:E1.
  destruct (cleanup w1) as [[[]|e] w2] eqn:E2; injection Hrun as <- <-;
    exact (Hc w1 _ w2 (Hb w r w1 HI E1) E2).
Qed.

Lemma keeps_try_except_wrap {A : Type} (I : World -> Prop) (body : M A)
    (wrap : Exception -> M A) :
  keeps I body -> (forall e, keeps I (wrap e)) -> keeps I (try_except_wrap body wrap).
Proof.
  intros Hb Hw w o w' HI Hrun. unfold try_except_wrap in Hrun.
  destruct (body w) as [[a|e] w1] eqn:E1.
  - injection Hrun as <- <-. exact (Hb w _ w1 HI E1).
  - exact (Hw e w1 o w' (Hb w _ w1 HI E1) Hrun).
Qed.

Lemma keeps_try_except_reraise {A : Type} (I : World -> Prop) (body : M A)
    (handler : M unit) :
  keeps I body -> keeps I handler -> keeps I (try_except_reraise body handler).
Proof.
  intros Hb Hh w o w' HI Hrun. unfold try_except_reraise in Hrun.
  destruct (body w) as [[a|e] w1] eqn:E1.
  - injection Hrun as <- <-. exact (Hb w _ w1 HI E1).
  - destruct (handler w1) as [[[]|e'] w2] eqn:E2; injection Hrun as <- <-;
      exact (Hh w1 _ w2 (Hb w _ w1 HI E1) E2).
Qed.

Lemma keeps_for_each {A : Type} (I : World -> Prop) (l : list A) (body : A -> M unit) :
  (forall x, x ∈ l -> keeps I (body x)) -> keeps I (for_each l body).
Proof.
  induction l as [|x l IH]; intros Hbody; simpl.
  - apply keeps_ret.
  - apply keeps_bind; [apply Hbody, list_elem_of_here |].
    intros _. apply IH. intros y Hy. by apply Hbody, list_elem_of_further.
Qed.

Lemma keeps_for_each_counting {A : Type} (I : World -> Prop) (l : list A) (nb_done : Z)
    (body : Z -> A -> M unit) :
  (forall n x, x ∈ l -> keeps I (body n x)) -> keeps I (for_each_counting l nb_done body).
Proof.
  revert nb_done. induction l as [|x l IH]; intros nb_done Hbody; simpl.
  - apply keeps_ret.
  - apply keeps_bind; [apply Hbody, list_elem_of_here |].
    intros _. apply IH. intros n y Hy. by apply Hbody, list_elem_of_further.
Qed.

Lemma reads_exists (p : Path) : reads (Gfo.exists_ p).
Proof. intros w o w' H. by injection H as <- <-. Qed.

Lemma reads_get_world : reads get_world.
Proof. intros w o w' H. by injection H as <- <-. Qed.

Lemma reads_listlayers (p : Path) : reads (Gfo.listlayers p).
Proof.
  intros w o w' H. unfold Gfo.listlayers in H.
  destruct (fs w !! p) as [[|layers]|]; by injection H as <- <-.
Qed.

Lemma reads_get_only_layer (p : Path) : reads (Gfo.get_only_layer p).
Proof.
  intros w o w' H. unfold Gfo.get_only_layer, mbind, M_bind in H.
  destruct (Gfo.listlayers p w) as [[layers|e] w1] eqn:E.
  - apply reads_listlayers in E as ->.
    destruct layers as [|l [|l' rest]]; by injection H as <- <-.
  - apply reads_listlayers in E as ->. by injection H as <- <-.
Qed.

Lemma reads_read_layer (p : Path) (layer : string) : reads (Gfo.read_layer p layer).
Proof.
  intros w o w' H. unfold Gfo.read_layer in H.
  destruct (fs w !! p) as [[|layers]|]; [by injection H as <- <- | |by injection H as <- <-].
  destruct (Gfo.find_layer layers layer); by injection H as <- <-.
Qed.

Lemma reads_get_layerinfo (p : Path) (layer : string) : reads (Gfo.get_layerinfo p layer).
Proof.
  intros w o w' H. unfold Gfo.get_layerinfo, mbind, M_bind in H.
  destruct (Gfo.read_layer p layer w) as [[l|e] w1] eqn:E;
    apply reads_read_layer in E as ->; by injection H as <- <-.
Qed.

(** The planner's queries and its log lines leave the file system alone. *)
Lemma keeps_logger (I : World -> Prop) (l : LogLine) :
  (forall w, I w -> I (logged l w)) -> keeps I (logger l).
Proof. apply keeps_modify. Qed.

Lemma keeps_engine_call (I : World -> Prop) (c : EngineCall) :
  (forall w, I w -> I (called c w)) -> keeps I (engine_call c).
Proof. apply keeps_modify. Qed.

(** A property of the file system alone. *)
Lemma keeps_prepare_batches
    (I : World -> Prop) (p : Path) (layer : string) (li : LayerInfo.t)
    (alias : option string) (nb : Z) :
  (forall w c, I w -> I (called c w)) ->
  keeps I (Planner.prepare_batches p layer li alias nb).
Proof.
  intros Hcalled. unfold Planner.prepare_batches.
  destruct (nb =? 1); [apply keeps_ret |].
  assert (Hntile : keeps I (Engine.query_ntile p (LayerInfo.name li) nb)).
  { unfold Engine.query_ntile.
    apply keeps_bind; [apply keeps_engine_call; auto | intros _].
    apply keeps_bind; [apply keeps_reads, reads_read_layer | intros l].
    destruct (nb <=? 0); [apply keeps_raise | apply keeps_ret]. }
  apply keeps_bind.
  { unfold Engine.query_min_max_rowid.
    apply keeps_bind; [apply keeps_engine_call; auto | intros _].
    apply keeps_bind; [apply keeps_reads, reads_read_layer | intros l].
    apply keeps_ret. }
  intros min_max. apply keeps_bind; [| intros df; apply keeps_ret].
  destruct min_max as [[min_rowid max_rowid]|]; [| exact Hntile].
  destruct (Planner.rowids_quite_consecutive _ _ _); [| exact Hntile].
  unfold Planner.dense_batches.
  destruct (nb =? 0); [apply keeps_raise | apply keeps_ret].
Qed.

(** The planner, asked for no conversion, keeps what its queries and its
    log lines keep. *)
Lemma keeps_plan
    (I : World -> Prop) (input1_path : Path) (input1_layer : string) (tempdir : Path)
    (nb_parallel batchsize : Z) (input1_layer_alias : option string)
    (input2_path : option Path) (input2_layer : option string) :
  (forall w c, I w -> I (called c w)) ->
  (forall w l, I w -> I (logged l w)) ->
  keeps I (_prepare_processing_params input1_path input1_layer tempdir false
             nb_parallel batchsize input1_layer_alias input2_path input2_layer).
Proof.
  intros Hcalled Hlogged. unfold _prepare_processing_params.
  apply keeps_bind; [apply keeps_reads, reads_get_layerinfo | intros li].
  destruct (LayerInfo.featurecount li =? 0).
  { apply keeps_bind; [apply keeps_logger; auto | intros _; apply keeps_ret]. }
  apply keeps_bind; [apply keeps_reads, reads_get_world | intros w0].
  apply keeps_bind; [apply keeps_ret | intros [p1 p2]].
  apply keeps_bind; [apply keeps_reads, reads_get_layerinfo | intros li1].
  apply keeps_bind; [by apply keeps_prepare_batches | intros batches].
  apply keeps_ret.
Qed.

(** The planner keeps what its queries, its log lines and the conversion
    of its inputs keep. *)
Lemma keeps_planning
    (I : World -> Prop) (input1_path : Path) (input1_layer : string) (tempdir : Path)
    (convert_to_spatialite_based : bool)
    (nb_parallel batchsize : Z) (input1_layer_alias : option string)
    (input2_path : option Path) (input2_layer : option string) :
  (forall w c, I w -> I (called c w)) ->
  (forall w l, I w -> I (logged l w)) ->
  keeps I (Planner.prepare_input_files input1_path input1_layer tempdir
             convert_to_spatialite_based input2_path input2_layer) ->
  keeps I (_prepare_processing_params input1_path input1_layer tempdir
             convert_to_spatialite_based
             nb_parallel batchsize input1_layer_alias input2_path input2_layer).
Proof.
  intros Hcalled Hlogged Hfiles. unfold _prepare_processing_params.
  apply keeps_bind; [apply keeps_reads, reads_get_layerinfo | intros li].
  destruct (LayerInfo.featurecount li =? 0).
  { apply keeps_bind; [apply keeps_logger; auto | intros _; apply keeps_ret]. }
  apply keeps_bind; [apply keeps_reads, reads_get_world | intros w0].
  apply keeps_bind; [exact Hfiles | intros [p1 p2]].
  apply keeps_bind; [apply keeps_reads, reads_get_layerinfo | intros li1].
  apply keeps_bind; [by apply keeps_prepare_batches | intros batches].
  apply keeps_ret.
Qed.

(** ** The Lang simplifier on any line *)

Lemma getitem_inside {A : Type} (arr : list A) (i : Z) :
  0 <= i < Z.of_nat (length arr) -> is_Some (Lang.getitem arr i).
Proof.
  intros Hi. unfold Lang.getitem.
  destruct (Z.leb_spec 0 i); [| lia].
  destruct (Z.ltb_spec i (Z.of_nat (length arr))); [| lia].
  simpl. apply lookup_lt_is_Some. lia.
Qed.

Lemma setitem_inside {A : Type} (arr : list A) (i : Z) (x : A) :
  0 <= i < Z.of_nat (length arr) ->
  Lang.setitem arr i x = Some (<[Z.to_nat i := x]> arr).
Proof.
  intros Hi. unfold Lang.setitem.
  destruct (Z.leb_spec 0 i); [| lia].
  destruct (Z.ltb_spec i (Z.of_nat (length arr))); [| lia].
  reflexivity.
Qed.

Lemma elem_of_lang_range (a b i : Z) : i ∈ Lang.range a b <-> a <= i < b.
Proof.
  unfold Lang.range. rewrite list_elem_of_fmap. split.
  - intros (k & -> & Hk%elem_of_seq). lia.
  - intros Hi. exists (Z.to_nat (i - a)). split; [lia |].
    apply elem_of_seq. lia.
Qed.

Lemma lang_range_empty (a b : Z) : b <= a -> Lang.range a b = [].
Proof.
  intros H. unfold Lang.range. by replace (Z.to_nat (b - a)) with 0%nat by lia.
Qed.

(** The [for] loop of lines 333-341 on points that are all there: it raises
    nothing, says yes only when every point passed the test, and no only
    when there was a point to test. *)
Lemma all_points_in_tolerance_spec
    (line_arr : list (float * float)) (tolerance : float) (k1 k2 : Z) (inside : list Z) :
  0 <= k1 < Z.of_nat (length line_arr) ->
  0 <= k2 < Z.of_nat (length line_arr) ->
  Forall (fun i => 0 <= i < Z.of_nat (length line_arr)) inside ->
  exists b,
    Lang.all_points_in_tolerance line_arr tolerance k1 k2 inside = Lang.Ok b
    /\ (b = true ->
        Forall (fun i => LangResult.within_tolerance line_arr tolerance k1 k2 i = true)
          inside)
    /\ (b = false -> inside <> []).
Proof.
  intros H1 H2 Hin.
  destruct (getitem_inside line_arr k1 H1) as [[x1 y1] E1].
  destruct (getitem_inside line_arr k2 H2) as [[x2 y2] E2].
  induction Hin as [|i rest Hi _ IH].
  - exists true. split; [reflexivity |]. split; [by constructor | discriminate].
  - destruct (getitem_inside line_arr i Hi) as [[x0 y0] E0].
    simpl. rewrite E0, E1, E2.
    destruct (is_nan (Lang.point_line_distance x0 y0 x1 y1 x2 y2)
              || (tolerance <? Lang.point_line_distance x0 y0 x1 y1 x2 y2)%float)
      eqn:Ed.
    + exists false. split; [reflexivity |]. split; [discriminate | done].
    + destruct IH as (b & Hb & Hyes & _). exists b.
      split; [exact Hb |]. split; [| done].
      intros Hbt. constructor; [| by apply Hyes].
      unfold LangResult.within_tolerance. rewrite E0, E1, E2. simpl.
      by rewrite Ed.
Qed.

(** [mask.nonzero()] of a mask that has nothing set from [start] on. *)
Lemma nonzero_from_nothing (m : list bool) (start : nat) :
  (forall i, (i < length m)%nat -> m !! i = Some false) ->
  snd <$> filter (fun bi : bool * Z => fst bi = true)
            (zip m (Z.of_nat <$> seq start (length m))) = [].
Proof.
  revert start. induction m as [|b m IH]; intros start Hm; [reflexivity |].
  pose proof (Hm 0%nat ltac:(simpl; lia)) as H0. simpl in H0.
  injection H0 as ->.
  change (zip (false :: m) (Z.of_nat <$> seq start (length (false :: m))))
    with ((false, Z.of_nat start) :: zip m (Z.of_nat <$> seq (S start) (length m))).
  rewrite filter_cons_False by (simpl; discriminate).
  apply IH. intros i Hi. apply (Hm (S i)). simpl. lia.
Qed.

(** Setting a place of the mask beyond which nothing is set adds its index
    at the end of [mask.nonzero()]. *)
Lemma nonzero_from_insert (m : list bool) (start j : nat) :
  (j < length m)%nat ->
  (forall i, (j <= i)%nat -> (i < length m)%nat -> m !! i = Some false) ->
  snd <$> filter (fun bi : bool * Z => fst bi = true)
            (zip (<[j := true]> m) (Z.of_nat <$> seq start (length m)))
  = (snd <$> filter (fun bi : bool * Z => fst bi = true)
               (zip m (Z.of_nat <$> seq start (length m))))
    ++ [Z.of_nat (start + j)].
Proof.
  revert start j. induction m as [|b m IH]; intros start j Hj Hm; [simpl in Hj; lia |].
  change (zip (b :: m) (Z.of_nat <$> seq start (length (b :: m))))
    with ((b, Z.of_nat start) :: zip m (Z.of_nat <$> seq (S start) (length m))).
  destruct j as [|j].
  - pose proof (Hm 0%nat ltac:(lia) ltac:(simpl; lia)) as H0. simpl in H0.
    injection H0 as ->.
    change (zip (<[0%nat := true]> (false :: m))
              (Z.of_nat <$> seq start (length (false :: m))))
      with ((true, Z.of_nat start) :: zip m (Z.of_nat <$> seq (S start) (length m))).
    rewrite filter_cons_True by done.
    rewrite filter_cons_False by (simpl; discriminate).
    rewrite fmap_cons, (nonzero_from_nothing m (S start)).
    + simpl. by replace (start + 0)%nat with start by lia.
    + intros i Hi. apply (Hm (S i)); simpl; lia.
  - change (zip (<[S j := true]> (b :: m))
              (Z.of_nat <$> seq start (length (b :: m))))
      with ((b, Z.of_nat start)
            :: zip (<[j := true]> m) (Z.of_nat <$> seq (S start) (length m))).
    assert (Hrest :
      snd <$> filter (fun bi : bool * Z => fst bi = true)
                (zip (<[j := true]> m) (Z.of_nat <$> seq (S start) (length m)))
      = (snd <$> filter (fun bi : bool * Z => fst bi = true)
                   (zip m (Z.of_nat <$> seq (S start) (length m))))
        ++ [Z.of_nat (start + S j)]).
    { replace (start + S j)%nat with (S start + j)%nat by lia.
      apply IH; [simpl in Hj; lia |].
      intros i Hi Hlen. apply (Hm (S i)); simpl; lia. }
    rewrite !filter_cons. destruct (decide _); rewrite ?fmap_cons, Hrest; done.
Qed.

Lemma nonzero_insert (m : list bool) (j : nat) :
  (j < length m)%nat ->
  (forall i, (j <= i)%nat -> (i < length m)%nat -> m !! i = Some false) ->
  Lang.nonzero (<[j := true]> m) = Lang.nonzero m ++ [Z.of_nat j].
Proof.
  intros Hj Hm. unfold Lang.nonzero. rewrite length_insert.
  by rewrite (nonzero_from_insert m 0 j Hj Hm).
Qed.

Lemma neighbours_snoc (P : Z -> Z -> Prop) (l : list Z) (a b : Z) :
  LangResult.neighbours P (l ++ [a]) -> P a b ->
  LangResult.neighbours P ((l ++ [a]) ++ [b]).
Proof.
  intros Hl Hab. induction l as [|x l IH]; simpl in *.
  - constructor; [done | constructor].
  - destruct l as [|y l]; simpl in *.
    + inversion Hl; subst. constructor; [done |].
      constructor; [done | constructor].
    + inversion Hl; subst. constructor; [done |]. by apply IH.
Qed.

Lemma neighbours_impl (P Q : Z -> Z -> Prop) (l : list Z) :
  (forall a b, P a b -> Q a b) ->
  LangResult.neighbours P l -> LangResult.neighbours Q l.
Proof. intros HPQ Hl. induction Hl; constructor; auto. Qed.

Lemma neighbours_sorted (P : Z -> Z -> Prop) (l : list Z) :
  (forall a b, P a b -> a < b) ->
  LangResult.neighbours P l -> StronglySorted Z.lt l.
Proof.
  intros HP Hl. induction Hl as [|k|k1 k2 l H12 Hl IH].
  - constructor.
  - constructor; constructor.
  - constructor; [done |].
    apply HP in H12. inversion IH as [|? ? _ Hall]; subst.
    constructor; [done |].
    eapply Forall_impl; [exact Hall |]. simpl. intros; lia.
Qed.

(** One turn of the loop from a state that is not ready: it raises nothing,
    the invariant holds again, and fewer turns are left. *)
Lemma turn_keeps_invariant
    (line_arr : list (float * float)) (tolerance : float) (size : Z)
    (s : Lang.State) (kept : list Z) :
  1 <= size ->
  LangResult.invariant line_arr tolerance size s kept ->
  Lang.ready s = false ->
  exists s' kept',
    Lang.turn line_arr tolerance (Z.of_nat (length line_arr)) size s = Lang.Ok s'
    /\ LangResult.invariant line_arr tolerance size s' kept'
    /\ (Lang.ready s' = false ->
        (LangResult.turns_left (Z.of_nat (length line_arr)) s'
         < LangResult.turns_left (Z.of_nat (length line_arr)) s)%nat).
Proof.
  intros Hsize [Hlen Hws Hwe Hord Hwin Hkept Hfirst Habove Hsteps] Hready.
  rewrite Hready in Hord.
  set (n := Z.of_nat (length line_arr)) in *.
  destruct (all_points_in_tolerance_spec line_arr tolerance
              (Lang.window_start s) (Lang.window_end s)
              (Lang.range (Lang.window_start s + 1) (Lang.window_end s)))
    as (b & Hb & Hyes & Hno).
  { fold n. lia. }
  { fold n. lia. }
  { apply Forall_forall. intros i Hi%elem_of_lang_range. fold n. lia. }
  unfold Lang.turn. rewrite Hb. destruct b.
  - (* every point passed: the end of the window is kept *)
    rewrite setitem_inside by (rewrite Hlen; fold n; lia).
    eexists _, (kept ++ [Lang.window_start s]).
    split; [reflexivity |]. rewrite Hready.
    split; [constructor; simpl |].
    + by rewrite length_insert.
    + lia.
    + fold n. destruct (Z.leb_spec n (Lang.window_end s + size)); lia.
    + fold n. destruct (Z.eqb_spec (Lang.window_end s) (n - 1)); [done |].
      destruct (Z.leb_spec n (Lang.window_end s + size)); lia.
    + fold n. destruct (Z.leb_spec n (Lang.window_end s + size)); lia.
    + rewrite nonzero_insert.
      * rewrite Hkept. f_equal. f_equal. lia.
      * rewrite Hlen. lia.
      * intros i Hi Hi'. apply Habove; [lia | by rewrite <- Hlen].
    + rewrite <- Hfirst. by destruct kept.
    + intros i Hi Hi'. rewrite list_lookup_insert_ne by lia.
      apply Habove; [lia | done].
    + apply neighbours_snoc; [done |]. split; [lia |].
      intros i Hi. specialize (Hyes eq_refl).
      rewrite Forall_forall in Hyes. apply Hyes, elem_of_lang_range. lia.
    + simpl. fold n.
      destruct (Z.eqb_spec (Lang.window_end s) (n - 1)); [discriminate |].
      intros _. unfold LangResult.turns_left. simpl.
      destruct (Z.leb_spec n (Lang.window_end s + size)); nia.
  - (* a point is too far: the window shrinks *)
    assert (Hgap : Lang.window_start s + 1 < Lang.window_end s).
    { destruct (Z.lt_ge_cases (Lang.window_start s + 1) (Lang.window_end s)); [done |].
      exfalso. apply (Hno eq_refl). by apply lang_range_empty. }
    eexists _, kept. split; [reflexivity |]. rewrite Hready.
    split; [constructor; simpl; try done; lia |].
    intros _. unfold LangResult.turns_left. simpl. fold n. nia.
Qed.

(** The loop ends: from a state that satisfies the invariant, the turns
    that are left are enough, and the state it ends in is ready. *)
Lemma while_not_ready_ends
    (line_arr : list (float * float)) (tolerance : float) (size : Z) (turns : nat) :
  1 <= size ->
  forall (s : Lang.State) (kept : list Z),
    LangResult.invariant line_arr tolerance size s kept ->
    (Lang.ready s = false ->
     (LangResult.turns_left (Z.of_nat (length line_arr)) s < turns)%nat) ->
    exists s' kept',
      Lang.while_not_ready turns line_arr tolerance (Z.of_nat (length line_arr)) size s
      = Some (Lang.Ok s')
      /\ LangResult.invariant line_arr tolerance size s' kept'
      /\ Lang.ready s' = true.
Proof.
  intros Hsize. induction turns as [|turns IH]; intros s kept Hinv Hleft.
  - destruct (Lang.ready s) eqn:Hready.
    + exists s, kept. simpl. by rewrite Hready.
    + specialize (Hleft eq_refl). lia.
  - destruct (Lang.ready s) eqn:Hready.
    + exists s, kept. simpl. by rewrite Hready.
    + destruct (turn_keeps_invariant line_arr tolerance size s kept Hsize Hinv Hready)
        as (s1 & kept1 & Hturn & Hinv1 & Hless).
      simpl. rewrite Hready, Hturn.
      apply (IH s1 kept1 Hinv1).
      intros Hr. specialize (Hless Hr). specialize (Hleft eq_refl). lia.
Qed.

Lemma window_size_bounds (nb_points lookahead : Z) :
  2 <= nb_points -> lookahead = -1 \/ 1 <= lookahead ->
  1 <= LangResult.window_size nb_points lookahead <= nb_points - 1.
Proof.
  intros Hn Hl. unfold LangResult.window_size.
  destruct (Z.eqb_spec lookahead (-1)); lia.
Qed.

Lemma nonzero_nothing (n : nat) : Lang.nonzero (replicate n false) = [].
Proof.
  unfold Lang.nonzero. apply nonzero_from_nothing.
  intros i Hi. rewrite length_replicate in Hi. by apply lookup_replicate_2.
Qed.

(** A run of [simplify_coords_lang_idx] on a line of at least one point,
    with a window of at least one point or the whole line as window: with
    the square of the number of points as turns the loop ends, and the
    indices it returns start at 0, end at the last point, and every two
    neighbours among them are a step the loop made. *)
Lemma lang_idx_run
    (coords : Lang.Coords) (tolerance : float) (lookahead : Z) (turns : nat) :
  1 <= Z.of_nat (length (snd coords)) ->
  lookahead = -1 \/ 1 <= lookahead ->
  (Z.to_nat (Z.of_nat (length (snd coords)) * Z.of_nat (length (snd coords))) <= turns)%nat ->
  exists idxs,
    Lang.simplify_coords_lang_idx turns coords tolerance lookahead
    = Some (Lang.Ok (fst coords, idxs))
    /\ head idxs = Some 0
    /\ last idxs = Some (Z.of_nat (length (snd coords)) - 1)
    /\ LangResult.neighbours
         (LangResult.step_ok (snd coords) tolerance
            (LangResult.window_size (Z.of_nat (length (snd coords))) lookahead))
         idxs.
Proof.
  destruct coords as [container line_arr]. simpl. intros Hn Hl Hturns.
  unfold Lang.simplify_coords_lang_idx. simpl.
  fold (LangResult.window_size (Z.of_nat (length line_arr)) lookahead).
  destruct line_arr as [|p [|q rest]]; [simpl in Hn; lia | |].
  - (* one point *)
    exists [0]. split; [| split; [done | split; [done | constructor]]].
    assert (Hsize : LangResult.window_size (Z.of_nat (length [p])) lookahead = 0).
    { unfold LangResult.window_size. simpl.
      destruct (Z.eqb_spec lookahead (-1)); lia. }
    rewrite Hsize. destruct turns as [|turns]; [simpl in Hturns; lia |].
    destruct turns; reflexivity.
  - remember (p :: q :: rest) as line_arr eqn:Hline.
    assert (Hn2 : 2 <= Z.of_nat (length line_arr)) by (subst line_arr; simpl; lia).
    clear Hline p q rest.
    set (n := Z.of_nat (length line_arr)) in *.
    pose proof (window_size_bounds n lookahead Hn2 Hl) as Hsize.
    set (size := LangResult.window_size n lookahead) in *.
    rewrite setitem_inside by (rewrite length_replicate; fold n; lia).
    change (Z.to_nat 0) with 0%nat.
    set (mask0 := <[0%nat := true]> (replicate (length line_arr) false)).
    assert (Hinv : LangResult.invariant line_arr tolerance size
                     (Lang.mkState mask0 0 size false) []).
    { constructor; simpl.
      - subst mask0. by rewrite length_insert, length_replicate.
      - lia.
      - fold n. lia.
      - lia.
      - lia.
      - subst mask0. rewrite nonzero_insert.
        + by rewrite nonzero_nothing.
        + rewrite length_replicate. lia.
        + intros i _ Hi. rewrite length_replicate in Hi. by apply lookup_replicate_2.
      - reflexivity.
      - intros i Hi Hi'. subst mask0. rewrite list_lookup_insert_ne by lia.
        by apply lookup_replicate_2.
      - constructor. }
    destruct (while_not_ready_ends line_arr tolerance size turns ltac:(lia)
                (Lang.mkState mask0 0 size false) [] Hinv)
      as (s' & kept' & Hrun & [_ _ _ Hord _ Hkept Hfirst _ Hsteps] & Hready).
    { intros _. unfold LangResult.turns_left. simpl. fold n. nia. }
    fold n in Hrun. rewrite Hrun. rewrite Hready in Hord. fold n in Hord.
    exists (Lang.nonzero (Lang.mask s')).
    split; [reflexivity |]. rewrite Hkept.
    split; [exact Hfirst |]. split; [| exact Hsteps].
    rewrite last_snoc. by rewrite Hord.
Qed.

(** The simplifier returns on every line of at least one point when the
    lookahead is -1 or at least 1, the square of the number of points being
    turns enough; the indices it keeps are strictly increasing, the first
    of them is 0 and the last is the index of the last point: both ends of
    the line are kept. *)
Theorem lang_idx_keeps_both_ends
    (coords : Lang.Coords) (tolerance : float) (lookahead : Z) (turns : nat) :
  1 <= Z.of_nat (length (snd coords)) ->
  lookahead = -1 \/ 1 <= lookahead ->
  (Z.to_nat (Z.of_nat (length (snd coords)) * Z.of_nat (length (snd coords))) <= turns)%nat ->
  exists idxs,
    Lang.simplify_coords_lang_idx turns coords tolerance lookahead
    = Some (Lang.Ok (fst coords, idxs))
    /\ head idxs = Some 0
    /\ last idxs = Some (Z.of_nat (length (snd coords)) - 1)
    /\ StronglySorted Z.lt idxs.
Proof.
  intros Hn Hl Hturns.
  destruct (lang_idx_run coords tolerance lookahead turns Hn Hl Hturns)
    as (idxs & Hrun & Hhead & Hlast & Hsteps).
  exists idxs. split; [done |]. split; [done |]. split; [done |].
  eapply neighbours_sorted; [| exact Hsteps].
  intros a b [Hab _]. lia.
Qed.

Lemma lang_idx_keeps_both_ends_witness :
  exists idxs,
    Lang.simplify_coords_lang_idx 9 Fixture.collinear_line 1 (-1)
    = Some (Lang.Ok (Lang.PyList, idxs))
    /\ head idxs = Some 0
    /\ last idxs = Some 2
    /\ StronglySorted Z.lt idxs.
Proof.
  apply (lang_idx_keeps_both_ends Fixture.collinear_line 1 (-1) 9).
  - simpl. lia.
  - by left.
  - simpl. lia.
Defined.

(** What the simplifier drops is within the tolerance: between two
    neighbours among the kept indices, every point passed the test of line
    339 against the line through the two kept points (its distance is a
    number and is not above the tolerance). *)
Theorem lang_idx_drops_only_points_within_tolerance
    (coords : Lang.Coords) (tolerance : float) (lookahead : Z) (turns : nat) :
  1 <= Z.of_nat (length (snd coords)) ->
  lookahead = -1 \/ 1 <= lookahead ->
  (Z.to_nat (Z.of_nat (length (snd coords)) * Z.of_nat (length (snd coords))) <= turns)%nat ->
  exists idxs,
    Lang.simplify_coords_lang_idx turns coords tolerance lookahead
    = Some (Lang.Ok (fst coords, idxs))
    /\ LangResult.neighbours
         (fun k1 k2 =>
            forall i, k1 < i < k2 ->
                      LangResult.within_tolerance (snd coords) tolerance k1 k2 i = true)
         idxs.
Proof.
  intros Hn Hl Hturns.
  destruct (lang_idx_run coords tolerance lookahead turns Hn Hl Hturns)
    as (idxs & Hrun & _ & _ & Hsteps).
  exists idxs. split; [done |].
  eapply neighbours_impl; [| exact Hsteps].
  by intros a b [_ Hab].
Qed.

Lemma lang_idx_drops_only_points_within_tolerance_witness :
  exists idxs,
    Lang.simplify_coords_lang_idx 9 Fixture.collinear_line 1 (-1)
    = Some (Lang.Ok (Lang.PyList, idxs))
    /\ LangResult.neighbours
         (fun k1 k2 =>
            forall i, k1 < i < k2 ->
                      LangResult.within_tolerance (snd Fixture.collinear_line) 1 k1 k2 i
                      = true)
         idxs.
Proof.
  apply (lang_idx_drops_only_points_within_tolerance Fixture.collinear_line 1 (-1) 9).
  - simpl. lia.
  - by left.
  - simpl. lia.
Defined.

(** With a lookahead of at least 1, two neighbours among the kept indices
    are never further apart than the lookahead: fewer points than the
    lookahead are dropped in a row. *)
Theorem lang_idx_steps_stay_within_lookahead
    (coords : Lang.Coords) (tolerance : float) (lookahead : Z) (turns : nat) :
  1 <= Z.of_nat (length (snd coords)) ->
  1 <= lookahead ->
  (Z.to_nat (Z.of_nat (length (snd coords)) * Z.of_nat (length (snd coords))) <= turns)%nat ->
  exists idxs,
    Lang.simplify_coords_lang_idx turns coords tolerance lookahead
    = Some (Lang.Ok (fst coords, idxs))
    /\ LangResult.neighbours (fun k1 k2 => k1 < k2 <= k1 + lookahead) idxs.
Proof.
  intros Hn Hl Hturns.
  destruct (lang_idx_run coords tolerance lookahead turns Hn (or_intror Hl) Hturns)
    as (idxs & Hrun & _ & _ & Hsteps).
  exists idxs. split; [done |].
  eapply neighbours_impl; [| exact Hsteps].
  intros a b [Hab _]. unfold LangResult.window_size in Hab.
  destruct (Z.eqb_spec lookahead (-1)); lia.
Qed.

Lemma lang_idx_steps_stay_within_lookahead_witness :
  exists idxs,
    Lang.simplify_coords_lang_idx 9 Fixture.collinear_line 1 1
    = Some (Lang.Ok (Lang.PyList, idxs))
    /\ LangResult.neighbours (fun k1 k2 => k1 < k2 <= k1 + 1) idxs.
Proof.
  apply (lang_idx_steps_stay_within_lookahead Fixture.collinear_line 1 1 9).
  - simpl. lia.
  - lia.
  - simpl. lia.
Defined.

(** With a lookahead of 0 and a line of at least two points the loop never
    ends: the window is empty, so every turn keeps index 0 again and moves
    nowhere.  No number of turns gives a result. *)
Theorem lang_idx_with_lookahead_zero_never_ends
    (coords : Lang.Coords) (tolerance : float) (turns : nat) :
  2 <= Z.of_nat (length (snd coords)) ->
  Lang.simplify_coords_lang_idx turns coords tolerance 0 = None.
Proof.
  destruct coords as [container line_arr]. simpl. intros Hn.
  unfold Lang.simplify_coords_lang_idx. simpl.
  rewrite Z.min_l by lia.
  rewrite setitem_inside by (rewrite length_replicate; lia).
  change (Z.to_nat 0) with 0%nat.
  set (mask0 := <[0%nat := true]> (replicate (length line_arr) false)).
  assert (Hloop : Lang.while_not_ready turns line_arr tolerance
                    (Z.of_nat (length line_arr)) 0 (Lang.mkState mask0 0 0 false)
                  = None); [| by rewrite Hloop].
  assert (Hturn : Lang.turn line_arr tolerance (Z.of_nat (length line_arr)) 0
                    (Lang.mkState mask0 0 0 false)
                  = Lang.Ok (Lang.mkState mask0 0 0 false)).
  { unfold Lang.turn.
    cbn [Lang.window_start Lang.window_end Lang.mask Lang.ready].
    rewrite lang_range_empty by lia. cbn [Lang.all_points_in_tolerance].
    rewrite setitem_inside
      by (subst mask0; rewrite length_insert, length_replicate; lia).
    change (Z.to_nat 0) with 0%nat.
    subst mask0. rewrite list_insert_insert_eq.
    destruct (Z.eqb_spec 0 (Z.of_nat (length line_arr) - 1)); [lia |].
    destruct (Z.leb_spec (Z.of_nat (length line_arr)) (0 + 0)); [lia |].
    reflexivity. }
  induction turns as [|turns IH]; [reflexivity |].
  cbn [Lang.while_not_ready Lang.ready]. rewrite Hturn. exact IH.
Qed.

Lemma lang_idx_with_lookahead_zero_never_ends_witness :
  Lang.simplify_coords_lang_idx 1000 Fixture.collinear_line 1 0 = None.
Proof.
  apply (lang_idx_with_lookahead_zero_never_ends Fixture.collinear_line 1 1000).
  simpl. lia.
Defined.

(** ** The batch planner: what every plan has *)

(** The planner only reads.  Asked for no conversion, as the single layer
    operations ask it, [_prepare_processing_params] leaves the file system
    as it found it, whatever it returns or raises: it sends queries and
    writes log lines, nothing else. *)
Theorem planner_leaves_the_files_alone
    (w : World) (input1_path : Path) (input1_layer : string) (tempdir : Path)
    (nb_parallel batchsize : Z) (input1_layer_alias : option string)
    (input2_path : option Path) (input2_layer : option string) :
  fs (snd (_prepare_processing_params input1_path input1_layer tempdir false
             nb_parallel batchsize input1_layer_alias input2_path input2_layer w))
  = fs w.
Proof.
  destruct (_prepare_processing_params input1_path input1_layer tempdir false
              nb_parallel batchsize input1_layer_alias input2_path input2_layer w)
    as [o w'] eqn:Hrun.
  exact (keeps_plan (fun w0 => fs w0 = fs w) input1_path input1_layer tempdir
           nb_parallel batchsize input1_layer_alias input2_path input2_layer
           (fun _ _ H => H) (fun _ _ H => H) w o w' eq_refl Hrun).
Qed.

Lemma dict_set_length {V : Type} (k : Z) (v : V) (d : list (Z * V)) :
  (length (Py.dict_set k v d) <= S (length d))%nat.
Proof.
  induction d as [|[k' v'] d IH]; simpl; [lia |].
  destruct (k' =? k); simpl; lia.
Qed.

Lemma fill_batches_length
    (layer : string) (p : Path) (alias_d : string) (nb : Z) (df : list BatchInfo.t) :
  (length (Planner.fill_batches layer p alias_d nb df) <= length df)%nat.
Proof.
  unfold Planner.fill_batches.
  assert (H : forall acc : list (Z * Batch),
            (length (foldl (fun batches batch_info =>
                              Py.dict_set (BatchInfo.id batch_info)
                                (mkBatch layer p (Planner.filter_of alias_d nb batch_info))
                                batches) acc df)
             <= length acc + length df)%nat).
  { induction df as [|bi df IH]; intros acc; simpl; [lia |].
    etrans; [apply IH |].
    pose proof (dict_set_length (BatchInfo.id bi)
                  (mkBatch layer p (Planner.filter_of alias_d nb bi)) acc).
    lia. }
  apply (H []).
Qed.

Lemma dense_batch_info_length (ids : list Z) (nb per offset step max_rowid : Z) :
  length (Planner.dense_batch_info ids nb per offset step max_rowid) = length ids.
Proof.
  revert offset. induction ids as [|i ids IH]; intros offset; simpl; [done |].
  by rewrite IH.
Qed.

Lemma ntile_groups_length (sizes : list nat) (batch_id : Z) (ordered : list Z) :
  (length (Engine.ntile_groups batch_id sizes ordered) <= length sizes)%nat.
Proof.
  revert batch_id ordered. induction sizes as [|k sizes IH]; intros batch_id ordered;
    simpl; [lia |].
  specialize (IH (batch_id + 1) (drop k ordered)).
  destruct (take k ordered); simpl; lia.
Qed.

(** The batches of a plan are no more than the number asked for, one at
    least being allowed. *)
Lemma prepare_batches_length
    (p : Path) (layer : string) (li : LayerInfo.t) (alias : option string) (nb : Z)
    (w w' : World) (batches : list (Z * Batch)) :
  Planner.prepare_batches p layer li alias nb w = (Returned batches, w') ->
  Z.of_nat (length batches) <= Z.max nb 1.
Proof.
  unfold Planner.prepare_batches. intros Hrun.
  destruct (Z.eqb_spec nb 1) as [->|Hnb1].
  { injection Hrun as <- <-. simpl. lia. }
  apply bind_returned_inv in Hrun as (min_max & w1 & _ & Hrun).
  apply bind_returned_inv in Hrun as (df & w2 & Hdf & Hrun).
  injection Hrun as <- <-.
  pose proof (fill_batches_length layer p (Planner.layer_alias_d alias) nb df) as Hlen.
  assert (Hntile : forall w1 w2,
            Engine.query_ntile p (LayerInfo.name li) nb w1 = (Returned df, w2) ->
            (length df <= Z.to_nat nb)%nat).
  { clear. intros w1 w2 H. unfold Engine.query_ntile in H.
    apply bind_returned_inv in H as ([] & w3 & _ & H).
    apply bind_returned_inv in H as (l & w4 & _ & H).
    destruct (nb <=? 0); [discriminate |]. injection H as <- <-.
    unfold Engine.ntile.
    etrans; [apply ntile_groups_length |]. by rewrite ntile_sizes_length. }
  assert (Hdf' : (length df <= Z.to_nat nb)%nat); [| lia].
  destruct min_max as [[min_rowid max_rowid]|]; [| by eapply Hntile].
  destruct (Planner.rowids_quite_consecutive _ _ _); [| by eapply Hntile].
  unfold Planner.dense_batches in Hdf.
  destruct (nb =? 0); [discriminate |]. injection Hdf as <- <-.
  rewrite dense_batch_info_length. unfold Py.range.
  by rewrite length_fmap, length_seq.
Qed.

(** A plan is small.  Whatever parallelism and batch size are asked for,
    and whether the planner is asked to convert its inputs or not, a plan
    that it returns has at most max(int(N/10), 1) batches (lines
    1640-1644), N being the number of rows of the layer the batches are
    made on: the layer at the [input1_path] of the plan, which is the copy
    when the planner made one.  The plan asks for no more processes than it
    has batches (lines 1719-1721). *)
Theorem plan_has_at_most_a_tenth_of_the_rows_as_batches
    (w w' : World) (input1_path : Path) (input1_layer : string) (tempdir : Path)
    (convert_to_spatialite_based : bool)
    (nb_parallel batchsize : Z) (input1_layer_alias : option string)
    (input2_path : option Path) (input2_layer : option string)
    (pp : ProcessingParams.t) :
  _prepare_processing_params input1_path input1_layer tempdir
    convert_to_spatialite_based nb_parallel batchsize input1_layer_alias
    input2_path input2_layer w
  = (Returned (Some pp), w') ->
  exists l,
    Gfo.read_layer (ProcessingParams.input1_path pp) (ProcessingParams.input1_layer pp) w'
    = (Returned l, w')
    /\ Z.of_nat (length (ProcessingParams.batches pp))
       <= Z.max (Py.int_div (Z.of_nat (length (layer_rowids l))) 10) 1
    /\ ProcessingParams.nb_parallel pp
       <= Z.of_nat (length (ProcessingParams.batches pp)).
Proof.
  intros Hrun. unfold _prepare_processing_params in Hrun.
  apply bind_returned_inv in Hrun as (li & w1 & Hinfo & Hrun).
  apply get_layerinfo_inv in Hinfo as (l0 & Hread0 & -> & -> & _).
  destruct (Z.eqb_spec (LayerInfo.featurecount (Gfo.layerinfo_of l0)) 0) as [E|E].
  { apply bind_returned_inv in Hrun as (? & ? & _ & Hrun). discriminate. }
  apply bind_returned_inv in Hrun as (w0 & w1 & Hget & Hrun).
  injection Hget as <- <-.
  apply bind_returned_inv in Hrun as ([p1 p2] & w2 & Hfiles & Hrun).
  apply bind_returned_inv in Hrun as (li1 & w3 & Hinfo1 & Hrun).
  apply get_layerinfo_inv in Hinfo1 as (l & Hread & -> & -> & _).
  apply bind_returned_inv in Hrun as (batches & w4 & Hbatches & Hrun).
  injection Hrun as <- <-. simpl.
  exists l. split.
  - apply (read_layer_agrees _ _ w2); [| done].
    by rewrite (keeps_prepare_batches (fun w0 => fs w0 = fs w2) _ _ _ _ _
                  (fun _ _ H => H) w2 _ w4 eq_refl Hbatches).
  - apply prepare_batches_length in Hbatches.
    change (LayerInfo.featurecount (Gfo.layerinfo_of l))
      with (Z.of_nat (length (layer_rowids l))) in *.
    change (LayerInfo.featurecount (Gfo.layerinfo_of l0))
      with (Z.of_nat (length (layer_rowids l0))) in *.
    split.
    + pose proof (clamp_bound (Z.of_nat (length (layer_rowids l)))
                    (Planner.initial_nb_batches (Z.of_nat (length (layer_rowids l0)))
                       nb_parallel
                       (Planner.resolved_nb_parallel (cpu_count w)
                          (Z.of_nat (length (layer_rowids l0))) nb_parallel)
                       batchsize)).
      lia.
    + destruct (Z.ltb_spec (Z.of_nat (length batches))
                  (Planner.resolved_nb_parallel (cpu_count w)
                     (Z.of_nat (length (layer_rowids l0))) nb_parallel)); lia.
Qed.

(** The plan of the intersection of 1000 parcels with the zones, as the
    two layer operation asks for it: the inputs to be converted where
    needed, eight processes. *)
Lemma plan_has_at_most_a_tenth_of_the_rows_as_batches_witness :
  exists l,
    Gfo.read_layer
      (ProcessingParams.input1_path
         (Fixture.plan_of (Fixture.plan_for_two_layers
                             (Fixture.world (Fixture.consecutive 1000) 4) 8 (-1))))
      (ProcessingParams.input1_layer
         (Fixture.plan_of (Fixture.plan_for_two_layers
                             (Fixture.world (Fixture.consecutive 1000) 4) 8 (-1))))
      (snd (Fixture.plan_for_two_layers (Fixture.world (Fixture.consecutive 1000) 4) 8 (-1)))
    = (Returned l,
       snd (Fixture.plan_for_two_layers (Fixture.world (Fixture.consecutive 1000) 4) 8 (-1)))
    /\ Z.of_nat (length (ProcessingParams.batches
                           (Fixture.plan_of
                              (Fixture.plan_for_two_layers
                                 (Fixture.world (Fixture.consecutive 1000) 4) 8 (-1)))))
       <= Z.max (Py.int_div (Z.of_nat (length (layer_rowids l))) 10) 1
    /\ ProcessingParams.nb_parallel
         (Fixture.plan_of
            (Fixture.plan_for_two_layers (Fixture.world (Fixture.consecutive 1000) 4) 8 (-1)))
       <= Z.of_nat (length (ProcessingParams.batches
                              (Fixture.plan_of
                                 (Fixture.plan_for_two_layers
                                    (Fixture.world (Fixture.consecutive 1000) 4) 8 (-1))))).
Proof.
  apply (plan_has_at_most_a_tenth_of_the_rows_as_batches
           (Fixture.world (Fixture.consecutive 1000) 4)
           (snd (Fixture.plan_for_two_layers
                   (Fixture.world (Fixture.consecutive 1000) 4) 8 (-1)))
           Fixture.parcels_path "parcels" ["tmp"; "work"]%string true 8 (-1)
           (Some "layer1"%string) (Some Fixture.zones_path) (Some "zones"%string)).
  vm_compute. reflexivity.
Defined.

Lemma initial_nb_batches_of_few_rows (n nb_parallel cpus batchsize : Z) :
  0 < n < 200 ->
  1 <= Planner.initial_nb_batches n nb_parallel
         (Planner.resolved_nb_parallel cpus n nb_parallel) batchsize.
Proof.
  intros Hn. unfold Planner.initial_nb_batches, Planner.resolved_nb_parallel.
  destruct (Z.eqb_spec nb_parallel (-1)) as [->|Hnb].
  - assert (Py.int_div n 100 < 2) by (apply int_div_lt; lia).
    destruct (Z.ltb_spec 1 (Z.min cpus (Z.max (Py.int_div n 100) 1))); lia.
  - destruct (Z.ltb_spec 1 nb_parallel) as [Hpar|]; [| lia].
    destruct (Z.ltb_spec 0 batchsize) as [Hbs|].
    + destruct (Z.ltb_spec (batchsize * nb_parallel) n); [| lia].
      apply quotient_of_a_quotient_positive; nia.
    + destruct (Z.ltb_spec 200000 n); lia.
Qed.

(** A layer of fewer than 20 rows is never split.  Whatever parallelism,
    batch size and conversion the caller asks for, a plan that the planner
    returns for such a layer, when the layer its batches are made on (the
    layer itself, or the copy the planner made of it) has fewer than 20
    rows as well, has batch 0 alone, on that whole layer, with no filter,
    and asks for one process at most.  A planner that is asked for no
    conversion, as the single layer operations ask it, does return such a
    plan, on the layer itself, and changes nothing and sends no query for
    it. *)
Theorem small_layer_is_planned_as_one_batch
    (w : World) (input1_path : Path) (input1_layer : string) (tempdir : Path)
    (convert_to_spatialite_based : bool)
    (nb_parallel batchsize : Z) (input1_layer_alias : option string)
    (input2_path : option Path) (input2_layer : option string) (l : Layer) :
  Gfo.read_layer input1_path input1_layer w = (Returned l, w) ->
  (0 < length (layer_rowids l) < 20)%nat ->
  (forall pp w' l',
     _prepare_processing_params input1_path input1_layer tempdir
       convert_to_spatialite_based nb_parallel batchsize input1_layer_alias
       input2_path input2_layer w
     = (Returned (Some pp), w') ->
     Gfo.read_layer (ProcessingParams.input1_path pp)
       (ProcessingParams.input1_layer pp) w'
     = (Returned l', w') ->
     (length (layer_rowids l') < 20)%nat ->
     ProcessingParams.batches pp
     = [(0, mkBatch input1_layer (ProcessingParams.input1_path pp) NoFilter)]
     /\ ProcessingParams.nb_parallel pp <= 1)
  /\ (convert_to_spatialite_based = false ->
      exists pp,
        _prepare_processing_params input1_path input1_layer tempdir false
          nb_parallel batchsize input1_layer_alias input2_path input2_layer w
        = (Returned (Some pp), w)
        /\ ProcessingParams.batches pp = [(0, mkBatch input1_layer input1_path NoFilter)]
        /\ ProcessingParams.nb_parallel pp <= 1).
Proof.
  intros Hread Hrows.
  set (N := Z.of_nat (length (layer_rowids l))) in *.
  pose proof (initial_nb_batches_of_few_rows N nb_parallel (cpu_count w) batchsize
                ltac:(lia)) as Hinit.
  assert (Hclamp : forall M, 0 <= M < 20 ->
            Planner.clamp_nb_batches M
              (Planner.initial_nb_batches N nb_parallel
                 (Planner.resolved_nb_parallel (cpu_count w) N nb_parallel)
                 batchsize) = 1).
  { intros M HM. unfold Planner.clamp_nb_batches.
    assert (0 <= Py.int_div M 10 < 2).
    { split; [apply int_div_nonneg; lia | apply int_div_lt; lia]. }
    destruct (Z.ltb_spec (Py.int_div M 10)
                (Planner.initial_nb_batches N nb_parallel
                   (Planner.resolved_nb_parallel (cpu_count w) N nb_parallel)
                   batchsize)); lia. }
  split.
  - intros pp w' l' Hrun Hread' Hrows'.
    unfold _prepare_processing_params in Hrun.
    apply bind_returned_inv in Hrun as (li & w1 & Hinfo & Hrun).
    apply get_layerinfo_inv in Hinfo as (l0 & Hread0 & -> & -> & _).
    rewrite Hread in Hread0. injection Hread0 as <-.
    change (LayerInfo.featurecount (Gfo.layerinfo_of l)) with N in Hrun.
    destruct (Z.eqb_spec N 0) as [E|E]; [lia |].
    apply bind_returned_inv in Hrun as (w0 & w1 & Hget & Hrun).
    injection Hget as <- <-.
    apply bind_returned_inv in Hrun as ([p1 p2] & w2 & Hfiles & Hrun).
    apply bind_returned_inv in Hrun as (li1 & w3 & Hinfo1 & Hrun).
    apply get_layerinfo_inv in Hinfo1 as (l1 & Hread1 & -> & -> & _).
    apply bind_returned_inv in Hrun as (batches & w4 & Hbatches & Hrun).
    injection Hrun as <- <-. simpl in Hread', Hrows' |- *.
    assert (Hsame : l1 = l').
    { assert (Hfs : fs w4 = fs w2)
        by exact (keeps_prepare_batches (fun w0 => fs w0 = fs w2) _ _ _ _ _
                    (fun _ _ H => H) w2 _ w4 eq_refl Hbatches).
      pose proof (read_layer_agrees _ _ w2 w4 l1 ltac:(by rewrite Hfs) Hread1) as H1.
      rewrite H1 in Hread'. by injection Hread'. }
    subst l'.
    change (LayerInfo.featurecount (Gfo.layerinfo_of l1))
      with (Z.of_nat (length (layer_rowids l1))) in Hbatches.
    rewrite Hclamp in Hbatches by lia.
    rewrite prepare_batches_one in Hbatches. injection Hbatches as <- <-.
    split; [reflexivity |]. simpl. change (Z.of_nat 1) with 1.
    destruct (Z.ltb_spec 1 (Planner.resolved_nb_parallel (cpu_count w) N nb_parallel));
      lia.
  - intros _. unfold _prepare_processing_params.
    run (get_layerinfo_of_layer _ _ _ _ Hread).
    change (LayerInfo.featurecount (Gfo.layerinfo_of l)) with N.
    destruct (Z.eqb_spec N 0) as [E|E]; [lia |].
    rewrite (bind_returned get_world _ w w w eq_refl).
    run (prepare_input_files_as_given _ _ _ _ _ _).
    run (get_layerinfo_of_layer _ _ _ _ Hread).
    change (LayerInfo.featurecount (Gfo.layerinfo_of l)) with N.
    rewrite Hclamp by lia.
    run (prepare_batches_one _ _ _ _ _).
    eexists. split; [reflexivity |]. split; [reflexivity |]. simpl.
    change (Z.of_nat 1) with 1.
    destruct (Z.ltb_spec 1 (Planner.resolved_nb_parallel (cpu_count w) N nb_parallel));
      lia.
Qed.

(** Twelve rows, eight processes and batches of five rows asked for: in a
    shapefile that the planner converts, and in a GeoPackage with no
    conversion asked for. *)
Lemma small_layer_is_planned_as_one_batch_witness :
  (ProcessingParams.batches
     (Fixture.plan_of (Fixture.plan_of_a_shapefile (Fixture.consecutive 12) 8 5))
   = [(0, mkBatch "parcels" ["tmp"; "work"; "parcels.gpkg"]%string NoFilter)]
   /\ ProcessingParams.nb_parallel
        (Fixture.plan_of (Fixture.plan_of_a_shapefile (Fixture.consecutive 12) 8 5))
      <= 1)
  /\ exists pp,
       _prepare_processing_params Fixture.parcels_path "parcels" ["tmp"; "work"]%string
         false 8 5 (Some "layer"%string) None None
         (Fixture.world (Fixture.consecutive 12) 4)
       = (Returned (Some pp), Fixture.world (Fixture.consecutive 12) 4)
       /\ ProcessingParams.batches pp
          = [(0, mkBatch "parcels" Fixture.parcels_path NoFilter)]
       /\ ProcessingParams.nb_parallel pp <= 1.
Proof.
  split.
  - apply (proj1 (small_layer_is_planned_as_one_batch
             (Fixture.world_with_shapefile (Fixture.consecutive 12) 4)
             Fixture.shapefile_path "parcels" ["tmp"; "work"]%string true 8 5
             (Some "layer"%string) None None
             (Fixture.layer_of "parcels" (Fixture.consecutive 12))
             ltac:(vm_compute; reflexivity) ltac:(simpl; lia))
             (Fixture.plan_of (Fixture.plan_of_a_shapefile (Fixture.consecutive 12) 8 5))
             (snd (Fixture.plan_of_a_shapefile (Fixture.consecutive 12) 8 5))
             (mkLayer "parcels" (layer_geometrycolumn
                                   (Fixture.layer_of "parcels" (Fixture.consecutive 12)))
                (layer_columns (Fixture.layer_of "parcels" (Fixture.consecutive 12)))
                (layer_crs (Fixture.layer_of "parcels" (Fixture.consecutive 12)))
                (Fixture.consecutive 12) false)).
    + vm_compute. reflexivity.
    + vm_compute. reflexivity.
    + simpl. lia.
  - apply (small_layer_is_planned_as_one_batch
             (Fixture.world (Fixture.consecutive 12) 4) Fixture.parcels_path "parcels"
             ["tmp"; "work"]%string false 8 5 (Some "layer"%string) None None
             (Fixture.layer_of "parcels" (Fixture.consecutive 12))).
    + vm_compute. reflexivity.
    + simpl. lia.
    + reflexivity.
Defined.

(** ** The column projector: what a request is read as *)

Lemma missing_columns_nil (upper : string -> string)
    (columns_specified columns_available : list string) :
  missing_columns upper columns_specified columns_available = []
  <-> forall u, u ∈ upper <$> columns_specified -> u ∈ upper <$> columns_available.
Proof.
  unfold missing_columns. split.
  - intros Hnil u (c & -> & Hc)%list_elem_of_fmap.
    destruct (decide (upper c ∈ upper <$> columns_available)) as [|Hnot]; [done |].
    assert (Hin : c ∈ filter (fun col => upper col ∉ upper <$> columns_available)
                        columns_specified)
      by by apply list_elem_of_filter.
    rewrite Hnil in Hin. by apply elem_of_nil in Hin.
  - intros Hall.
    destruct (filter _ columns_specified) as [|c rest] eqn:E; [done |].
    assert (Hin : c ∈ filter (fun col => upper col ∉ upper <$> columns_available)
                        columns_specified)
      by (rewrite E; apply list_elem_of_here).
    apply list_elem_of_filter in Hin as [Hnot Hc].
    exfalso. apply Hnot, Hall. by apply list_elem_of_fmap_2.
Qed.

(** A request is read as a set of names, the case ignored.  Two requests
    that name the same columns once upper-cased, in whatever order, casing
    or number of repetitions, are answered alike: either both are refused,
    or both get the same five fragments. *)
Theorem projector_reads_the_request_as_a_set
    (upper : string -> string) (request1 request2 columns_available : list string)
    (table_alias columnname_prefix : string) (r : FormattedColumnStrings.t) :
  (forall u, u ∈ upper <$> request1 <-> u ∈ upper <$> request2) ->
  format_column_strings upper (Some request1) columns_available
    table_alias columnname_prefix = Returned r
  <-> format_column_strings upper (Some request2) columns_available
        table_alias columnname_prefix = Returned r.
Proof.
  intros Hsame.
  assert (Hkeep : columns_to_keep upper request1 columns_available
                  = columns_to_keep upper request2 columns_available).
  { unfold columns_to_keep. apply list_filter_iff. intros col. apply Hsame. }
  assert (Hmissing : missing_columns upper request1 columns_available = []
                     <-> missing_columns upper request2 columns_available = []).
  { rewrite !missing_columns_nil. split; intros H u Hu; apply H, Hsame, Hu. }
  unfold format_column_strings. rewrite Hkeep.
  destruct (missing_columns upper request1 columns_available) as [|c1 m1];
    destruct (missing_columns upper request2 columns_available) as [|c2 m2];
    try done.
  - discriminate (proj1 Hmissing eq_refl).
  - discriminate (proj2 Hmissing eq_refl).
Qed.

(** The requests ["NAME"; "area"] and ["Area"; "name"; "NAME"] on the
    columns id, Name, AREA, geom. *)
Lemma projector_reads_the_request_as_a_set_witness :
  format_column_strings Py.upper (Some ["NAME"; "area"]%string)
    ["id"; "Name"; "AREA"; "geom"]%string "layer1" "l1_"
  = Returned (format_fragments ["Name"; "AREA"]%string "layer1" "l1_")
  <-> format_column_strings Py.upper (Some ["Area"; "name"; "NAME"]%string)
        ["id"; "Name"; "AREA"; "geom"]%string "layer1" "l1_"
      = Returned (format_fragments ["Name"; "AREA"]%string "layer1" "l1_").
Proof.
  apply (projector_reads_the_request_as_a_set Py.upper ["NAME"; "area"]%string
           ["Area"; "name"; "NAME"]%string ["id"; "Name"; "AREA"; "geom"]%string
           "layer1" "l1_" (format_fragments ["Name"; "AREA"]%string "layer1" "l1_")).
  intros u. simpl. rewrite !elem_of_cons, !elem_of_nil. tauto.
Defined.

(** No request is the request for everything.  [columns_specified=None]
    gives what the list of all the columns of the layer gives. *)
Theorem projector_without_request_keeps_every_column
    (upper : string -> string) (columns_available : list string)
    (table_alias columnname_prefix : string) :
  format_column_strings upper None columns_available table_alias columnname_prefix
  = format_column_strings upper (Some columns_available) columns_available
      table_alias columnname_prefix.
Proof.
  unfold format_column_strings.
  assert (Hmissing : missing_columns upper columns_available columns_available = [])
    by by apply missing_columns_nil.
  rewrite Hmissing. clear Hmissing. f_equal. f_equal.
  unfold columns_to_keep.
  assert (Hall : forall request : list string,
            (forall col, col ∈ columns_available -> upper col ∈ upper <$> request) ->
            columns_available
            = filter (fun col => upper col ∈ upper <$> request) columns_available).
  { intros request. induction columns_available as [|col rest IH]; intros Hin; [done |].
    rewrite filter_cons_True by apply Hin, list_elem_of_here.
    f_equal. apply IH. intros c Hc. by apply Hin, list_elem_of_further. }
  apply Hall. intros col Hcol. by apply list_elem_of_fmap_2.
Qed.

(** ** geofile.py *)

(** A path is taken for a geofile exactly when there is a driver for it:
    [is_geofile] says yes on the paths on which [get_driver] returns, and
    no on those on which it raises. *)
Theorem a_geofile_is_a_path_with_a_driver (lower : string -> string) (path : Path) :
  Geofile.is_geofile lower path = true
  <-> exists driver, Geofile.get_driver lower path = Geofile.Done driver.
Proof.
  unfold Geofile.is_geofile, Geofile.is_geofile_ext, Geofile.get_driver,
    Geofile.get_driver_for_ext.
  set (ext := lower (PathOps.suffix path)).
  destruct (String.eqb_spec ext ".shp") as [->|Hshp].
  { split; [eauto | intros _; reflexivity]. }
  destruct (String.eqb_spec ext ".geojson") as [->|Hjson].
  { split; [eauto | intros _; reflexivity]. }
  destruct (String.eqb_spec ext ".gpkg") as [->|Hgpkg].
  { split; [eauto | intros _; reflexivity]. }
  rewrite bool_decide_eq_false_2.
  - split; [discriminate | intros [d Hd]; discriminate].
  - rewrite !elem_of_cons, elem_of_nil. tauto.
Qed.

(** *** [add_column] *)

Lemma prefix_of_nothing (a : string) : String.prefix a "" = true -> a = ""%string.
Proof. by destruct a. Qed.

Lemma prefix_of_cons (a : string) (y : Ascii.ascii) (b : string) :
  String.prefix a (String y b) = true ->
  a = ""%string \/ exists a', a = String y a' /\ String.prefix a' b = true.
Proof.
  destruct a as [|x a]; [by left |]. simpl.
  destruct (ascii_dec x y) as [->|]; [| discriminate]. right. eauto.
Qed.

Lemma str_in_area (a : string) :
  str_in a "area" = true <-> a ∈ substrings_of_area.
Proof.
  split.
  - intros H. unfold substrings_of_area. cbn [str_in] in H.
    repeat (apply orb_prop in H as [H|H]); try discriminate;
      repeat match type of H with
             | String.prefix _ (String _ _) = true =>
                 apply prefix_of_cons in H as [-> | (? & -> & H)];
                 [repeat first [apply list_elem_of_here | apply list_elem_of_further] |]
             | String.prefix _ EmptyString = true =>
                 apply prefix_of_nothing in H as ->;
                 repeat first [apply list_elem_of_here | apply list_elem_of_further]
             end.
  - unfold substrings_of_area. intros Ha.
    repeat (apply elem_of_cons in Ha as [-> | Ha]; [reflexivity |]).
    by apply elem_of_nil in Ha.
Qed.

(** The layer [add_column] works on. *)
Lemma add_column_layer (layer : option string) (path_p : Path) (w : World) (name : string) :
  Call.names_layer layer path_p w name ->
  (match layer with
   | None => Geofile.helper (Gfo.get_only_layer path_p)
   | Some layer => Geofile.ret layer
   end) w = (Geofile.Done name, w).
Proof.
  intros Hlayer. destruct layer as [l|]; simpl in Hlayer.
  - by subst.
  - unfold Geofile.helper. by rewrite Hlayer.
Qed.

(** Every way [add_column] has to raise, when the engine raises nothing but
    its own errors. *)
Lemma add_column_failures
    (lower : string -> string) (execute_sql : Path -> string -> Geofile.G unit)
    (path_p : Path) (column_name : string) (column_type layer : option string)
    (w : World) (name : string) (e : Geofile.Error) :
  Call.names_layer layer path_p w name ->
  (forall p stmt w0 e w1, execute_sql p stmt w0 = (Geofile.Failed e, w1) ->
                          exists message, e = Geofile.EngineError message) ->
  fst (Geofile.add_column lower execute_sql path_p column_name column_type layer w)
  = Geofile.Failed e ->
  (e = Geofile.UnsupportedColumnType column_type
   /\ lower column_name ∉ substrings_of_area)
  \/ (e = Geofile.ColumnTypeNeeded (lower column_name)
      /\ lower column_name ∈ substrings_of_area
      /\ lower column_name <> "area"%string /\ column_type = None)
  \/ ((e = Geofile.Helper (CannotOpen path_p)
       \/ exists message, e = Geofile.EngineError message)
      /\ lower column_name ∈ substrings_of_area
      /\ (lower column_name = "area"%string \/ column_type <> None)).
Proof.
  intros Hlayer Hengine.
  unfold Geofile.add_column, mbind, Geofile.G_bind.
  unfold Geofile.bind at 1. rewrite (add_column_layer _ _ _ _ Hlayer).
  destruct (str_in (lower column_name) "area") eqn:Ein; cbn [negb].
  2: { intros H. injection H as <-. left. split; [done |].
       intros Hin%str_in_area. congruence. }
  apply str_in_area in Ein.
  assert (Hblock : forall ty : string,
    fst (Geofile.try_except
      (Geofile.bind (Geofile.open_for_update path_p) (fun _ =>
       Geofile.bind (execute_sql path_p
             ("ALTER TABLE " +:+ quoted name +:+ " ADD COLUMN "
                +:+ quoted (lower column_name) +:+ " " +:+ ty)) (fun _ =>
       if String.eqb (lower column_name) "area" then
         execute_sql path_p
           ("UPDATE " +:+ quoted name +:+ " SET " +:+ quoted (lower column_name)
              +:+ " = ST_area(geom)")
       else Geofile.ret tt)))
      (fun ex =>
         match ex with
         | Geofile.EngineError message =>
             if str_in "duplicate column name:" message
             then Geofile.helper (logger (LogWarning ("Column " +:+ lower column_name
                                               +:+ " existed already")))
             else Geofile.fail ex
         | _ => Geofile.fail ex
         end) w) = Geofile.Failed e ->
    e = Geofile.Helper (CannotOpen path_p)
    \/ exists message, e = Geofile.EngineError message).
  { intros ty. unfold Geofile.try_except, Geofile.bind, Geofile.open_for_update.
    destruct (fs w !! path_p) as [[|layers]|];
      try (intros H; injection H as <-; by left).
    destruct (execute_sql path_p _ w) as [[[]|e1] w1] eqn:E1.
    - destruct (String.eqb (lower column_name) "area").
      + destruct (execute_sql path_p _ w1) as [[[]|e2] w2] eqn:E2; [discriminate |].
        destruct (Hengine _ _ _ _ _ E2) as [message ->].
        destruct (str_in "duplicate column name:" message); [discriminate |].
        intros H. injection H as <-. right. eauto.
      + discriminate.
    - destruct (Hengine _ _ _ _ _ E1) as [message ->].
      destruct (str_in "duplicate column name:" message); [discriminate |].
      intros H. injection H as <-. right. eauto. }
  destruct column_type as [ty|].
  - unfold Geofile.bind at 1, Geofile.ret at 1.
    intros H%Hblock. right. right. split; [done | split; [done | by right]].
  - destruct (String.eqb_spec (lower column_name) "area") as [Harea|Harea].
    + unfold Geofile.bind at 1, Geofile.ret at 1.
      intros H%Hblock. right. right. split; [done | split; [done | by left]].
    + unfold Geofile.bind at 1, Geofile.fail at 1.
      intros H. injection H as <-. right. left. done.
Qed.

(** What [add_column] does once a name has passed the tests and has a
    type: the file is opened and the ALTER statement sent; for area the
    UPDATE statement follows. *)
Lemma add_column_sends_the_statements
    (lower : string -> string) (execute_sql : Path -> string -> Geofile.G unit)
    (path_p : Path) (column_name : string) (column_type layer : option string)
    (w w1 : World) (name ty : string) (layers : list Layer) :
  Call.names_layer layer path_p w name ->
  lower column_name ∈ substrings_of_area ->
  (column_type = Some ty
   \/ column_type = None /\ lower column_name = "area"%string /\ ty = "real"%string) ->
  fs w !! path_p = Some (File layers) ->
  execute_sql path_p
    ("ALTER TABLE " +:+ quoted name +:+ " ADD COLUMN " +:+ quoted (lower column_name)
       +:+ " " +:+ ty) w
  = (Geofile.Done tt, w1) ->
  Geofile.add_column lower execute_sql path_p column_name column_type layer w
  = if String.eqb (lower column_name) "area"
    then Geofile.try_except
           (execute_sql path_p
              ("UPDATE " +:+ quoted name +:+ " SET " +:+ quoted (lower column_name)
                 +:+ " = ST_area(geom)"))
           (fun ex =>
              match ex with
              | Geofile.EngineError message =>
                  if str_in "duplicate column name:" message
                  then Geofile.helper
                         (logger (LogWarning ("Column " +:+ lower column_name
                                              +:+ " existed already")))
                  else Geofile.fail ex
              | _ => Geofile.fail ex
              end) w1
    else (Geofile.Done tt, w1).
Proof.
  intros Hlayer Hin Hty Hfile Halter.
  unfold Geofile.add_column, mbind, Geofile.G_bind.
  unfold Geofile.bind at 1. rewrite (add_column_layer _ _ _ _ Hlayer).
  apply str_in_area in Hin. rewrite Hin. cbn [negb].
  assert (Htype :
    (match column_type with
     | None => if String.eqb (lower column_name) "area" then Geofile.ret "real"%string
               else Geofile.fail (Geofile.ColumnTypeNeeded (lower column_name))
     | Some column_type => Geofile.ret column_type
     end) w = (Geofile.Done ty, w)).
  { destruct Hty as [-> | (-> & -> & ->)]; reflexivity. }
  unfold Geofile.bind at 1. rewrite Htype.
  unfold Geofile.try_except, Geofile.bind, Geofile.open_for_update.
  rewrite Hfile, Halter.
  destruct (String.eqb (lower column_name) "area"); reflexivity.
Qed.

(** [add_column] tests the name as a substring.  Once the layer is known,
    and with an engine that raises nothing but its own errors, a name is
    refused as unsupported exactly when its lower case is no substring of
    ['area'], and then before the file is touched; so the names a, r, e,
    ar, re, ea, are, rea and the empty name get past that test as area
    does.  A name that got past it is refused for the lack of a column type
    exactly when it comes without one and is not area, again before the
    file is touched.  Any other name that got past it and comes with a type
    is added: on a file that opens, when the engine takes the statement
    [ALTER TABLE "layer" ADD COLUMN "name" type], [add_column] returns.
    Area without a type is added as a real and is filled by the statement
    [UPDATE "layer" SET "area" = ST_area(geom)]. *)
Theorem add_column_takes_the_substrings_of_area
    (lower : string -> string) (execute_sql : Path -> string -> Geofile.G unit)
    (path_p : Path) (column_name : string) (column_type layer : option string)
    (w : World) (name : string) :
  Call.names_layer layer path_p w name ->
  (forall p stmt w0 e w1, execute_sql p stmt w0 = (Geofile.Failed e, w1) ->
                          exists message, e = Geofile.EngineError message) ->
  ((exists ty,
      fst (Geofile.add_column lower execute_sql path_p column_name column_type layer w)
      = Geofile.Failed (Geofile.UnsupportedColumnType ty))
   <-> lower column_name ∉ substrings_of_area)
  /\ (lower column_name ∉ substrings_of_area ->
      Geofile.add_column lower execute_sql path_p column_name column_type layer w
      = (Geofile.Failed (Geofile.UnsupportedColumnType column_type), w))
  /\ ((exists n,
         fst (Geofile.add_column lower execute_sql path_p column_name column_type layer w)
         = Geofile.Failed (Geofile.ColumnTypeNeeded n))
      <-> lower column_name ∈ substrings_of_area
          /\ lower column_name <> "area"%string /\ column_type = None)
  /\ (lower column_name ∈ substrings_of_area ->
      lower column_name <> "area"%string -> column_type = None ->
      Geofile.add_column lower execute_sql path_p column_name column_type layer w
      = (Geofile.Failed (Geofile.ColumnTypeNeeded (lower column_name)), w))
  /\ (forall ty layers w1,
        lower column_name ∈ substrings_of_area ->
        lower column_name <> "area"%string -> column_type = Some ty ->
        fs w !! path_p = Some (File layers) ->
        execute_sql path_p
          ("ALTER TABLE " +:+ (dquote +:+ name +:+ dquote) +:+ " ADD COLUMN "
             +:+ (dquote +:+ lower column_name +:+ dquote) +:+ " " +:+ ty) w
        = (Geofile.Done tt, w1) ->
        Geofile.add_column lower execute_sql path_p column_name column_type layer w
        = (Geofile.Done tt, w1))
  /\ (forall layers w1 w2,
        lower column_name = "area"%string -> column_type = None ->
        fs w !! path_p = Some (File layers) ->
        execute_sql path_p
          ("ALTER TABLE " +:+ (dquote +:+ name +:+ dquote) +:+ " ADD COLUMN "
             +:+ (dquote +:+ "area" +:+ dquote) +:+ " " +:+ "real") w
        = (Geofile.Done tt, w1) ->
        execute_sql path_p
          ("UPDATE " +:+ (dquote +:+ name +:+ dquote) +:+ " SET "
             +:+ (dquote +:+ "area" +:+ dquote) +:+ " = ST_area(geom)") w1
        = (Geofile.Done tt, w2) ->
        Geofile.add_column lower execute_sql path_p column_name column_type layer w
        = (Geofile.Done tt, w2)).
Proof.
  intros Hlayer Hengine.
  assert (Hunsupported : lower column_name ∉ substrings_of_area ->
            Geofile.add_column lower execute_sql path_p column_name column_type layer w
            = (Geofile.Failed (Geofile.UnsupportedColumnType column_type), w)).
  { intros Hnot. unfold Geofile.add_column, mbind, Geofile.G_bind.
    unfold Geofile.bind at 1. rewrite (add_column_layer _ _ _ _ Hlayer).
    destruct (str_in (lower column_name) "area") eqn:E; [| reflexivity].
    by apply str_in_area in E. }
  assert (Hneeded : lower column_name ∈ substrings_of_area ->
            lower column_name <> "area"%string -> column_type = None ->
            Geofile.add_column lower execute_sql path_p column_name column_type layer w
            = (Geofile.Failed (Geofile.ColumnTypeNeeded (lower column_name)), w)).
  { intros Hin Hne ->. unfold Geofile.add_column, mbind, Geofile.G_bind.
    unfold Geofile.bind at 1. rewrite (add_column_layer _ _ _ _ Hlayer).
    apply str_in_area in Hin. rewrite Hin. cbn [negb].
    unfold Geofile.bind at 1.
    destruct (String.eqb_spec (lower column_name) "area"); [done | reflexivity]. }
  split; [| split; [done | split; [| split; [done | split]]]].
  - split.
    + intros [ty Hty].
      destruct (add_column_failures _ _ _ _ _ _ _ _ _ Hlayer Hengine Hty)
        as [[_ Hnot] | [[H _] | [[H | [message H]] _]]]; [done | | |]; discriminate.
    + intros Hnot. exists column_type. by rewrite (Hunsupported Hnot).
  - split.
    + intros [n Hn].
      destruct (add_column_failures _ _ _ _ _ _ _ _ _ Hlayer Hengine Hn)
        as [[H _] | [[_ H] | [[H | [message H]] _]]]; [| done | |]; discriminate.
    + intros (Hin & Hne & Hnone). exists (lower column_name).
      by rewrite (Hneeded Hin Hne Hnone).
  - intros ty layers w1 Hin Hne Hty Hfile Halter.
    rewrite (add_column_sends_the_statements lower execute_sql path_p column_name
               column_type layer w w1 name ty layers Hlayer Hin (or_introl Hty)
               Hfile Halter).
    by destruct (String.eqb_spec (lower column_name) "area").
  - intros layers w1 w2 Harea Hnone Hfile Halter Hupdate.
    assert (Hin : lower column_name ∈ substrings_of_area).
    { rewrite Harea. by apply str_in_area. }
    rewrite (add_column_sends_the_statements lower execute_sql path_p column_name
               column_type layer w w1 name "real" layers Hlayer Hin).
    + rewrite Harea. simpl String.eqb. cbv iota.
      unfold Geofile.try_except, quoted. by rewrite Hupdate.
    + right. done.
    + done.
    + rewrite Harea. exact Halter.
Qed.

(** On the parcels, with an engine that takes every statement: the column
    XYZ is refused as unsupported; RE without a type is refused for the
    lack of one; RE as a text is added; Area without a type is added. *)
Lemma add_column_takes_the_substrings_of_area_witness :
  Geofile.add_column Py.lower (fun _ _ => Geofile.ret tt) Fixture.parcels_path "XYZ"
    (Some "text"%string) None (Fixture.world [1; 2; 3] 4)
  = (Geofile.Failed (Geofile.UnsupportedColumnType (Some "text"%string)),
     Fixture.world [1; 2; 3] 4)
  /\ Geofile.add_column Py.lower (fun _ _ => Geofile.ret tt) Fixture.parcels_path "RE"
       None None (Fixture.world [1; 2; 3] 4)
     = (Geofile.Failed (Geofile.ColumnTypeNeeded "re"), Fixture.world [1; 2; 3] 4)
  /\ ~ (exists ty,
          fst (Geofile.add_column Py.lower (fun _ _ => Geofile.ret tt)
                 Fixture.parcels_path "RE" None None (Fixture.world [1; 2; 3] 4))
          = Geofile.Failed (Geofile.UnsupportedColumnType ty))
  /\ Geofile.add_column Py.lower (fun _ _ => Geofile.ret tt) Fixture.parcels_path "RE"
       (Some "text"%string) None (Fixture.world [1; 2; 3] 4)
     = (Geofile.Done tt, Fixture.world [1; 2; 3] 4)
  /\ ~ (exists n,
          fst (Geofile.add_column Py.lower (fun _ _ => Geofile.ret tt)
                 Fixture.parcels_path "Area" None None (Fixture.world [1; 2; 3] 4))
          = Geofile.Failed (Geofile.ColumnTypeNeeded n))
  /\ Geofile.add_column Py.lower (fun _ _ => Geofile.ret tt) Fixture.parcels_path "Area"
       None None (Fixture.world [1; 2; 3] 4)
     = (Geofile.Done tt, Fixture.world [1; 2; 3] 4).
Proof.
  assert (Hengine : forall (p : Path) (stmt : string) (w0 : World) (e : Geofile.Error)
                           (w1 : World),
            (fun (_ : Path) (_ : string) => Geofile.ret tt) p stmt w0
            = (Geofile.Failed e, w1) ->
            exists message, e = Geofile.EngineError message)
    by (intros p stmt w0 e w1 H; discriminate H).
  assert (Hlayer : forall layer,
            layer = None ->
            Call.names_layer layer Fixture.parcels_path (Fixture.world [1; 2; 3] 4)
              "parcels")
    by (intros layer ->; vm_compute; reflexivity).
  assert (Hnot : forall a : string,
            str_in a "area" = false -> a ∉ substrings_of_area).
  { intros a Ha Hin. apply str_in_area in Hin. congruence. }
  split; [| split; [| split; [| split; [| split]]]].
  - apply (add_column_takes_the_substrings_of_area Py.lower (fun _ _ => Geofile.ret tt)
             Fixture.parcels_path "XYZ" (Some "text"%string) None
             (Fixture.world [1; 2; 3] 4) "parcels" (Hlayer None eq_refl) Hengine).
    apply Hnot. reflexivity.
  - apply (add_column_takes_the_substrings_of_area Py.lower (fun _ _ => Geofile.ret tt)
             Fixture.parcels_path "RE" None None
             (Fixture.world [1; 2; 3] 4) "parcels" (Hlayer None eq_refl) Hengine).
    + apply str_in_area. reflexivity.
    + discriminate.
    + reflexivity.
  - intros Hex.
    apply (add_column_takes_the_substrings_of_area Py.lower (fun _ _ => Geofile.ret tt)
             Fixture.parcels_path "RE" None None
             (Fixture.world [1; 2; 3] 4) "parcels" (Hlayer None eq_refl) Hengine)
      in Hex.
    apply Hex, str_in_area. reflexivity.
  - apply (proj1 (proj2 (proj2 (proj2 (proj2
             (add_column_takes_the_substrings_of_area Py.lower
                (fun _ _ => Geofile.ret tt) Fixture.parcels_path "RE"
                (Some "text"%string) None (Fixture.world [1; 2; 3] 4) "parcels"
                (Hlayer None eq_refl) Hengine)))))
             "text"%string [Fixture.layer_of "parcels" [1; 2; 3]]).
    + apply str_in_area. reflexivity.
    + discriminate.
    + reflexivity.
    + vm_compute. reflexivity.
    + reflexivity.
  - intros Hex.
    apply (proj1 (proj2 (proj2
             (add_column_takes_the_substrings_of_area Py.lower
                (fun _ _ => Geofile.ret tt) Fixture.parcels_path "Area"
                None None (Fixture.world [1; 2; 3] 4) "parcels"
                (Hlayer None eq_refl) Hengine)))) in Hex.
    destruct Hex as (_ & Hne & _). by apply Hne.
  - apply (proj2 (proj2 (proj2 (proj2 (proj2
             (add_column_takes_the_substrings_of_area Py.lower
                (fun _ _ => Geofile.ret tt) Fixture.parcels_path "Area"
                None None (Fixture.world [1; 2; 3] 4) "parcels"
                (Hlayer None eq_refl) Hengine)))))
             [Fixture.layer_of "parcels" [1; 2; 3]]
             (Fixture.world [1; 2; 3] 4)).
    + reflexivity.
    + reflexivity.
    + vm_compute. reflexivity.
    + reflexivity.
    + reflexivity.
Defined.

(** *** [remove] *)

Lemma name_is_stem_and_suffix (p : Path) :
  (PathOps.stem p +:+ PathOps.suffix p)%string = PathOps.name p.
Proof.
  assert (Hnil : forall s : string, (s +:+ "")%string = s).
  { intros s. induction s as [|c s IH]; [done |].
    change (String c (s +:+ "") = String c s). by rewrite IH. }
  unfold PathOps.stem, PathOps.suffix, PathOps.split_name.
  generalize (PathOps.name p). intros n.
  destruct (PathOps.rfind_dot (list_ascii_of_string n) 0 None) as [i|]; simpl.
  2: { apply Hnil. }
  destruct ((0 <? i)%nat && (i <? length (list_ascii_of_string n) - 1)%nat); simpl.
  2: { apply Hnil. }
  assert (Happ : forall a b : list Ascii.ascii,
            (string_of_list_ascii a +:+ string_of_list_ascii b)%string
            = string_of_list_ascii (a ++ b)).
  { intros a b. induction a as [|c a IH]; [done |].
    change (String c (string_of_list_ascii a +:+ string_of_list_ascii b)
            = String c (string_of_list_ascii (a ++ b))).
    by rewrite IH. }
  rewrite Happ, take_drop. apply string_of_list_ascii_of_string.
Qed.

Lemma path_is_parent_and_name (p : Path) :
  p <> [] -> p = PathOps.join (PathOps.parent p) (PathOps.name p).
Proof.
  intros Hp. unfold PathOps.join, PathOps.parent, PathOps.name.
  by apply app_removelast_last.
Qed.

Lemma side_file_of_suffix (p : Path) :
  p <> [] -> Geofile.side_file p (PathOps.suffix p) = p.
Proof.
  intros Hp. unfold Geofile.side_file. rewrite name_is_stem_and_suffix.
  symmetry. by apply path_is_parent_and_name.
Qed.

Lemma side_file_inj (p : Path) : Inj (=) (=) (Geofile.side_file p).
Proof.
  intros a b H. unfold Geofile.side_file, PathOps.join in H.
  apply app_inv_head in H. injection H as H. by apply String.app_inj in H.
Qed.

(** The loop of lines 487-490 over any list of suffixes: when none of the
    side files is a directory, every side file that is there is unlinked
    and nothing else changes. *)
Lemma remove_side_files (path_p : Path) (exts : list string) (w : World) :
  (forall ext, ext ∈ exts -> fs w !! Geofile.side_file path_p ext <> Some Dir) ->
  exists w',
    Geofile.for_each exts (fun ext =>
      Geofile.bind (Geofile.helper (Gfo.exists_ (Geofile.side_file path_p ext)))
        (fun curr_path_exists : bool =>
           if curr_path_exists then Geofile.unlink (Geofile.side_file path_p ext)
           else Geofile.ret tt))
      w = (Geofile.Done tt, w')
    /\ (forall ext, ext ∈ exts -> fs w' !! Geofile.side_file path_p ext = None)
    /\ (forall q, (forall ext, ext ∈ exts -> q <> Geofile.side_file path_p ext) ->
                  fs w' !! q = fs w !! q)
    /\ (forall q, fs w' !! q = None \/ fs w' !! q = fs w !! q).
Proof.
  revert w. induction exts as [|ext exts IH]; intros w Hnodir.
  { exists w. split; [reflexivity |].
    split; [by intros ext Hext%elem_of_nil |]. split; [done | by right]. }
  set (side := Geofile.side_file path_p ext).
  assert (Hstep : exists w1,
            Geofile.bind (Geofile.helper (Gfo.exists_ side))
              (fun curr_path_exists : bool =>
                 if curr_path_exists then Geofile.unlink side else Geofile.ret tt) w
            = (Geofile.Done tt, w1)
            /\ fs w1 = delete side (fs w)).
  { unfold Geofile.bind, Geofile.helper, Gfo.exists_, mbind, M_bind, get_world, mret,
      M_ret, Gfo.path_exists. simpl.
    destruct (fs w !! side) as [[|layers]|] eqn:E.
    - exfalso. apply (Hnodir ext); [apply list_elem_of_here | exact E].
    - rewrite bool_decide_eq_true_2 by eauto.
      unfold Geofile.unlink. rewrite E. eexists. split; reflexivity.
    - rewrite bool_decide_eq_false_2 by (intros [? ?]; discriminate).
      exists w. split; [reflexivity |]. by rewrite delete_id. }
  destruct Hstep as (w1 & Hstep & Hfs1).
  destruct (IH w1) as (w' & Hrun & Hgone & Hothers & Hless).
  { intros e He. rewrite Hfs1. intros Hdir.
    apply lookup_delete_Some in Hdir as [_ Hdir].
    apply (Hnodir e); [by apply list_elem_of_further | exact Hdir]. }
  exists w'. split; [| split; [| split]].
  - simpl. unfold Geofile.bind at 1. fold side. rewrite Hstep. exact Hrun.
  - intros e [-> | He]%elem_of_cons; [| by apply Hgone].
    destruct (Hless (Geofile.side_file path_p ext)) as [H | H]; [done |].
    rewrite H, Hfs1. apply lookup_delete_eq.
  - intros q Hq. rewrite Hothers.
    + rewrite Hfs1. apply lookup_delete_ne. symmetry. apply Hq, list_elem_of_here.
    + intros e He. by apply Hq, list_elem_of_further.
  - intros q. destruct (Hless q) as [H | H]; [by left |].
    rewrite H, Hfs1. destruct (decide (side = q)) as [<- | Hne].
    + left. apply lookup_delete_eq.
    + right. by apply lookup_delete_ne.
Qed.

(** [remove] of a shapefile removes its side files.  For a path whose
    suffix is .shp in some casing, none of whose seven side files is a
    directory, [remove] raises nothing; afterwards none of the side files
    [parent / (stem + ext)] is there, the path itself included when its
    suffix is written .shp, and every other path is what it was. *)
Theorem remove_of_a_shapefile_removes_its_side_files
    (lower : string -> string) (path_p : Path) (w : World) :
  lower (PathOps.suffix path_p) = ".shp"%string ->
  (forall ext, ext ∈ Geofile.shapefile_suffixes ->
               fs w !! Geofile.side_file path_p ext <> Some Dir) ->
  exists w',
    Geofile.remove lower path_p w = (Geofile.Done tt, w')
    /\ (forall ext, ext ∈ Geofile.shapefile_suffixes ->
                    fs w' !! Geofile.side_file path_p ext = None)
    /\ (PathOps.suffix path_p = ".shp"%string -> path_p <> [] -> fs w' !! path_p = None)
    /\ (forall q, (forall ext, ext ∈ Geofile.shapefile_suffixes ->
                               q <> Geofile.side_file path_p ext) ->
                  fs w' !! q = fs w !! q).
Proof.
  intros Hshp Hnodir.
  destruct (remove_side_files path_p Geofile.shapefile_suffixes w Hnodir)
    as (w' & Hrun & Hgone & Hothers & _).
  exists w'. split; [| split; [done | split; [| done]]].
  - unfold Geofile.remove. rewrite Hshp. simpl String.eqb. cbv iota. exact Hrun.
  - intros Hsuffix Hne. rewrite <- (side_file_of_suffix path_p Hne), Hsuffix.
    apply Hgone, list_elem_of_here.
Qed.

(** The shapefile of the fixture with two of its side files. *)
Lemma remove_of_a_shapefile_removes_its_side_files_witness :
  exists w',
    Geofile.remove Py.lower Fixture.shapefile_path
      (set_fs (fun m => <[["data"; "parcels.dbf"]%string := File []]>
                          (<[["data"; "parcels.shx"]%string := File []]> m))
         (Fixture.world_with_shapefile [1; 2; 3] 4))
    = (Geofile.Done tt, w')
    /\ (forall ext, ext ∈ Geofile.shapefile_suffixes ->
                    fs w' !! Geofile.side_file Fixture.shapefile_path ext = None)
    /\ (PathOps.suffix Fixture.shapefile_path = ".shp"%string ->
        Fixture.shapefile_path <> [] -> fs w' !! Fixture.shapefile_path = None)
    /\ (forall q, (forall ext, ext ∈ Geofile.shapefile_suffixes ->
                               q <> Geofile.side_file Fixture.shapefile_path ext) ->
                  fs w' !! q
                  = fs (set_fs (fun m => <[["data"; "parcels.dbf"]%string := File []]>
                                           (<[["data"; "parcels.shx"]%string := File []]> m))
                          (Fixture.world_with_shapefile [1; 2; 3] 4)) !! q).
Proof.
  apply (remove_of_a_shapefile_removes_its_side_files Py.lower Fixture.shapefile_path).
  - reflexivity.
  - intros ext Hext.
    repeat (apply elem_of_cons in Hext as [-> | Hext]; [vm_compute; discriminate |]).
    by apply elem_of_nil in Hext.
Defined.

(** A shapefile whose suffix is not written in lower case is not removed.
    On a file system that tells the cases apart, [remove] looks for the
    side files under the lower case suffixes only: a file [X.SHP] that has
    no side file under these names is still there after [remove], which
    raises nothing. *)
Theorem remove_misses_a_shapefile_named_in_capitals
    (lower : string -> string) (path_p : Path) (w : World) (layers : list Layer) :
  lower (PathOps.suffix path_p) = ".shp"%string ->
  PathOps.suffix path_p <> ".shp"%string ->
  (forall ext, ext ∈ Geofile.shapefile_suffixes -> lower ext = ext) ->
  fs w !! path_p = Some (File layers) ->
  (forall ext, ext ∈ Geofile.shapefile_suffixes ->
               fs w !! Geofile.side_file path_p ext = None) ->
  exists w',
    Geofile.remove lower path_p w = (Geofile.Done tt, w')
    /\ fs w' !! path_p = Some (File layers).
Proof.
  intros Hshp Hcase Hlower Hfile Hnone.
  destruct (remove_side_files path_p Geofile.shapefile_suffixes w)
    as (w' & Hrun & _ & Hothers & _).
  { intros ext Hext. by rewrite (Hnone ext Hext). }
  exists w'. split.
  - unfold Geofile.remove. rewrite Hshp. simpl String.eqb. cbv iota. exact Hrun.
  - rewrite Hothers; [exact Hfile |].
    intros ext Hext Heq. rewrite Heq in Hfile. rewrite (Hnone ext Hext) in Hfile.
    discriminate.
Qed.

Lemma remove_misses_a_shapefile_named_in_capitals_witness :
  exists w',
    Geofile.remove Py.lower ["data"; "PARCELS.SHP"]%string
      (set_fs (fun m => <[["data"; "PARCELS.SHP"]%string := File []]> m)
         (Fixture.world [1; 2; 3] 4))
    = (Geofile.Done tt, w')
    /\ fs w' !! (["data"; "PARCELS.SHP"]%string : Path) = Some (File []).
Proof.
  apply (remove_misses_a_shapefile_named_in_capitals Py.lower
           ["data"; "PARCELS.SHP"]%string).
  - reflexivity.
  - vm_compute. discriminate.
  - intros ext Hext.
    repeat (apply elem_of_cons in Hext as [-> | Hext]; [reflexivity |]).
    by apply elem_of_nil in Hext.
  - vm_compute. reflexivity.
  - intros ext Hext.
    repeat (apply elem_of_cons in Hext as [-> | Hext]; [vm_compute; reflexivity |]).
    by apply elem_of_nil in Hext.
Defined.

(** *** [getlayerinfo] and the spatial index of a shapefile *)

(** The layer [getlayerinfo] describes when none is named is the only
    layer of the file: without a layer, it returns exactly when
    [get_only_layer] returns, and the information is that of the layer
    [get_only_layer] names. *)
Theorem getlayerinfo_without_a_layer_describes_the_only_layer
    (path : Path) (w : World) :
  (forall li, Geofile.getlayerinfo path None w = (Geofile.Done li, w) ->
              Gfo.get_only_layer path w = (Returned (LayerInfo.name li), w)
              /\ Gfo.get_layerinfo path (LayerInfo.name li) w = (Returned li, w))
  /\ (forall name, Gfo.get_only_layer path w = (Returned name, w) ->
                   exists li, Geofile.getlayerinfo path None w = (Geofile.Done li, w)
                              /\ LayerInfo.name li = name).
Proof.
  unfold Geofile.getlayerinfo, Gfo.get_only_layer, Gfo.get_layerinfo, Gfo.read_layer,
    Gfo.listlayers, mbind, M_bind.
  destruct (fs w !! path) as [[|[|l [|l' rest]]]|] eqn:E; simpl; split;
    try (intros ? ?; discriminate).
  - intros li H. injection H as <-. simpl. split; [reflexivity |].
    unfold Gfo.find_layer. simpl. by rewrite String.eqb_refl.
  - intros name H. injection H as <-. eauto.
Qed.

(** A file [getlayerinfo] has described can be opened. *)
Lemma getlayerinfo_opens (path : Path) (layer : option string) (w w' : World)
    (li : LayerInfo.t) :
  Geofile.getlayerinfo path layer w = (Geofile.Done li, w') ->
  Geofile.open_for_update path w = (Geofile.Done tt, w).
Proof.
  unfold Geofile.getlayerinfo, Geofile.open_for_update, Geofile.helper,
    Gfo.get_layerinfo, Gfo.read_layer, mbind, M_bind.
  destruct layer as [layer|]; destruct (fs w !! path) as [[|layers]|];
    try discriminate; reflexivity.
Qed.

(** Removing the spatial index of a shapefile is removing its [.qix] file.
    Once the layer can be described: with no [.qix] file,
    [remove_spatial_index] raises [FileNotFoundError] and changes nothing;
    with one, [has_spatial_index] says yes before, [remove_spatial_index]
    returns, and [has_spatial_index] says no after. *)
Theorem spatial_index_of_a_shapefile_is_its_qix_file
    (lower : string -> string) (execute_sql : Path -> string -> Geofile.G unit)
    (has_spatial_index_sql : Path -> string -> Geofile.G bool)
    (path_p : Path) (layer : option string) (w : World) (li : LayerInfo.t) :
  lower (PathOps.suffix path_p) = ".shp"%string ->
  Geofile.getlayerinfo path_p layer w = (Geofile.Done li, w) ->
  (fs w !! Geofile.side_file path_p ".qix" = None ->
   Geofile.remove_spatial_index lower execute_sql path_p layer w
   = (Geofile.Failed (Geofile.FileNotFoundError (Geofile.side_file path_p ".qix")), w))
  /\ (forall layers, fs w !! Geofile.side_file path_p ".qix" = Some (File layers) ->
      Geofile.has_spatial_index lower has_spatial_index_sql path_p layer w
      = (Geofile.Done true, w)
      /\ exists w',
           Geofile.remove_spatial_index lower execute_sql path_p layer w
           = (Geofile.Done tt, w')
           /\ Geofile.has_spatial_index lower has_spatial_index_sql path_p layer w'
              = (Geofile.Done false, w')).
Proof.
  intros Hshp Hinfo.
  assert (Hdriver : Geofile.get_driver lower path_p = Geofile.Done "ESRI Shapefile"%string).
  { unfold Geofile.get_driver, Geofile.get_driver_for_ext. by rewrite Hshp. }
  assert (Hhas : forall w0,
            Geofile.has_spatial_index lower has_spatial_index_sql path_p layer w0
            = (Geofile.Done (Gfo.path_exists w0 (Geofile.side_file path_p ".qix")), w0)).
  { intros w0. unfold Geofile.has_spatial_index, mbind, Geofile.G_bind, Geofile.bind,
      Geofile.pure. by rewrite Hdriver. }
  assert (Hremove :
            Geofile.remove_spatial_index lower execute_sql path_p layer w
            = Geofile.unlink (Geofile.side_file path_p ".qix") w).
  { unfold Geofile.remove_spatial_index, mbind, Geofile.G_bind, Geofile.bind,
      Geofile.pure.
    by rewrite Hinfo, (getlayerinfo_opens _ _ _ _ _ Hinfo), Hdriver. }
  split.
  - intros Hnone. rewrite Hremove. unfold Geofile.unlink. by rewrite Hnone.
  - intros layers Hqix. split.
    + rewrite Hhas. unfold Gfo.path_exists. rewrite Hqix.
      by rewrite bool_decide_eq_true_2 by eauto.
    + eexists. split.
      * rewrite Hremove. unfold Geofile.unlink. rewrite Hqix. reflexivity.
      * rewrite Hhas. unfold Gfo.path_exists. simpl. rewrite lookup_delete_eq.
        by rewrite bool_decide_eq_false_2 by (intros [? ?]; discriminate).
Qed.

(** The shapefile of the fixture, with an engine that is never asked:
    without an index file the removal raises; with the index file
    [data/parcels.qix] the shapefile has an index, the removal returns, and
    there is no index left. *)
Lemma spatial_index_of_a_shapefile_is_its_qix_file_witness :
  Geofile.remove_spatial_index Py.lower (fun _ _ => Geofile.ret tt)
    Fixture.shapefile_path None (Fixture.world_with_shapefile [1; 2; 3] 4)
  = (Geofile.Failed (Geofile.FileNotFoundError ["data"; "parcels.qix"]%string),
     Fixture.world_with_shapefile [1; 2; 3] 4)
  /\ Geofile.has_spatial_index Py.lower (fun _ _ => Geofile.ret false)
       Fixture.shapefile_path None (Fixture.world_with_indexed_shapefile [1; 2; 3] 4)
     = (Geofile.Done true, Fixture.world_with_indexed_shapefile [1; 2; 3] 4)
  /\ exists w',
       Geofile.remove_spatial_index Py.lower (fun _ _ => Geofile.ret tt)
         Fixture.shapefile_path None (Fixture.world_with_indexed_shapefile [1; 2; 3] 4)
       = (Geofile.Done tt, w')
       /\ Geofile.has_spatial_index Py.lower (fun _ _ => Geofile.ret false)
            Fixture.shapefile_path None w'
          = (Geofile.Done false, w').
Proof.
  split.
  - apply (spatial_index_of_a_shapefile_is_its_qix_file Py.lower
             (fun _ _ => Geofile.ret tt) (fun _ _ => Geofile.ret false)
             Fixture.shapefile_path None (Fixture.world_with_shapefile [1; 2; 3] 4)
             (Gfo.layerinfo_of (Fixture.layer_of "parcels" [1; 2; 3]))).
    + reflexivity.
    + vm_compute. reflexivity.
    + vm_compute. reflexivity.
  - apply (proj2 (spatial_index_of_a_shapefile_is_its_qix_file Py.lower
             (fun _ _ => Geofile.ret tt) (fun _ _ => Geofile.ret false)
             Fixture.shapefile_path None
             (Fixture.world_with_indexed_shapefile [1; 2; 3] 4)
             (Gfo.layerinfo_of (Fixture.layer_of "parcels" [1; 2; 3]))
             eq_refl eq_refl) []).
    vm_compute. reflexivity.
Defined.

(** ** geometry.py and geodataframe.py *)

(** The loop of lines 122-128 keeps the rings that are not small, in their
    order, after those it was given, and says whether it met a small one. *)
Lemma rings_to_keep_spec
    (ring_area : list Shapely.Coord -> float) (interiors : list (list Shapely.Coord))
    (m : float) (kept : list (list Shapely.Coord)) (found : bool) :
  Shapely.rings_to_keep ring_area interiors m kept found
  = (kept ++ filter (fun ring => (abs (ring_area ring) <=? m)%float = false) interiors,
     found || existsb (fun ring => (abs (ring_area ring) <=? m)%float) interiors).
Proof.
  revert kept found. induction interiors as [|ring rest IH]; intros kept found; simpl.
  - by rewrite app_nil_r, orb_false_r.
  - rewrite filter_cons.
    destruct (abs (ring_area ring) <=? m)%float eqn:E; rewrite IH.
    + destruct (decide _) as [Hd|_]; [discriminate Hd |].
      by rewrite orb_true_r.
    + destruct (decide _) as [_|Hd]; [| done].
      by rewrite <- app_assoc.
Qed.

Lemma filter_nothing_small
    (ring_area : list Shapely.Coord -> float) (interiors : list (list Shapely.Coord))
    (m : float) :
  existsb (fun ring => (abs (ring_area ring) <=? m)%float) interiors = false ->
  filter (fun ring => (abs (ring_area ring) <=? m)%float = false) interiors = interiors.
Proof.
  induction interiors as [|ring rest IH]; [done |]. simpl.
  intros [H1 H2]%orb_false_elim.
  rewrite filter_cons_True by done. by rewrite IH.
Qed.

(** [remove_inner_rings] on any geometry.  Of a polygon it returns the
    polygon with the same exterior ring and with the interior rings that
    are not taken out, in their order: all are taken out when no area or
    the area 0 is given, otherwise those whose area is at most the area
    given; and doing it again changes nothing.  On every other geometry,
    a multipolygon included, it raises. *)
Theorem remove_inner_rings_keeps_the_large_rings_of_a_polygon
    (ring_area : list Shapely.Coord -> float) (geometry : Shapely.Geometry)
    (min_area_to_keep : option float) :
  match geometry with
  | Shapely.Polygon rings =>
      let result :=
        Shapely.Polygon
          (Shapely.mkPolygonRings (Shapely.exterior rings)
             (filter (fun ring =>
                        Shapely.taken_out ring_area min_area_to_keep ring = false)
                (Shapely.interiors rings))) in
      Shapely.remove_inner_rings ring_area (Some geometry) min_area_to_keep
      = Shapely.Ok (Some result)
      /\ Shapely.remove_inner_rings ring_area (Some result) min_area_to_keep
         = Shapely.Ok (Some result)
  | _ =>
      Shapely.remove_inner_rings ring_area (Some geometry) min_area_to_keep
      = Shapely.Raised
          (Shapely.UnsupportedGeometryType "remove_inner_rings"
             (Shapely.geom_type geometry))
  end.
Proof.
  assert (Hpolygon : forall rings,
            Shapely.remove_inner_rings ring_area (Some (Shapely.Polygon rings))
              min_area_to_keep
            = Shapely.Ok (Some (Shapely.Polygon
                (Shapely.mkPolygonRings (Shapely.exterior rings)
                   (filter (fun ring =>
                              Shapely.taken_out ring_area min_area_to_keep ring = false)
                      (Shapely.interiors rings)))))).
  { intros [ext ints]. unfold Shapely.remove_inner_rings, Shapely.taken_out. simpl.
    assert (Hall : forall l : list (list Shapely.Coord),
              filter (fun _ : list Shapely.Coord => true = false) l = []).
    { induction l as [|r l IH]; [done |]. by rewrite filter_cons_False. }
    assert (Hwithout :
              Shapely.without_inner_rings (Shapely.mkPolygonRings ext ints)
              = Shapely.Polygon (Shapely.mkPolygonRings ext [])).
    { unfold Shapely.without_inner_rings. simpl. by destruct ints. }
    destruct min_area_to_keep as [m|].
    - destruct (m =? 0)%float eqn:Ezero; simpl.
      + by rewrite Hwithout, Hall.
      + rewrite rings_to_keep_spec. simpl.
        destruct (existsb _ ints) eqn:Esmall; simpl; [done |].
        by rewrite filter_nothing_small.
    - by rewrite Hwithout, Hall. }
  destruct geometry as [| | |rings| | | |]; try reflexivity.
  split; [apply Hpolygon |].
  rewrite Hpolygon. simpl. do 4 f_equal.
  rewrite list_filter_filter. apply list_filter_iff. intros ring. tauto.
Qed.

(** [makevalid] is applied once for all: what it returns, it returns again
    when applied to it, and the geometry it returns is valid exactly when
    the geometry it was given, or the buffer of that, is. *)
Theorem makevalid_is_idempotent
    (is_valid : Shapely.Geometry -> bool)
    (buffer_0 : Shapely.Geometry -> Shapely.Geometry) (geometry : Shapely.Geometry) :
  exists result,
    fst (Shapely.makevalid is_valid buffer_0 (Some geometry)) = Some result
    /\ fst (Shapely.makevalid is_valid buffer_0 (Some result)) = Some result
    /\ (is_valid result = true
        <-> is_valid geometry = true \/ is_valid (buffer_0 geometry) = true).
Proof.
  unfold Shapely.makevalid.
  destruct (is_valid geometry) eqn:E1.
  - exists geometry. rewrite ?E1. split; [done |]. split; [done |]. tauto.
  - destruct (is_valid (buffer_0 geometry)) eqn:E2.
    + exists (buffer_0 geometry). rewrite ?E2. split; [done |]. split; [done |]. tauto.
    + exists geometry. rewrite ?E1, ?E2. split; [done |]. split; [done |].
      split; [discriminate | intros [|]; discriminate].
Qed.

(** [extract_polygons_from_gdf] raises on a frame that holds a geometry
    collection: the function of [geometry] it calls for it does not exist.
    On every other frame it returns the polygons of the frame followed by
    the polygons of its multipolygons, and nothing but polygons. *)
Theorem extract_polygons_from_gdf_raises_on_a_collection (in_gdf : list Shapely.Geometry) :
  ((exists g, g ∈ in_gdf /\ Shapely.geom_type g = "GeometryCollection"%string) ->
   Shapely.extract_polygons_from_gdf in_gdf
   = Shapely.Raised (Shapely.AttributeError "geometry" "extract_polygons_from_geometry"))
  /\ ((forall g, g ∈ in_gdf -> Shapely.geom_type g <> "GeometryCollection"%string) ->
      exists ret_gdf,
        Shapely.extract_polygons_from_gdf in_gdf = Shapely.Ok ret_gdf
        /\ Forall (fun g => Shapely.geom_type g = "Polygon"%string) ret_gdf
        /\ (forall rings,
              Shapely.Polygon rings ∈ ret_gdf
              <-> Shapely.Polygon rings ∈ in_gdf
                  \/ exists polygons,
                       Shapely.MultiPolygon polygons ∈ in_gdf /\ rings ∈ polygons)).
Proof.
  unfold Shapely.extract_polygons_from_gdf. split.
  - intros (g & Hg & Htype).
    assert (Hin : g ∈ filter (fun g => Shapely.geom_type g = "GeometryCollection"%string)
                        in_gdf)
      by by apply list_elem_of_filter.
    destruct (filter _ in_gdf) as [|c rest]; [by apply elem_of_nil in Hin | reflexivity].
  - intros Hnone.
    destruct (filter (fun g => Shapely.geom_type g = "GeometryCollection"%string) in_gdf)
      as [|c rest] eqn:E.
    2: { assert (Hin : c ∈ filter (fun g => Shapely.geom_type g
                                           = "GeometryCollection"%string) in_gdf)
           by (rewrite E; apply list_elem_of_here).
         apply list_elem_of_filter in Hin as [Htype Hc]. by destruct (Hnone c Hc). }
    set (polys := filter (fun g => Shapely.geom_type g = "Polygon"%string) in_gdf).
    set (multis := filter (fun g => Shapely.geom_type g = "MultiPolygon"%string) in_gdf).
    set (exploded := multis ≫= _).
    assert (Hsame : (if bool_decide (0 < length multis)%nat
                     then polys ++ exploded else polys) = polys ++ exploded).
    { destruct multis as [|m ms]; [| done]. subst exploded. simpl.
      by rewrite app_nil_r. }
    rewrite Hsame. eexists. split; [reflexivity |].
    assert (Hexploded : forall g, g ∈ exploded
              <-> exists polygons rings,
                    Shapely.MultiPolygon polygons ∈ in_gdf /\ rings ∈ polygons
                    /\ g = Shapely.Polygon rings).
    { intros g. subst exploded. rewrite list_elem_of_bind. split.
      - intros (m & Hg & Hm). apply list_elem_of_filter in Hm as [Htype Hm].
        destruct m; try discriminate Htype.
        apply list_elem_of_fmap in Hg as (rings & -> & Hrings). eauto.
      - intros (polygons & rings & Hm & Hrings & ->).
        exists (Shapely.MultiPolygon polygons). split.
        + by apply list_elem_of_fmap_2.
        + by apply list_elem_of_filter. }
    split.
    + apply Forall_app. split.
      * apply Forall_forall. by intros g [Htype _]%list_elem_of_filter.
      * apply Forall_forall. intros g (polygons & rings & _ & _ & ->)%Hexploded.
        reflexivity.
    + intros rings. rewrite elem_of_app, Hexploded. subst polys.
      rewrite list_elem_of_filter. split.
      * intros [[_ H] | (polygons & rings' & Hm & Hr & Heq)]; [by left |].
        injection Heq as ->. right. eauto.
      * intros [H | (polygons & Hm & Hr)]; [by left |]. right. eauto.
Qed.

(** ** The working directory of an operation *)

Section WorkingIn.

Variable td : Path.
Variable P : Path -> Prop.

Lemma working_in_same_files (w w' : World) :
  fs w' = fs w -> working_in td P w -> working_in td P w'.
Proof. unfold working_in. by intros ->. Qed.

Lemma working_in_insert (p : Path) (n : Node) (w : World) :
  p <> td -> ¬ P p -> working_in td P w ->
  working_in td P (set_fs (fun m => <[p := n]> m) w).
Proof.
  intros Hne HnP [Htd Hnone]. split; simpl.
  - by rewrite lookup_insert_ne.
  - intros q Hq. rewrite lookup_insert_ne; [by apply Hnone |]. by intros ->.
Qed.

Lemma working_in_delete (p : Path) (w : World) :
  p <> td -> working_in td P w -> working_in td P (set_fs (delete p) w).
Proof.
  intros Hne [Htd Hnone]. split; simpl.
  - by rewrite lookup_delete_ne.
  - intros q Hq. destruct (decide (p = q)) as [->|Hpq].
    + apply lookup_delete_eq.
    + rewrite lookup_delete_ne by done. by apply Hnone.
Qed.

Lemma working_in_make_dirs (d : Path) (w : World) :
  (forall a, a ∈ PathOps.ancestors_or_self d -> ¬ P a) ->
  working_in td P w -> working_in td P (set_fs (Gfo.make_dirs d) w).
Proof.
  intros Hd [Htd Hnone]. split; simpl.
  - by apply make_dirs_keeps.
  - intros q Hq. rewrite make_dirs_lookup, (Hnone q Hq).
    rewrite bool_decide_false; [done |]. intros Hin. by apply (Hd q).
Qed.

Lemma keeps_remove (p : Path) : keeps (working_in td P) (Gfo.remove p).
Proof.
  intros w o w' HI Hrun. unfold Gfo.remove in Hrun.
  destruct (fs w !! p) as [[|layers]|] eqn:E; injection Hrun as <- <-; try done.
  apply working_in_delete; [| done]. intros ->. destruct HI as [Htd _]. congruence.
Qed.

Lemma keeps_append_to (src dst : Path) :
  dst <> td -> ¬ P dst -> keeps (working_in td P) (Gfo.append_to src dst).
Proof.
  intros Hne HnP w o w' HI Hrun. unfold Gfo.append_to in Hrun.
  destruct (fs w !! src) as [[|[|l ls]]|]; try (by injection Hrun as <- <-).
  destruct (fs w !! dst) as [[|[|d others]]|]; injection Hrun as <- <-;
    try done; by apply working_in_insert.
Qed.

Lemma keeps_create_spatial_index (p : Path) (layer : string) :
  keeps (working_in td P) (Gfo.create_spatial_index p layer).
Proof.
  unfold Gfo.create_spatial_index.
  apply keeps_bind; [apply keeps_reads, reads_get_layerinfo | intros _].
  apply keeps_modify. intros w HI.
  destruct (fs w !! p) as [[|layers]|] eqn:E.
  - eapply working_in_same_files; [| exact HI]. simpl. by rewrite E.
  - assert (Hsame : set_fs (fun m : gmap Path Node =>
                       match m !! p with
                       | Some (File layers0) =>
                           <[p := File ((fun l : Layer =>
                                   if String.eqb (layer_name l) layer
                                   then mkLayer (layer_name l) (layer_geometrycolumn l)
                                          (layer_columns l) (layer_crs l)
                                          (layer_rowids l) true
                                   else l) <$> layers0)]> m
                       | _ => m
                       end) w
                     = set_fs (fun m => <[p := File ((fun l : Layer =>
                                   if String.eqb (layer_name l) layer
                                   then mkLayer (layer_name l) (layer_geometrycolumn l)
                                          (layer_columns l) (layer_crs l)
                                          (layer_rowids l) true
                                   else l) <$> layers)]> m) w).
    { unfold set_fs. by rewrite E. }
    rewrite Hsame. destruct HI as [Htd Hnone].
    apply working_in_insert; [| | done].
    + intros ->. congruence.
    + intros HP. rewrite (Hnone p HP) in E. discriminate.
  - eapply working_in_same_files; [| exact HI]. simpl. by rewrite E.
Qed.

Lemma keeps_mkdir_parents (d : Path) :
  (forall a, a ∈ PathOps.ancestors_or_self d -> ¬ P a) ->
  keeps (working_in td P) (Gfo.mkdir_parents d).
Proof.
  intros Hd w o w' HI Hrun. unfold Gfo.mkdir_parents in Hrun.
  destruct (fs w !! d) as [[|layers]|]; injection Hrun as <- <-; try done;
    by apply working_in_make_dirs.
Qed.

Lemma keeps_move (src dst : Path) :
  src <> td ->
  dst <> td -> ¬ P dst ->
  PathOps.join dst (PathOps.name src) <> td -> ¬ P (PathOps.join dst (PathOps.name src)) ->
  keeps (working_in td P) (Gfo.move src dst).
Proof.
  intros Hsrc Hdst HPdst Hin HPin w o w' HI Hrun. unfold Gfo.move in Hrun.
  destruct (fs w !! src) as [n|]; injection Hrun as <- <-; [| done].
  assert (Hstep : forall target, target <> td -> ¬ P target ->
            working_in td P (set_fs (fun m => <[target := n]> (delete src m)) w)).
  { intros target Ht HPt.
    pose proof (working_in_insert target n (set_fs (delete src) w) Ht HPt
                  (working_in_delete src w Hsrc HI)) as H.
    exact H. }
  destruct (fs w !! dst) as [[|layers]|]; by apply Hstep.
Qed.

Lemma keeps_convert (src : Path) (src_layer : string) (dst : Path) (dst_layer : string) :
  dst <> td -> ¬ P dst -> keeps (working_in td P) (Gfo.convert src src_layer dst dst_layer).
Proof.
  intros Hne HnP. unfold Gfo.convert.
  apply keeps_bind; [apply keeps_reads, reads_read_layer | intros l].
  apply keeps_modify. intros w. by apply working_in_insert.
Qed.

Lemma keeps_submit (worker : Z -> string -> WorkerResult) (batch_id : Z)
    (input_path : Path) (output_layer : string) (p : Path) (sql_stmt : string) :
  p <> td -> ¬ P p ->
  keeps (working_in td P) (submit worker batch_id input_path output_layer p sql_stmt).
Proof.
  intros Hne HnP. unfold submit.
  apply keeps_bind.
  { apply keeps_engine_call. intros w. by apply working_in_same_files. }
  intros _. destruct (worker batch_id sql_stmt); try apply keeps_ret.
  apply keeps_modify. intros w. by apply working_in_insert.
Qed.

Lemma keeps_future_result (worker : Z -> string -> WorkerResult) (batch_id : Z)
    (sql_stmt : string) :
  keeps (working_in td P) (future_result worker batch_id sql_stmt).
Proof.
  unfold future_result. destruct (worker batch_id sql_stmt);
    [apply keeps_raise | apply keeps_ret | apply keeps_ret].
Qed.

Lemma keeps_log (l : LogLine) : keeps (working_in td P) (logger l).
Proof. apply keeps_logger. intros w. by apply working_in_same_files. Qed.

Lemma keeps_the_plan
    (input1_path : Path) (input1_layer : string) (tempdir : Path)
    (nb_parallel batchsize : Z) (input1_layer_alias : option string)
    (input2_path : option Path) (input2_layer : option string) :
  keeps (working_in td P)
    (_prepare_processing_params input1_path input1_layer tempdir false
       nb_parallel batchsize input1_layer_alias input2_path input2_layer).
Proof.
  apply keeps_plan; intros w ?; by apply working_in_same_files.
Qed.

End WorkingIn.

(** Every value of a dict that was filled with values that satisfy [Q]
    satisfies [Q]. *)
Lemma dict_set_values {V : Type} (Q : V -> Prop) (k : Z) (v : V) (d : list (Z * V)) :
  Q v -> Forall (fun kv => Q kv.2) d -> Forall (fun kv => Q kv.2) (Py.dict_set k v d).
Proof.
  intros Hv Hd. induction Hd as [|[k' v'] d Hkv Hd IH]; simpl.
  - by constructor.
  - destruct (k' =? k); constructor; auto.
Qed.

Lemma dict_get_value {V : Type} (Q : V -> Prop) (k : Z) (d : list (Z * V)) (v : V) :
  Forall (fun kv => Q kv.2) d -> Py.dict_get k d = Some v -> Q v.
Proof.
  unfold Py.dict_get. intros Hd Hget.
  destruct (List.find _ d) as [[k' v']|] eqn:E; [| discriminate].
  injection Hget as <-. apply List.find_some in E as [Hin _].
  rewrite Forall_forall in Hd. by apply (Hd (k', v')), list_elem_of_In.
Qed.

(** The partial output of every batch is a file in the working directory. *)
Lemma single_layer_jobs_paths
    (output_path tempdir : Path) (sql_template : SingleLayerSlots.t -> string)
    (output_layer : string) (filter_null_geoms : bool) (input_layerinfo : LayerInfo.t)
    (formatted_column_strings : FormattedColumnStrings.t)
    (processing_params : ProcessingParams.t) (batch_id : Z) (job : JobInfo) :
  Py.dict_get batch_id
    (single_layer_jobs output_path tempdir sql_template output_layer filter_null_geoms
       input_layerinfo formatted_column_strings processing_params) = Some job ->
  exists n, job_tmp_partial_output_path job = tempdir ++ [n].
Proof.
  apply (dict_get_value (fun job => exists n, job_tmp_partial_output_path job = tempdir ++ [n])).
  unfold single_layer_jobs.
  generalize (@nil (Z * JobInfo)) (Forall_nil_2 (fun kv : Z * JobInfo =>
    exists n, job_tmp_partial_output_path kv.2 = tempdir ++ [n])).
  induction (ProcessingParams.batches processing_params) as [|[id b] l IH];
    intros acc Hacc; cbn [foldl]; [done |].
  apply IH.
  apply (dict_set_values
           (fun job => exists n, job_tmp_partial_output_path job = tempdir ++ [n]));
    [| done].
  cbn. by eexists.
Qed.

Lemma below_is_not_it (td : Path) (n : string) : td ++ [n] <> td.
Proof.
  intros H. apply (f_equal length) in H. rewrite length_app in H. simpl in H. lia.
Qed.

Section SingleLayerBody.

Variable upper : string -> string.
Variable worker : Z -> string -> WorkerResult.
Variable as_completed : list Z -> list Z.
Variable td : Path.
Variable P : Path -> Prop.
Hypothesis inside_is_free : forall n, ¬ P (td ++ [n]).

Lemma keeps_single_layer_merge
    (tmp_output_name operation_name : string) (batches : list (Z * JobInfo)) :
  (forall batch_id job, Py.dict_get batch_id batches = Some job ->
                        exists n, job_tmp_partial_output_path job = td ++ [n]) ->
  keeps (working_in td P)
    (single_layer_merge worker as_completed (PathOps.join td tmp_output_name)
       operation_name batches).
Proof.
  intros Hjobs. unfold single_layer_merge.
  apply keeps_for_each_counting. intros nb_done batch_id _.
  destruct (Py.dict_get batch_id batches) as [job|] eqn:Hjob; [| apply keeps_ret].
  apply keeps_bind.
  { apply keeps_try_except_wrap; [apply keeps_future_result |].
    intros ex. apply keeps_bind; [apply keeps_log | intros _; apply keeps_raise]. }
  intros _. apply keeps_bind; [apply keeps_reads, reads_exists | intros partial_exists].
  apply keeps_bind; [| intros _; apply keeps_log].
  destruct partial_exists; [| apply keeps_log].
  apply keeps_bind; [| intros _; apply keeps_remove].
  apply keeps_append_to; [apply below_is_not_it | apply inside_is_free].
Qed.

(** What the single layer operation does between making its working
    directory and removing it (lines 411-516) keeps the working directory
    and writes below it and at the output path only. *)
Lemma keeps_single_layer_body
    (input_path output_path : Path) (sql_template : SingleLayerSlots.t -> string)
    (operation_name : string) (input_layer output_layer : string)
    (columns : option (list string)) (filter_null_geoms : bool)
    (input_layerinfo : LayerInfo.t) (nb_parallel batchsize : Z) :
  (forall a, a ∈ PathOps.ancestors_or_self (PathOps.parent output_path) -> ¬ P a) ->
  output_path <> td -> ¬ P output_path ->
  (forall n, PathOps.join output_path n <> td) ->
  (forall n, ¬ P (PathOps.join output_path n)) ->
  keeps (working_in td P)
    (processing_params ←
       _prepare_processing_params input_path input_layer td false
         nb_parallel batchsize (Some "layer"%string) None None;
     match processing_params with
     | None => mret tt
     | Some processing_params =>
         formatted_column_strings ←
           (fun w => (format_column_strings upper columns
                        (LayerInfo.columns input_layerinfo) "" "", w));
         let tmp_output_path := PathOps.join td (PathOps.name output_path) in
         _ ← process_pool_executor (ProcessingParams.nb_parallel processing_params);
         let batches :=
           single_layer_jobs output_path td sql_template output_layer
             filter_null_geoms input_layerinfo formatted_column_strings
             processing_params in
         _ ← for_each (ProcessingParams.batches processing_params)
               (fun '(batch_id, batch) =>
                  match Py.dict_get batch_id batches with
                  | Some job =>
                      submit worker batch_id (batch_path batch) output_layer
                        (job_tmp_partial_output_path job) (job_sql_stmt job)
                  | None => mret tt
                  end);
         _ ← single_layer_merge worker as_completed tmp_output_path operation_name
               batches;
         tmp_output_exists ← Gfo.exists_ tmp_output_path;
         if tmp_output_exists : bool then
           _ ← Gfo.create_spatial_index tmp_output_path output_layer;
           _ ← Gfo.mkdir_parents (PathOps.parent output_path);
           Gfo.move tmp_output_path output_path
         else logger (LogDebug ("Result of " +:+ operation_name +:+ " was empty!"))
     end).
Proof.
  intros Hdirs Hout HPout Hin HPin.
  apply keeps_bind; [apply keeps_the_plan | intros [pp|]; [| apply keeps_ret]].
  apply keeps_bind.
  { intros w o w' HI Hrun. by injection Hrun as <- <-. }
  intros fcs. cbv zeta.
  apply keeps_bind.
  { unfold process_pool_executor. destruct (_ <=? 0); [apply keeps_raise | apply keeps_ret]. }
  intros _. apply keeps_bind.
  { apply keeps_for_each. intros [batch_id batch] _.
    destruct (Py.dict_get batch_id _) as [job|] eqn:Hjob; [| apply keeps_ret].
    apply single_layer_jobs_paths in Hjob as [n Hn]. rewrite Hn.
    apply keeps_submit; [apply below_is_not_it | apply inside_is_free]. }
  intros _. apply keeps_bind.
  { apply keeps_single_layer_merge. intros batch_id job.
    apply single_layer_jobs_paths. }
  intros _. apply keeps_bind; [apply keeps_reads, reads_exists | intros tmp_output_exists].
  destruct tmp_output_exists; [| apply keeps_log].
  apply keeps_bind; [apply keeps_create_spatial_index | intros _].
  apply keeps_bind; [by apply keeps_mkdir_parents | intros _].
  apply keeps_move; [apply below_is_not_it | done | done | apply Hin | apply HPin].
Qed.

End SingleLayerBody.

(** [create_tempdir] hands out one of its candidates, at which there was
    nothing. *)
Lemma create_tempdir_candidate (base : string) (w : World) :
  exists i,
    Gfo.create_tempdir base w
    = (Returned (Gfo.tempdir_candidate base i),
       set_fs (Gfo.make_dirs (Gfo.tempdir_candidate base i)) w)
    /\ fs w !! Gfo.tempdir_candidate base i = None.
Proof.
  destruct (some_candidate_is_free base w) as [i Hi]. exists i.
  pose proof (List.find_some _ _ Hi) as [_ Hfree]. simpl in Hfree.
  apply negb_true_iff in Hfree. unfold Gfo.path_exists in Hfree.
  apply bool_decide_eq_false in Hfree.
  assert (Hnone : fs w !! Gfo.tempdir_candidate base i = None).
  { destruct (fs w !! Gfo.tempdir_candidate base i) eqn:E; [| done].
    exfalso. apply Hfree. by eexists. }
  split; [| exact Hnone].
  unfold Gfo.create_tempdir.
  rewrite (bind_returned get_world _ w w w eq_refl).
  rewrite Hi. unfold Gfo.mkdir_parents at 1.
  unfold mbind, M_bind. by rewrite Hnone.
Qed.

Lemma ancestors_or_self_prefix (d a : Path) :
  a ∈ PathOps.ancestors_or_self d -> a `prefix_of` d.
Proof.
  unfold PathOps.ancestors_or_self. intros (n & -> & _)%list_elem_of_fmap.
  apply prefix_take.
Qed.

Lemma temp_area_of_candidate (base : string) (i : nat) (p : Path) :
  Gfo.tempdir_candidate base i `prefix_of` p -> temp_area `prefix_of` p.
Proof.
  intros [k ->]. unfold Gfo.tempdir_candidate, temp_area.
  by exists ((base +:+ "_" +:+ pretty (Z.of_nat i)) :: k)%string.
Qed.

(** A working directory is scoped by [try: ... finally: rmtree].  When
    what happens in between keeps the working directory and stays out of
    the other ones, no working directory is left, however it ends. *)
Lemma scoped_working_directory {A : Type} (base : string) (body : Path -> M A)
    (final : LogLine) :
  (forall i,
     keeps (working_in (Gfo.tempdir_candidate base i)
              (in_another_working_directory base (Gfo.tempdir_candidate base i)))
       (body (Gfo.tempdir_candidate base i))) ->
  keeps (no_working_directory base)
    (tempdir ← Gfo.create_tempdir base;
     try_finally (body tempdir) (_ ← Gfo.rmtree tempdir; logger final)).
Proof.
  intros Hbody w o w' HK Hrun.
  destruct (create_tempdir_candidate base w) as (i & Hcreate & Hnone).
  rewrite (bind_returned _ _ _ _ _ Hcreate) in Hrun.
  set (td := Gfo.tempdir_candidate base i) in *.
  set (w1 := set_fs (Gfo.make_dirs td) w) in *.
  assert (HI : working_in td (in_another_working_directory base td) w1).
  { split.
    - apply make_dirs_self; [done | exact Hnone].
    - intros p [[j Hj] Hnot]. subst w1. simpl.
      rewrite make_dirs_lookup, (HK j p Hj).
      rewrite bool_decide_false; [done |]. intros Hin.
      apply Hnot. apply ancestors_or_self_prefix in Hin.
      pose proof (prefix_length _ _ Hj) as H1.
      pose proof (prefix_length _ _ Hin) as H2.
      rewrite (prefix_length_eq p td Hin); [done |].
      unfold td in *. simpl in *. lia. }
  unfold try_finally in Hrun.
  destruct (body td w1) as [r w2] eqn:Hb.
  pose proof (Hbody i w1 r w2 HI Hb) as [Htd Hothers].
  assert (Hclean : (_ ← Gfo.rmtree td; logger final) w2
                   = (Returned tt,
                      logged final
                        (set_fs (filter (fun kv : Path * Node => ¬ td `prefix_of` kv.1)) w2))).
  { unfold mbind, M_bind, Gfo.rmtree. fold td in Htd. by rewrite Htd. }
  rewrite Hclean in Hrun. injection Hrun as <- <-.
  intros j p Hj. simpl. apply map_lookup_filter_None.
  destruct (decide (td `prefix_of` p)) as [Hin|Hout].
  - right. intros x _ Hnot. by apply Hnot.
  - left. apply Hothers. split; [by exists j | done].
Qed.

Lemma prefix_of_longer (l p : Path) (n : string) :
  l `prefix_of` p ++ [n] -> l `prefix_of` p \/ l = p ++ [n].
Proof.
  intros [k Hk]. destruct (decide (k = [])) as [->|Hne].
  - right. by rewrite app_nil_r in Hk.
  - left. destruct (exists_last Hne) as (k' & x & ->).
    rewrite app_assoc in Hk. apply app_inj_tail in Hk as [-> _].
    by exists k'.
Qed.

(** The single layer operation leaves no working directory.  Called in a
    world where none of its working directories exists, for an output that
    does not lie in the directory of the working directories, it ends in a
    world where none of them exists, whether it returns or raises, whatever
    the workers do and in whatever order they finish. *)
Theorem single_layer_operation_leaves_no_working_directory
    (upper : string -> string) (worker : Z -> string -> WorkerResult)
    (as_completed : list Z -> list Z) (c : SingleLayerCall.t) (w : World) :
  no_working_directory (replace_spaces (SingleLayerCall.operation_name c)) w ->
  ¬ temp_area `prefix_of` SingleLayerCall.output_path c ->
  no_working_directory (replace_spaces (SingleLayerCall.operation_name c))
    (snd (Call.run upper worker as_completed (SingleLayer c) w)).
Proof.
  intros HK Hout.
  set (base := replace_spaces (SingleLayerCall.operation_name c)) in *.
  destruct (Call.run upper worker as_completed (SingleLayer c) w) as [o w'] eqn:Hrun.
  simpl. revert w o w' HK Hrun.
  change (keeps (no_working_directory base)
            (Call.run upper worker as_completed (SingleLayer c))).
  assert (Hfs : forall w1 w2, fs w2 = fs w1 ->
                  no_working_directory base w1 -> no_working_directory base w2).
  { unfold no_working_directory. by intros w1 w2 ->. }
  destruct c as [input_path output_path sql_template operation_name input_layer
                   output_layer columns explodecollections force_output_geometrytype
                   filter_null_geoms nb_parallel batchsize verbose force].
  simpl in *. unfold _single_layer_vector_operation.
  apply keeps_bind; [apply keeps_reads, reads_exists | intros input_exists].
  destruct (negb input_exists); [apply keeps_raise |].
  apply keeps_bind.
  { destruct input_layer; [apply keeps_ret | apply keeps_reads, reads_get_only_layer]. }
  intros layer. cbv zeta.
  apply keeps_bind; [apply keeps_reads, reads_exists | intros output_exists].
  destruct (output_exists && negb force).
  { apply keeps_logger. intros w1. by apply Hfs. }
  apply keeps_bind.
  { destruct output_exists; [| apply keeps_ret].
    intros w1 o1 w2 HK1 Hrun. unfold Gfo.remove in Hrun.
    destruct (fs w1 !! output_path) as [[|layers]|]; injection Hrun as <- <-; try done.
    intros i p Hp. simpl. destruct (decide (output_path = p)) as [->|Hne].
    - apply lookup_delete_eq.
    - rewrite lookup_delete_ne by done. by apply (HK1 i). }
  intros _. apply keeps_bind; [apply keeps_reads, reads_get_layerinfo | intros li].
  apply (scoped_working_directory base
           (fun tempdir =>
              processing_params ←
                _prepare_processing_params input_path layer tempdir false
                  nb_parallel batchsize (Some "layer"%string) None None;
              match processing_params with
              | None => mret tt
              | Some processing_params =>
                  formatted_column_strings ←
                    (fun w => (format_column_strings upper columns
                                 (LayerInfo.columns li) "" "", w));
                  let tmp_output_path := PathOps.join tempdir (PathOps.name output_path) in
                  _ ← process_pool_executor (ProcessingParams.nb_parallel processing_params);
                  let batches :=
                    single_layer_jobs output_path tempdir sql_template
                      (match output_layer with
                       | Some l => l
                       | None => Gfo.get_default_layer output_path
                       end)
                      filter_null_geoms li formatted_column_strings
                      processing_params in
                  _ ← for_each (ProcessingParams.batches processing_params)
                        (fun '(batch_id, batch) =>
                           match Py.dict_get batch_id batches with
                           | Some job =>
                               submit worker batch_id (batch_path batch)
                                 (match output_layer with
                                  | Some l => l
                                  | None => Gfo.get_default_layer output_path
                                  end)
                                 (job_tmp_partial_output_path job) (job_sql_stmt job)
                           | None => mret tt
                           end);
                  _ ← single_layer_merge worker as_completed tmp_output_path
                        operation_name batches;
                  tmp_output_exists ← Gfo.exists_ tmp_output_path;
                  if tmp_output_exists : bool then
                    _ ← Gfo.create_spatial_index tmp_output_path
                          (match output_layer with
                           | Some l => l
                           | None => Gfo.get_default_layer output_path
                           end);
                    _ ← Gfo.mkdir_parents (PathOps.parent output_path);
                    Gfo.move tmp_output_path output_path
                  else logger (LogDebug ("Result of " +:+ operation_name +:+ " was empty!"))
              end)
           (LogInfo "Processing ready")).
  intros i.
  assert (Harea : forall p, in_another_working_directory base
                              (Gfo.tempdir_candidate base i) p ->
                            temp_area `prefix_of` p).
  { intros p [[j Hj] _]. by apply (temp_area_of_candidate base j). }
  assert (Htd : temp_area `prefix_of` Gfo.tempdir_candidate base i)
    by by apply (temp_area_of_candidate base i).
  apply keeps_single_layer_body.
  - intros n [_ Hnot]. apply Hnot. by apply prefix_app_r.
  - intros a Ha HP. apply Hout.
    etrans; [apply (Harea a HP) |]. etrans; [apply ancestors_or_self_prefix, Ha |].
    unfold PathOps.parent.
    destruct (decide (output_path = [])) as [->|Hne]; [done |].
    rewrite (app_removelast_last ""%string Hne) at 2. by apply prefix_app_r.
  - intros ->. by apply Hout.
  - intros HP. by apply Hout, Harea.
  - intros n Heq. apply Hout. rewrite <- Heq in Htd.
    apply prefix_of_longer in Htd as [H | H]; [done |].
    apply (f_equal length) in H. unfold PathOps.join in *.
    rewrite length_app in H. simpl in H.
    apply (f_equal length) in Heq. rewrite length_app in Heq. simpl in Heq. lia.
  - intros n [[j Hj] _]. apply Hout.
    apply prefix_of_longer in Hj as [H | H].
    + by apply (temp_area_of_candidate base j).
    + unfold PathOps.join, Gfo.tempdir_candidate in H.
      destruct output_path as [|x [|y [|z rest]]]; simpl in H; try discriminate.
      * injection H as <- <- _. by exists [].
      * injection H as _ _ _ H. by destruct rest.
Qed.

(** On the machine of the fixture, no path lies in the directory of the
    working directories. *)
Lemma fixture_has_no_working_directory (base : string) (rowids : list Z) (cpus : Z) :
  no_working_directory base (Fixture.world rowids cpus).
Proof.
  intros i p Hp. apply (temp_area_of_candidate base i) in Hp as [k ->].
  unfold Fixture.world. cbn [fs].
  rewrite !lookup_insert_ne by done. apply lookup_empty.
Qed.

Lemma single_layer_operation_leaves_no_working_directory_witness :
  no_working_directory "buffer" (Fixture.world (Fixture.consecutive 400) 4)
  /\ no_working_directory "buffer"
       (snd (Fixture.buffer Fixture.worker_one_fails
               (Fixture.world (Fixture.consecutive 400) 4))).
Proof.
  split; [apply fixture_has_no_working_directory |].
  apply (single_layer_operation_leaves_no_working_directory Py.upper
           Fixture.worker_one_fails Fixture.in_submission_order
           (SingleLayerCall.mk Fixture.parcels_path Fixture.output_path
              Fixture.single_layer_template "buffer" None None None false None true
              2 (-1) false false)).
  - apply fixture_has_no_working_directory.
  - intros [k Hk]. discriminate Hk.
Defined.
(** ** What a failed operation leaves at its output path *)

Lemma ends_bind {A B : Type} (I : World -> Prop) (J : A -> World -> Prop)
    (m : M A) (k : A -> M B) (Q : Outcome B -> World -> Prop) :
  ends I m (fun o w => match o with
                       | Returned a => J a w
                       | Raised e => Q (Raised e) w
                       end) ->
  (forall a, ends (J a) (k a) Q) ->
  ends I (m ≫= k) Q.
Proof.
  intros Hm Hk w o w' HI Hrun. unfold mbind, M_bind in Hrun.
  destruct (m w) as [[a|e] w1] eqn:E.
  - exact (Hk a w1 o w' (Hm w _ w1 HI E) Hrun).
  - injection Hrun as <- <-. exact (Hm w _ w1 HI E).
Qed.

Lemma ends_after {A B : Type} (I : World -> Prop) (m : M A) (k : A -> M B)
    (Q : Outcome B -> World -> Prop) :
  keeps I m ->
  (forall e w, I w -> Q (Raised e) w) ->
  (forall a, ends I (k a) Q) ->
  ends I (m ≫= k) Q.
Proof.
  intros Hm HQ Hk. apply (ends_bind I (fun _ => I)); [| done].
  intros w o w' HI Hrun. pose proof (Hm w o w' HI Hrun). destruct o; auto.
Qed.

Lemma ends_keeps {A : Type} (I : World -> Prop) (m : M A)
    (Q : Outcome A -> World -> Prop) :
  keeps I m -> (forall o w, I w -> Q o w) -> ends I m Q.
Proof. intros Hm HQ w o w' HI Hrun. apply HQ. exact (Hm w o w' HI Hrun). Qed.

Lemma ends_from {A : Type} (I I' : World -> Prop) (m : M A)
    (Q : Outcome A -> World -> Prop) :
  (forall w, I w -> I' w) -> ends I' m Q -> ends I m Q.
Proof. intros HI Hm w o w' Hw Hrun. exact (Hm w o w' (HI w Hw) Hrun). Qed.

Lemma ends_with {A : Type} (I : World -> Prop) (m : M A)
    (Q Q' : Outcome A -> World -> Prop) :
  (forall o w, Q o w -> Q' o w) -> ends I m Q -> ends I m Q'.
Proof. intros HQ Hm w o w' Hw Hrun. exact (HQ o w' (Hm w o w' Hw Hrun)). Qed.

Lemma working_in_the_directory (td : Path) (P : Path -> Prop) (w : World) :
  working_in td P w -> working_in td (fun _ => False) w.
Proof. intros [Htd _]. by split. Qed.

Lemma two_layer_jobs_paths
    (output_path tempdir : Path) (sql_template : TwoLayerSlots.t -> string)
    (output_layer : string) (use_ogr : bool)
    (input1_tmp_layerinfo input2_tmp_layerinfo : LayerInfo.t)
    (input1_columnstrings input2_columnstrings : FormattedColumnStrings.t)
    (input2_layer : string) (processing_params : ProcessingParams.t)
    (batch_id : Z) (job : JobInfo) (submitted : string) :
  Py.dict_get batch_id
    (two_layer_jobs output_path tempdir sql_template output_layer use_ogr
       input1_tmp_layerinfo input2_tmp_layerinfo input1_columnstrings
       input2_columnstrings input2_layer processing_params) = Some (job, submitted) ->
  exists n, job_tmp_partial_output_path job = tempdir ++ [n].
Proof.
  apply (dict_get_value (fun js : JobInfo * string =>
           exists n, job_tmp_partial_output_path js.1 = tempdir ++ [n])).
  unfold two_layer_jobs.
  generalize (@nil (Z * (JobInfo * string)))
    (Forall_nil_2 (fun kv : Z * (JobInfo * string) =>
       exists n, job_tmp_partial_output_path kv.2.1 = tempdir ++ [n])).
  induction (ProcessingParams.batches processing_params) as [|[id b] l IH];
    intros acc Hacc; cbn [foldl]; [done |].
  apply IH.
  apply (dict_set_values
           (fun js : JobInfo * string =>
              exists n, job_tmp_partial_output_path js.1 = tempdir ++ [n]));
    [| done].
  cbn. by eexists.
Qed.

(** A path apart from the directory of the working directories is apart
    from every working directory. *)
Lemma apart_not_above (base : string) (i : nat) (out : Path) :
  apart_from_temp_area out -> ¬ out `prefix_of` Gfo.tempdir_candidate base i.
Proof.
  intros [Hin Habove] H.
  change (Gfo.tempdir_candidate base i)
    with (temp_area ++ [base +:+ "_" +:+ pretty (Z.of_nat i)]%string) in H.
  apply prefix_of_longer in H as [H | ->]; [done |].
  apply Hin. by apply prefix_app_r.
Qed.

Lemma apart_not_below (base : string) (i : nat) (out : Path) :
  apart_from_temp_area out -> ¬ Gfo.tempdir_candidate base i `prefix_of` out.
Proof. intros [Hin _] H. by apply Hin, (temp_area_of_candidate base i). Qed.

Lemma parent_join (d : Path) (n : string) : PathOps.parent (PathOps.join d n) = d.
Proof. unfold PathOps.parent, PathOps.join. apply removelast_last. Qed.

Lemma above_parent_is_another (out a : Path) :
  out <> [] -> a ∈ PathOps.ancestors_or_self (PathOps.parent out) -> a <> out.
Proof.
  intros Hne Ha%ancestors_or_self_prefix ->.
  apply prefix_length in Ha. unfold PathOps.parent in Ha.
  rewrite (app_removelast_last ""%string Hne) in Ha at 1.
  rewrite length_app in Ha. simpl in Ha. lia.
Qed.

(** [create_tempdir] makes a working directory and leaves alone a path
    that is apart from them. *)
Lemma ends_create_tempdir {B : Type} (base : string) (out : Path) (k : Path -> M B)
    (Q : Outcome B -> World -> Prop) :
  apart_from_temp_area out ->
  (forall i, ends (working_in (Gfo.tempdir_candidate base i) (fun p => p = out))
               (k (Gfo.tempdir_candidate base i)) Q) ->
  ends (fun w => fs w !! out = None) (Gfo.create_tempdir base ≫= k) Q.
Proof.
  intros Hapart Hk w o w' HG Hrun.
  destruct (create_tempdir_candidate base w) as (i & Hcreate & Hnone).
  rewrite (bind_returned _ _ _ _ _ Hcreate) in Hrun.
  refine (Hk i _ o w' _ Hrun). split; simpl.
  - apply make_dirs_self; [done | exact Hnone].
  - intros p ->. rewrite make_dirs_lookup, HG.
    rewrite bool_decide_false; [done |].
    intros Hin%ancestors_or_self_prefix. by apply (apart_not_above base i out).
Qed.

(** [try: ... finally: rmtree(tempdir)] around a body that keeps the
    working directory: the clean-up raises nothing, and what the body left
    at the output path when it raised is left there. *)
Lemma ends_try_finally_rmtree {A : Type} (td out : Path) (body : M A) (final : LogLine) :
  ends (working_in td (fun p => p = out)) body
    (fun o w => working_in td (fun _ => False) w
                /\ (has_raised o -> fs w !! out = None)) ->
  ends (working_in td (fun p => p = out))
    (try_finally body (_ ← Gfo.rmtree td; logger final))
    (fun o w => has_raised o -> fs w !! out = None).
Proof.
  intros Hbody w o w' HI Hrun. unfold try_finally in Hrun.
  destruct (body w) as [r w1] eqn:Hb.
  destruct (Hbody w r w1 HI Hb) as [[Htd _] Hr].
  assert (Hclean : (_ ← Gfo.rmtree td; logger final) w1
                   = (Returned tt,
                      logged final
                        (set_fs (filter (fun kv : Path * Node => ¬ td `prefix_of` kv.1)) w1))).
  { unfold mbind, M_bind, Gfo.rmtree. by rewrite Htd. }
  rewrite Hclean in Hrun. injection Hrun as <- <-.
  intros Hraised. simpl. apply map_lookup_filter_None. left. by apply Hr.
Qed.

(** The move of the result to the output path is the step that makes the
    output; when it raises it has changed nothing. *)
Lemma ends_move_to_output (td out tmp : Path) :
  tmp <> td -> out <> td -> (forall n, PathOps.join out n <> td) ->
  ends (working_in td (fun p => p = out)) (Gfo.move tmp out)
    (fun o w => working_in td (fun _ => False) w
                /\ (has_raised o -> fs w !! out = None)).
Proof.
  intros Htmp Hout Hjoin w o w' HI Hrun. split.
  - refine (keeps_move td (fun _ => False) tmp out Htmp Hout _ (Hjoin _) _ w o w' _ Hrun);
      [by intros [] | by intros [] | by apply (working_in_the_directory td (fun p => p = out) w)].
  - intros Hraised. unfold Gfo.move in Hrun.
    destruct (fs w !! tmp); injection Hrun as <- <-; [done |].
    by apply HI.
Qed.

(** A failed single layer operation leaves nothing at the output path.
    Called where there is nothing at the output path, which lies apart from
    the directory of the working directories, an operation that raises,
    at whatever step, for whatever the workers did, ends with nothing at
    the output path: the output is made by the move of line 513, the last
    step. *)
Theorem failed_single_layer_operation_leaves_no_output
    (upper : string -> string) (worker : Z -> string -> WorkerResult)
    (as_completed : list Z -> list Z) (c : SingleLayerCall.t) (w : World)
    (e : Exception) :
  fs w !! SingleLayerCall.output_path c = None ->
  apart_from_temp_area (SingleLayerCall.output_path c) ->
  fst (Call.run upper worker as_completed (SingleLayer c) w) = Raised e ->
  fs (snd (Call.run upper worker as_completed (SingleLayer c) w))
    !! SingleLayerCall.output_path c = None.
Proof.
  intros HG Hapart Hraised.
  destruct (Call.run upper worker as_completed (SingleLayer c) w) as [o w'] eqn:Hrun.
  simpl in Hraised. subst o. simpl.
  assert (Hends : ends (fun w => fs w !! SingleLayerCall.output_path c = None)
                    (Call.run upper worker as_completed (SingleLayer c))
                    (fun o w => has_raised o ->
                                fs w !! SingleLayerCall.output_path c = None));
    [| exact (Hends w _ w' HG Hrun I)].
  clear w w' e HG Hrun.
  destruct c as [input_path output_path sql_template operation_name input_layer
                   output_layer columns explodecollections force_output_geometrytype
                   filter_null_geoms nb_parallel batchsize verbose force].
  simpl in *. unfold _single_layer_vector_operation.
  assert (Hne : output_path <> []).
  { intros ->. destruct Hapart as [_ H]. apply H. by exists temp_area. }
  apply ends_after; [apply keeps_reads, reads_exists | by intros ? ? ? | intros input_exists].
  destruct (negb input_exists); [apply ends_keeps; [apply keeps_raise | by intros ? ? ?] |].
  apply ends_after; [| by intros ? ? ? | intros layer].
  { destruct input_layer; [apply keeps_ret | apply keeps_reads, reads_get_only_layer]. }
  cbv zeta.
  apply ends_after; [apply keeps_reads, reads_exists | by intros ? ? ? | intros output_exists].
  destruct (output_exists && negb force).
  { apply ends_keeps; [| by intros ? ? ?]. apply keeps_logger. by intros w1. }
  apply ends_after; [| by intros ? ? ? | intros _].
  { destruct output_exists; [| apply keeps_ret].
    intros w1 o1 w2 HG Hrun. unfold Gfo.remove in Hrun. rewrite HG in Hrun.
    by injection Hrun as <- <-. }
  apply ends_after; [apply keeps_reads, reads_get_layerinfo | by intros ? ? ? | intros li].
  apply ends_create_tempdir; [done | intros i].
  set (td := Gfo.tempdir_candidate (replace_spaces operation_name) i).
  assert (Hbelow : forall n, td ++ [n] <> output_path).
  { intros n Heq. apply (apart_not_below (replace_spaces operation_name) i output_path);
      [done |]. rewrite <- Heq. by apply prefix_app_r. }
  assert (Hout : output_path <> td).
  { intros Heq. apply (apart_not_above (replace_spaces operation_name) i output_path);
      [done |]. by rewrite Heq. }
  assert (Hjoin : forall n, PathOps.join output_path n <> td).
  { intros n Heq. apply (apart_not_above (replace_spaces operation_name) i output_path);
      [done |]. fold td. rewrite <- Heq. by apply prefix_app_r. }
  assert (HQ : forall (A : Type) (o : Outcome A) w,
             working_in td (fun p => p = output_path) w ->
             working_in td (fun _ => False) w
             /\ (has_raised o -> fs w !! output_path = None)).
  { intros A o w1 HI. split; [by apply (working_in_the_directory td (fun p => p = output_path) w1) |].
    intros _. by apply HI. }
  apply ends_try_finally_rmtree.
  apply ends_after; [apply keeps_the_plan | intros; by apply HQ | intros [pp|]];
    [| apply ends_keeps; [apply keeps_ret | apply HQ]].
  apply ends_after; [| intros; by apply HQ | intros fcs].
  { intros w1 o1 w2 HI Hrun. by injection Hrun as <- <-. }
  cbv zeta.
  apply ends_after; [| intros; by apply HQ | intros _].
  { unfold process_pool_executor. destruct (_ <=? 0); [apply keeps_raise | apply keeps_ret]. }
  apply ends_after; [| intros; by apply HQ | intros _].
  { apply keeps_for_each. intros [batch_id batch] _.
    destruct (Py.dict_get batch_id _) as [job|] eqn:Hjob; [| apply keeps_ret].
    apply single_layer_jobs_paths in Hjob as [n Hn]. rewrite Hn.
    apply keeps_submit; [apply below_is_not_it | apply Hbelow]. }
  apply ends_after; [| intros; by apply HQ | intros _].
  { apply keeps_single_layer_merge; [exact Hbelow |]. intros batch_id job.
    apply single_layer_jobs_paths. }
  apply ends_after; [apply keeps_reads, reads_exists | intros; by apply HQ |
                     intros tmp_output_exists].
  destruct tmp_output_exists; [| apply ends_keeps; [apply keeps_log | apply HQ]].
  apply ends_after; [apply keeps_create_spatial_index | intros; by apply HQ | intros _].
  apply ends_after; [| intros; by apply HQ | intros _].
  { apply keeps_mkdir_parents. intros a Ha. by apply above_parent_is_another. }
  apply ends_move_to_output; [apply below_is_not_it | done | done].
Qed.

Lemma failed_single_layer_operation_leaves_no_output_witness :
  fs (snd (Fixture.buffer Fixture.worker_one_fails
             (Fixture.world (Fixture.consecutive 100) 8)))
    !! Fixture.output_path = None.
Proof.
  assert (Hraised : exists e,
            fst (Fixture.buffer Fixture.worker_one_fails
                   (Fixture.world (Fixture.consecutive 100) 8)) = Raised e).
  { vm_compute. eexists. reflexivity. }
  destruct Hraised as [e He].
  apply (failed_single_layer_operation_leaves_no_output Py.upper
           Fixture.worker_one_fails Fixture.in_submission_order
           (SingleLayerCall.mk Fixture.parcels_path Fixture.output_path
              Fixture.single_layer_template "buffer" None None None false None true
              2 (-1) false false)
           (Fixture.world (Fixture.consecutive 100) 8) e).
  - vm_compute. reflexivity.
  - split; intros [k Hk]; discriminate Hk.
  - exact He.
Defined.

Section TwoLayerBody.

Variable worker : Z -> string -> WorkerResult.
Variable as_completed : list Z -> list Z.
Variable td : Path.
Variable P : Path -> Prop.
Hypothesis inside_is_free : forall n, ¬ P (td ++ [n]).

(** The conversion of the inputs (lines 1600-1630) writes below the
    working directory. *)
Lemma keeps_prepare_input_files
    (input1_path : Path) (input1_layer : string) (convert_to_spatialite_based : bool)
    (input2_path : option Path) (input2_layer : option string) :
  keeps (working_in td P)
    (Planner.prepare_input_files input1_path input1_layer td
       convert_to_spatialite_based input2_path input2_layer).
Proof.
  unfold Planner.prepare_input_files.
  destruct (negb convert_to_spatialite_based); [apply keeps_ret |].
  assert (Hof : forall p, keeps (working_in td P) (GeofileType.of_path p)).
  { intros p. unfold GeofileType.of_path. cbv zeta.
    repeat (destruct (String.eqb _ _); [apply keeps_ret |]). apply keeps_raise. }
  apply keeps_bind; [apply Hof | intros g1].
  apply keeps_bind.
  { destruct input2_path; [| apply keeps_ret].
    apply keeps_bind; [apply Hof | intros; apply keeps_ret]. }
  intros g2. apply keeps_bind.
  { destruct (_ && _); [apply keeps_ret |]. cbv zeta.
    apply keeps_bind; [| intros; apply keeps_ret].
    apply keeps_convert; [apply below_is_not_it | apply inside_is_free]. }
  intros r1. apply keeps_bind; [| intros; apply keeps_ret].
  destruct input2_path as [p2|], g2 as [g2|]; try apply keeps_ret.
  destruct (_ && _); [apply keeps_ret |]. cbv zeta.
  apply keeps_bind.
  { destruct input2_layer; [apply keeps_ret | apply keeps_reads, reads_get_only_layer]. }
  intros layer2. apply keeps_bind; [| intros; apply keeps_ret].
  apply keeps_convert; [apply below_is_not_it | apply inside_is_free].
Qed.

Lemma keeps_the_converting_plan
    (input1_path : Path) (input1_layer : string) (convert_to_spatialite_based : bool)
    (nb_parallel batchsize : Z) (input1_layer_alias : option string)
    (input2_path : option Path) (input2_layer : option string) :
  keeps (working_in td P)
    (_prepare_processing_params input1_path input1_layer td
       convert_to_spatialite_based nb_parallel batchsize input1_layer_alias
       input2_path input2_layer).
Proof.
  apply keeps_planning; [| | apply keeps_prepare_input_files];
    intros w ?; by apply working_in_same_files.
Qed.

Lemma keeps_two_layer_merge
    (tmp_output_name operation_name : string) (verbose : bool) (nb_parallel : Z)
    (batches : list (Z * (JobInfo * string))) :
  (forall batch_id job submitted,
     Py.dict_get batch_id batches = Some (job, submitted) ->
     exists n, job_tmp_partial_output_path job = td ++ [n]) ->
  keeps (working_in td P)
    (two_layer_merge worker as_completed (PathOps.join td tmp_output_name)
       operation_name verbose nb_parallel batches).
Proof.
  intros Hjobs. unfold two_layer_merge.
  apply keeps_bind; [apply keeps_log | intros _].
  apply keeps_for_each_counting. intros nb_done batch_id _.
  destruct (Py.dict_get batch_id batches) as [[job submitted]|] eqn:Hjob;
    [| apply keeps_ret].
  apply keeps_bind; [| intros _; apply keeps_log].
  apply keeps_try_except_wrap; [| intros ex; apply keeps_raise].
  apply keeps_bind; [apply keeps_future_result | intros _].
  apply keeps_bind.
  { unfold exists_with_content.
    apply keeps_bind; [apply keeps_reads, reads_get_world | intros; apply keeps_ret]. }
  intros has_content. destruct has_content.
  - apply keeps_bind; [| intros _; apply keeps_remove].
    apply keeps_append_to; [apply below_is_not_it | apply inside_is_free].
  - destruct verbose; [apply keeps_log | apply keeps_ret].
Qed.

End TwoLayerBody.

Lemma remove_leaves_no_file (p : Path) (w w' : World) (o : Outcome unit) :
  Gfo.remove p w = (o, w') -> forall layers, fs w' !! p <> Some (File layers).
Proof.
  unfold Gfo.remove. destruct (fs w !! p) as [[|ls]|] eqn:E; intros [= <- <-] layers.
  - by rewrite E.
  - simpl. by rewrite lookup_delete_eq.
  - by rewrite E.
Qed.

Lemma remove_makes_no_file (p q : Path) (w w' : World) (o : Outcome unit) :
  Gfo.remove p w = (o, w') ->
  (forall layers, fs w !! q <> Some (File layers)) ->
  forall layers, fs w' !! q <> Some (File layers).
Proof.
  unfold Gfo.remove. destruct (fs w !! p) as [[|ls]|] eqn:E; intros [= <- <-] Hq layers;
    try apply Hq.
  simpl. destruct (decide (p = q)) as [->|Hne].
  - by rewrite lookup_delete_eq.
  - rewrite lookup_delete_ne by done. apply Hq.
Qed.

(** The handler of lines 1521-1524 removes the output and raises again. *)
Lemma ends_try_except_remove_output {A : Type} (td out tmp : Path) (body : M A) :
  keeps (working_in td (fun _ => False)) body ->
  ends (working_in td (fun _ => False))
    (try_except_reraise body (_ ← Gfo.remove out; Gfo.remove tmp))
    (fun o w => match o with
                | Returned _ => working_in td (fun _ => False) w
                | Raised _ => forall layers, fs w !! out <> Some (File layers)
                end).
Proof.
  intros Hbody w o w' HI Hrun. unfold try_except_reraise in Hrun.
  destruct (body w) as [[a|e] w1] eqn:Hb.
  - injection Hrun as <- <-. exact (Hbody w _ w1 HI Hb).
  - assert (Hhandler : forall o2 w2,
              (_ ← Gfo.remove out; Gfo.remove tmp) w1 = (o2, w2) ->
              forall layers, fs w2 !! out <> Some (File layers)).
    { intros o2 w2. unfold mbind, M_bind.
      destruct (Gfo.remove out w1) as [[[]|e1] w1'] eqn:E1.
      - intros E2. eapply remove_makes_no_file; [exact E2 |].
        eapply remove_leaves_no_file, E1.
      - intros [= <- <-]. eapply remove_leaves_no_file, E1. }
    destruct ((_ ← Gfo.remove out; Gfo.remove tmp) w1) as [[[]|e'] w2] eqn:Eh;
      injection Hrun as <- <-; exact (Hhandler _ _ eq_refl).
Qed.

(** A failed two layer operation leaves no container at the output path.
    Called where there is nothing at the output path, which lies apart from
    the directory of the working directories, an operation that raises, at
    whatever step, for whatever the workers did, ends with no container at
    the output path: what was moved there is removed by the handler of
    lines 1521-1524, and the clean-up that follows the [try] raises
    nothing. *)
Theorem failed_two_layer_operation_leaves_no_output
    (upper : string -> string) (worker : Z -> string -> WorkerResult)
    (as_completed : list Z -> list Z) (c : TwoLayerCall.t) (w : World)
    (e : Exception) :
  fs w !! TwoLayerCall.output_path c = None ->
  apart_from_temp_area (TwoLayerCall.output_path c) ->
  fst (Call.run upper worker as_completed (TwoLayer c) w) = Raised e ->
  forall layers,
    fs (snd (Call.run upper worker as_completed (TwoLayer c) w))
      !! TwoLayerCall.output_path c <> Some (File layers).
Proof.
  intros HG Hapart Hraised.
  destruct (Call.run upper worker as_completed (TwoLayer c) w) as [o w'] eqn:Hrun.
  simpl in Hraised. subst o. simpl.
  assert (Hends : ends (fun w => fs w !! TwoLayerCall.output_path c = None)
                    (Call.run upper worker as_completed (TwoLayer c))
                    (fun o w => has_raised o ->
                                forall layers,
                                  fs w !! TwoLayerCall.output_path c
                                  <> Some (File layers)));
    [| exact (Hends w _ w' HG Hrun I)].
  clear w w' e HG Hrun.
  destruct c as [input1_path input2_path output_path sql_template operation_name
                   input1_layer input1_columns input1_columns_prefix
                   input2_layer input2_columns input2_columns_prefix
                   output_layer explodecollections force_output_geometrytype
                   output_with_spatial_index use_ogr nb_parallel batchsize
                   verbose force].
  simpl in *. unfold _two_layer_vector_operation.
  assert (HGQ : forall (A : Type) (o : Outcome A) w,
             fs w !! output_path = None ->
             has_raised o -> forall layers, fs w !! output_path <> Some (File layers)).
  { intros A o w1 HG _ layers. by rewrite HG. }
  apply ends_after; [apply keeps_reads, reads_exists | intros; by eapply HGQ |
                     intros input1_exists].
  destruct (negb input1_exists); [apply ends_keeps; [apply keeps_raise | apply HGQ] |].
  apply ends_after; [apply keeps_reads, reads_exists | intros; by eapply HGQ |
                     intros input2_exists].
  destruct (negb input2_exists); [apply ends_keeps; [apply keeps_raise | apply HGQ] |].
  destruct (use_ogr && _); [apply ends_keeps; [apply keeps_raise | apply HGQ] |].
  apply ends_after; [apply keeps_reads, reads_exists | intros; by eapply HGQ |
                     intros output_exists].
  destruct (output_exists && negb force).
  { apply ends_keeps; [| apply HGQ]. apply keeps_logger. by intros w1. }
  apply ends_after; [| intros; by eapply HGQ | intros _].
  { destruct output_exists; [| apply keeps_ret].
    intros w1 o1 w2 HG Hrun. unfold Gfo.remove in Hrun. rewrite HG in Hrun.
    by injection Hrun as <- <-. }
  apply ends_after; [| intros; by eapply HGQ | intros _].
  { intros w1 o1 w2 HG Hrun. unfold Gfo.check_runtimedependencies in Hrun.
    destruct (spatialite_available w1); by injection Hrun as <- <-. }
  apply ends_after; [| intros; by eapply HGQ | intros layer1].
  { destruct input1_layer; [apply keeps_ret | apply keeps_reads, reads_get_only_layer]. }
  apply ends_after; [| intros; by eapply HGQ | intros layer2].
  { destruct input2_layer; [apply keeps_ret | apply keeps_reads, reads_get_only_layer]. }
  cbv zeta.
  apply ends_create_tempdir; [done | intros i].
  set (td := Gfo.tempdir_candidate operation_name i).
  assert (Hbelow : forall n, td ++ [n] <> output_path).
  { intros n Heq. apply (apart_not_below operation_name i output_path); [done |].
    rewrite <- Heq. by apply prefix_app_r. }
  assert (Hout : output_path <> td).
  { intros Heq. apply (apart_not_above operation_name i output_path); [done |].
    by rewrite Heq. }
  assert (Hjoin : forall n, PathOps.join output_path n <> td).
  { intros n Heq. apply (apart_not_above operation_name i output_path); [done |].
    fold td. rewrite <- Heq. by apply prefix_app_r. }
  assert (HIQ : forall (A : Type) (o : Outcome A) w,
             working_in td (fun p => p = output_path) w ->
             has_raised o -> forall layers, fs w !! output_path <> Some (File layers)).
  { intros A o w1 [_ HI] _ layers. by rewrite (HI output_path eq_refl). }
  apply ends_after; [apply keeps_reads, reads_get_layerinfo | intros; by eapply HIQ |
                     intros _].
  apply ends_after; [apply keeps_reads, reads_get_layerinfo | intros; by eapply HIQ |
                     intros _].
  apply ends_after; [| intros; by eapply HIQ | intros _].
  { apply keeps_mkdir_parents. intros a Ha ->. rewrite parent_join in Ha.
    apply ancestors_or_self_prefix in Ha.
    by apply (apart_not_above operation_name i output_path). }
  apply ends_after; [apply keeps_remove | intros; by eapply HIQ | intros _].
  apply (ends_from _ (working_in td (fun _ => False)));
    [apply working_in_the_directory |].
  apply (ends_bind _ (fun _ => working_in td (fun _ => False))).
  2:{ intros returned w1 o1 w2 [Htd _] Hrun. destruct returned.
      - by injection Hrun as <- <-.
      - unfold Gfo.rmtree in Hrun. rewrite Htd in Hrun. by injection Hrun as <- <-. }
  eapply ends_with; [| apply ends_try_except_remove_output].
  { intros [a|e] w1 H; [exact H | intros _; exact H]. }
  assert (Hfree : forall n, ¬ (fun _ : Path => False) (td ++ [n])) by by intros n [].
  apply keeps_bind; [apply keeps_log | intros _].
  apply keeps_bind; [by apply keeps_the_converting_plan | intros [pp|]];
    [| apply keeps_ret].
  apply keeps_bind; [apply keeps_reads, reads_get_layerinfo | intros li1].
  apply keeps_bind.
  { intros w1 o1 w2 HI Hrun. by injection Hrun as <- <-. }
  intros cs1. apply keeps_bind.
  { destruct (ProcessingParams.input2_path pp), (ProcessingParams.input2_layer pp);
      try apply keeps_raise. apply keeps_reads, reads_get_layerinfo. }
  intros li2. apply keeps_bind.
  { intros w1 o1 w2 HI Hrun. by injection Hrun as <- <-. }
  intros cs2. apply keeps_bind.
  { destruct (negb _); [apply keeps_log | apply keeps_ret]. }
  intros _. apply keeps_bind; [apply keeps_log | intros _].
  apply keeps_bind.
  { unfold process_pool_executor. destruct (_ <=? 0); [apply keeps_raise | apply keeps_ret]. }
  intros _. apply keeps_bind.
  { apply keeps_for_each. intros [batch_id batch] _.
    destruct (Py.dict_get batch_id _) as [[job submitted]|] eqn:Hjob; [| apply keeps_ret].
    apply two_layer_jobs_paths in Hjob as [n Hn]. rewrite Hn.
    apply keeps_submit; [apply below_is_not_it | by intros []]. }
  intros _. apply keeps_bind.
  { apply (keeps_two_layer_merge worker as_completed td (fun _ => False) Hfree).
    intros batch_id job submitted.
    apply two_layer_jobs_paths. }
  intros _. apply keeps_bind; [apply keeps_reads, reads_exists | intros tmp_output_exists].
  apply keeps_bind;
    [| intros _; apply keeps_bind; [apply keeps_log | intros _; apply keeps_ret]].
  destruct tmp_output_exists; [| apply keeps_log].
  apply keeps_bind.
  { destruct output_with_spatial_index;
      [apply keeps_create_spatial_index | apply keeps_ret]. }
  intros _. destruct (negb _); [| apply keeps_ret].
  apply keeps_bind; [| intros _].
  { apply keeps_mkdir_parents. by intros a _ []. }
  apply keeps_move; [apply below_is_not_it | done | by intros [] | done | by intros []].
Qed.

Lemma failed_two_layer_operation_leaves_no_output_witness :
  fs (Fixture.world (Fixture.consecutive 100) 8) !! Fixture.output_path = None
  /\ fs (snd (Fixture.intersect Fixture.worker_one_fails
                (Fixture.world (Fixture.consecutive 100) 8)))
       !! Fixture.output_path <> Some (File []).
Proof.
  assert (Hraised : exists e,
            fst (Fixture.intersect Fixture.worker_one_fails
                   (Fixture.world (Fixture.consecutive 100) 8)) = Raised e).
  { vm_compute. eexists. reflexivity. }
  destruct Hraised as [e He].
  split; [vm_compute; reflexivity |].
  apply (failed_two_layer_operation_leaves_no_output Py.upper
           Fixture.worker_one_fails Fixture.in_submission_order
           (TwoLayerCall.mk Fixture.parcels_path Fixture.zones_path Fixture.output_path
              Fixture.two_layer_template "intersect" None None "l1_" None None "l2_"
              None false None true false 2 (-1) false false)
           (Fixture.world (Fixture.consecutive 100) 8) e).
  - vm_compute. reflexivity.
  - split; intros [k Hk]; discriminate Hk.
  - exact He.
Defined.
(** ** What an operation leaves alone *)

Section Stays.

(** A path [p] at which there is [node]. *)
Variable p : Path.
Variable node : Node.

Lemma stays_same_files (w w' : World) :
  fs w' = fs w -> stays p node w -> stays p node w'.
Proof. unfold stays. by intros ->. Qed.

Lemma stays_insert (q : Path) (x : Node) (w : World) :
  q <> p -> stays p node w -> stays p node (set_fs (fun m => <[q := x]> m) w).
Proof. unfold stays. intros Hne H. simpl. by rewrite lookup_insert_ne. Qed.

Lemma stays_delete (q : Path) (w : World) :
  q <> p -> stays p node w -> stays p node (set_fs (delete q) w).
Proof. unfold stays. intros Hne H. simpl. by rewrite lookup_delete_ne. Qed.

Lemma stays_remove (q : Path) : q <> p -> keeps (stays p node) (Gfo.remove q).
Proof.
  intros Hne w o w' HI Hrun. unfold Gfo.remove in Hrun.
  destruct (fs w !! q) as [[|layers]|] eqn:E; injection Hrun as <- <-; try done.
  by apply stays_delete.
Qed.

Lemma stays_append_to (src dst : Path) : dst <> p -> keeps (stays p node) (Gfo.append_to src dst).
Proof.
  intros Hne w o w' HI Hrun. unfold Gfo.append_to in Hrun.
  destruct (fs w !! src) as [[|[|l ls]]|]; try (by injection Hrun as <- <-).
  destruct (fs w !! dst) as [[|[|d others]]|]; injection Hrun as <- <-;
    try done; by apply stays_insert.
Qed.

Lemma stays_create_spatial_index (q : Path) (layer : string) :
  q <> p -> keeps (stays p node) (Gfo.create_spatial_index q layer).
Proof.
  intros Hne. unfold Gfo.create_spatial_index.
  apply keeps_bind; [apply keeps_reads, reads_get_layerinfo | intros _].
  apply keeps_modify. unfold stays. intros w HI. simpl.
  destruct (fs w !! q) as [[|layers]|]; try done. by rewrite lookup_insert_ne.
Qed.

Lemma stays_mkdir_parents (d : Path) : keeps (stays p node) (Gfo.mkdir_parents d).
Proof.
  intros w o w' HI Hrun. unfold Gfo.mkdir_parents in Hrun.
  destruct (fs w !! d) as [[|layers]|]; injection Hrun as <- <-; try done;
    unfold stays; simpl; by apply make_dirs_keeps.
Qed.

Lemma stays_move (src dst : Path) :
  src <> p -> dst <> p -> PathOps.join dst (PathOps.name src) <> p ->
  keeps (stays p node) (Gfo.move src dst).
Proof.
  intros Hsrc Hdst Hin w o w' HI Hrun. unfold Gfo.move in Hrun.
  destruct (fs w !! src) as [x|]; injection Hrun as <- <-; [| done].
  unfold stays in *. simpl. destruct (fs w !! dst) as [[|layers]|];
    rewrite lookup_insert_ne, lookup_delete_ne; done.
Qed.

Lemma stays_convert (src : Path) (src_layer : string) (dst : Path) (dst_layer : string) :
  dst <> p -> keeps (stays p node) (Gfo.convert src src_layer dst dst_layer).
Proof.
  intros Hne. unfold Gfo.convert.
  apply keeps_bind; [apply keeps_reads, reads_read_layer | intros l].
  apply keeps_modify. intros w. by apply stays_insert.
Qed.

Lemma stays_rmtree (d : Path) : ¬ d `prefix_of` p -> keeps (stays p node) (Gfo.rmtree d).
Proof.
  intros Hd w o w' HI Hrun. unfold Gfo.rmtree in Hrun.
  destruct (fs w !! d) as [[|layers]|]; injection Hrun as <- <-; try done.
  unfold stays in *. simpl. by apply map_lookup_filter_Some.
Qed.

Lemma stays_create_tempdir {B : Type} (base : string) (k : Path -> M B) :
  (forall i, keeps (stays p node) (k (Gfo.tempdir_candidate base i))) ->
  keeps (stays p node) (Gfo.create_tempdir base ≫= k).
Proof.
  intros Hk w o w' HI Hrun.
  destruct (create_tempdir_candidate base w) as (i & Hcreate & _).
  rewrite (bind_returned _ _ _ _ _ Hcreate) in Hrun.
  refine (Hk i _ o w' _ Hrun). unfold stays in *. simpl. by apply make_dirs_keeps.
Qed.

Lemma stays_log (l : LogLine) : keeps (stays p node) (logger l).
Proof. by apply keeps_logger. Qed.

Variable worker : Z -> string -> WorkerResult.
Variable as_completed : list Z -> list Z.

Lemma stays_submit (batch_id : Z) (input_path : Path) (output_layer : string)
    (q : Path) (sql_stmt : string) :
  q <> p -> keeps (stays p node) (submit worker batch_id input_path output_layer q sql_stmt).
Proof.
  intros Hne. unfold submit.
  apply keeps_bind; [by apply keeps_engine_call | intros _].
  destruct (worker batch_id sql_stmt); try apply keeps_ret.
  apply keeps_modify. intros w. by apply stays_insert.
Qed.

Lemma stays_future_result (batch_id : Z) (sql_stmt : string) :
  keeps (stays p node) (future_result worker batch_id sql_stmt).
Proof.
  unfold future_result. destruct (worker batch_id sql_stmt);
    [apply keeps_raise | apply keeps_ret | apply keeps_ret].
Qed.

(** A working directory [td] that [p] is not in. *)
Variable td : Path.
Hypothesis not_in_the_working_directory : ¬ td `prefix_of` p.

Lemma not_written_below (x : string) : td ++ [x] <> p.
Proof. intros <-. apply not_in_the_working_directory. by apply prefix_app_r. Qed.

Lemma stays_plan
    (input1_path : Path) (input1_layer : string) (convert_to_spatialite_based : bool)
    (nb_parallel batchsize : Z) (input1_layer_alias : option string)
    (input2_path : option Path) (input2_layer : option string) :
  keeps (stays p node)
    (_prepare_processing_params input1_path input1_layer td
       convert_to_spatialite_based nb_parallel batchsize input1_layer_alias
       input2_path input2_layer).
Proof.
  apply keeps_planning; [done | done |].
  unfold Planner.prepare_input_files.
  destruct (negb convert_to_spatialite_based); [apply keeps_ret |].
  assert (Hof : forall q, keeps (stays p node) (GeofileType.of_path q)).
  { intros q. unfold GeofileType.of_path. cbv zeta.
    repeat (destruct (String.eqb _ _); [apply keeps_ret |]). apply keeps_raise. }
  apply keeps_bind; [apply Hof | intros g1].
  apply keeps_bind.
  { destruct input2_path; [| apply keeps_ret].
    apply keeps_bind; [apply Hof | intros; apply keeps_ret]. }
  intros g2. apply keeps_bind.
  { destruct (_ && _); [apply keeps_ret |]. cbv zeta.
    apply keeps_bind; [| intros; apply keeps_ret].
    apply stays_convert, not_written_below. }
  intros r1. apply keeps_bind; [| intros; apply keeps_ret].
  destruct input2_path as [p2|], g2 as [g2|]; try apply keeps_ret.
  destruct (_ && _); [apply keeps_ret |]. cbv zeta.
  apply keeps_bind.
  { destruct input2_layer; [apply keeps_ret | apply keeps_reads, reads_get_only_layer]. }
  intros layer2. apply keeps_bind; [| intros; apply keeps_ret].
  apply stays_convert, not_written_below.
Qed.

Lemma stays_single_layer_merge
    (tmp_output_name operation_name : string) (batches : list (Z * JobInfo)) :
  (forall batch_id job, Py.dict_get batch_id batches = Some job ->
                        exists x, job_tmp_partial_output_path job = td ++ [x]) ->
  keeps (stays p node)
    (single_layer_merge worker as_completed (PathOps.join td tmp_output_name)
       operation_name batches).
Proof.
  intros Hjobs. unfold single_layer_merge.
  apply keeps_for_each_counting. intros nb_done batch_id _.
  destruct (Py.dict_get batch_id batches) as [job|] eqn:Hjob; [| apply keeps_ret].
  destruct (Hjobs _ _ Hjob) as [x Hx].
  apply keeps_bind.
  { apply keeps_try_except_wrap; [apply stays_future_result |].
    intros ex. apply keeps_bind; [apply stays_log | intros _; apply keeps_raise]. }
  intros _. apply keeps_bind; [apply keeps_reads, reads_exists | intros partial_exists].
  apply keeps_bind; [| intros _; apply stays_log].
  destruct partial_exists; [| apply stays_log].
  apply keeps_bind; [| intros _; apply stays_remove; rewrite Hx; apply not_written_below].
  apply stays_append_to, not_written_below.
Qed.

Lemma stays_two_layer_merge
    (tmp_output_name operation_name : string) (verbose : bool) (nb_parallel : Z)
    (batches : list (Z * (JobInfo * string))) :
  (forall batch_id job submitted,
     Py.dict_get batch_id batches = Some (job, submitted) ->
     exists x, job_tmp_partial_output_path job = td ++ [x]) ->
  keeps (stays p node)
    (two_layer_merge worker as_completed (PathOps.join td tmp_output_name)
       operation_name verbose nb_parallel batches).
Proof.
  intros Hjobs. unfold two_layer_merge.
  apply keeps_bind; [apply stays_log | intros _].
  apply keeps_for_each_counting. intros nb_done batch_id _.
  destruct (Py.dict_get batch_id batches) as [[job submitted]|] eqn:Hjob;
    [| apply keeps_ret].
  destruct (Hjobs _ _ _ Hjob) as [x Hx].
  apply keeps_bind; [| intros _; apply stays_log].
  apply keeps_try_except_wrap; [| intros ex; apply keeps_raise].
  apply keeps_bind; [apply stays_future_result | intros _].
  apply keeps_bind.
  { unfold exists_with_content.
    apply keeps_bind; [apply keeps_reads, reads_get_world | intros; apply keeps_ret]. }
  intros has_content. destruct has_content.
  - apply keeps_bind; [| intros _; apply stays_remove; rewrite Hx; apply not_written_below].
    apply stays_append_to, not_written_below.
  - destruct verbose; [apply stays_log | apply keeps_ret].
Qed.

End Stays.

(** An operation changes nothing but its output and its working
    directory.  Whatever is at a path that lies neither in the directory of
    the working directories nor at or below the output path (a layer read
    as input, say) is there unchanged when the operation has returned or
    raised, whatever the workers did.  The file helpers of [gfo] are those
    of the model: each writes to the one path it is given, so the side
    files of a shapefile are out of the picture. *)
Theorem operation_changes_only_its_output_and_its_working_directory
    (upper : string -> string) (worker : Z -> string -> WorkerResult)
    (as_completed : list Z -> list Z) (c : Call) (w : World)
    (p : Path) (node : Node) :
  fs w !! p = Some node ->
  ¬ temp_area `prefix_of` p ->
  ¬ Call.output_path c `prefix_of` p ->
  fs (snd (Call.run upper worker as_completed c w)) !! p = Some node.
Proof.
  intros Hp Htemp Hout.
  destruct (Call.run upper worker as_completed c w) as [o w'] eqn:Hrun. simpl.
  revert w o w' Hp Hrun.
  change (keeps (stays p node) (Call.run upper worker as_completed c)).
  assert (Htd : forall base i, ¬ Gfo.tempdir_candidate base i `prefix_of` p).
  { intros base i H. by apply Htemp, (temp_area_of_candidate base i). }
  assert (Hout_p : Call.output_path c <> p) by (by intros <-).
  assert (Hin_p : forall x, PathOps.join (Call.output_path c) x <> p).
  { intros x <-. apply Hout. by apply prefix_app_r. }
  destruct c as [c|c].
  - destruct c as [input_path output_path sql_template operation_name input_layer
                     output_layer columns explodecollections force_output_geometrytype
                     filter_null_geoms nb_parallel batchsize verbose force].
    simpl in *. unfold _single_layer_vector_operation.
    apply keeps_bind; [apply keeps_reads, reads_exists | intros input_exists].
    destruct (negb input_exists); [apply keeps_raise |].
    apply keeps_bind.
    { destruct input_layer; [apply keeps_ret | apply keeps_reads, reads_get_only_layer]. }
    intros layer. cbv zeta.
    apply keeps_bind; [apply keeps_reads, reads_exists | intros output_exists].
    destruct (output_exists && negb force); [apply stays_log |].
    apply keeps_bind.
    { destruct output_exists; [| apply keeps_ret].
      apply stays_remove, Hout_p. }
    intros _. apply keeps_bind; [apply keeps_reads, reads_get_layerinfo | intros li].
    apply stays_create_tempdir. intros i.
    set (td := Gfo.tempdir_candidate (replace_spaces operation_name) i).
    assert (Hbelow : forall x, td ++ [x] <> p) by (intros x; apply not_written_below, Htd).
    apply keeps_try_finally.
    2:{ apply keeps_bind; [apply stays_rmtree, Htd | intros _; apply stays_log]. }
    apply keeps_bind; [apply stays_plan, Htd | intros [pp|]]; [| apply keeps_ret].
    apply keeps_bind.
    { intros w1 o1 w2 HI Hrun. by injection Hrun as <- <-. }
    intros fcs. cbv zeta. apply keeps_bind.
    { unfold process_pool_executor.
      destruct (_ <=? 0); [apply keeps_raise | apply keeps_ret]. }
    intros _. apply keeps_bind.
    { apply keeps_for_each. intros [batch_id batch] _.
      destruct (Py.dict_get batch_id _) as [job|] eqn:Hjob; [| apply keeps_ret].
      apply single_layer_jobs_paths in Hjob as [x Hx]. rewrite Hx.
      apply stays_submit, Hbelow. }
    intros _. apply keeps_bind.
    { apply stays_single_layer_merge; [apply Htd |]. intros batch_id job.
      apply single_layer_jobs_paths. }
    intros _. apply keeps_bind; [apply keeps_reads, reads_exists | intros tmp_output_exists].
    destruct tmp_output_exists; [| apply stays_log].
    apply keeps_bind; [apply stays_create_spatial_index, Hbelow | intros _].
    apply keeps_bind; [apply stays_mkdir_parents | intros _].
    apply stays_move; [apply Hbelow | exact Hout_p | apply Hin_p].
  - destruct c as [input1_path input2_path output_path sql_template operation_name
                     input1_layer input1_columns input1_columns_prefix
                     input2_layer input2_columns input2_columns_prefix
                     output_layer explodecollections force_output_geometrytype
                     output_with_spatial_index use_ogr nb_parallel batchsize
                     verbose force].
    simpl in *. unfold _two_layer_vector_operation.
    apply keeps_bind; [apply keeps_reads, reads_exists | intros input1_exists].
    destruct (negb input1_exists); [apply keeps_raise |].
    apply keeps_bind; [apply keeps_reads, reads_exists | intros input2_exists].
    destruct (negb input2_exists); [apply keeps_raise |].
    destruct (use_ogr && _); [apply keeps_raise |].
    apply keeps_bind; [apply keeps_reads, reads_exists | intros output_exists].
    destruct (output_exists && negb force); [apply stays_log |].
    apply keeps_bind.
    { destruct output_exists; [| apply keeps_ret].
      apply stays_remove, Hout_p. }
    intros _. apply keeps_bind.
    { intros w1 o1 w2 HG Hrun. unfold Gfo.check_runtimedependencies in Hrun.
      destruct (spatialite_available w1); by injection Hrun as <- <-. }
    intros _. apply keeps_bind.
    { destruct input1_layer; [apply keeps_ret | apply keeps_reads, reads_get_only_layer]. }
    intros layer1. apply keeps_bind.
    { destruct input2_layer; [apply keeps_ret | apply keeps_reads, reads_get_only_layer]. }
    intros layer2. cbv zeta.
    apply stays_create_tempdir. intros i.
    set (td := Gfo.tempdir_candidate operation_name i).
    assert (Hbelow : forall x, td ++ [x] <> p) by (intros x; apply not_written_below, Htd).
    apply keeps_bind; [apply keeps_reads, reads_get_layerinfo | intros _].
    apply keeps_bind; [apply keeps_reads, reads_get_layerinfo | intros _].
    apply keeps_bind; [apply stays_mkdir_parents | intros _].
    apply keeps_bind; [apply stays_remove, Hbelow | intros _].
    apply keeps_bind.
    2:{ intros returned. destruct returned; [apply keeps_ret | apply stays_rmtree, Htd]. }
    apply keeps_try_except_reraise.
    2:{ apply keeps_bind; [apply stays_remove, Hout_p | intros _].
        apply stays_remove, Hbelow. }
    apply keeps_bind; [apply stays_log | intros _].
    apply keeps_bind; [apply stays_plan, Htd | intros [pp|]]; [| apply keeps_ret].
    apply keeps_bind; [apply keeps_reads, reads_get_layerinfo | intros li1].
    apply keeps_bind.
    { intros w1 o1 w2 HI Hrun. by injection Hrun as <- <-. }
    intros cs1. apply keeps_bind.
    { destruct (ProcessingParams.input2_path pp), (ProcessingParams.input2_layer pp);
        try apply keeps_raise. apply keeps_reads, reads_get_layerinfo. }
    intros li2. apply keeps_bind.
    { intros w1 o1 w2 HI Hrun. by injection Hrun as <- <-. }
    intros cs2. apply keeps_bind.
    { destruct (negb _); [apply stays_log | apply keeps_ret]. }
    intros _. apply keeps_bind; [apply stays_log | intros _].
    apply keeps_bind.
    { unfold process_pool_executor.
      destruct (_ <=? 0); [apply keeps_raise | apply keeps_ret]. }
    intros _. apply keeps_bind.
    { apply keeps_for_each. intros [batch_id batch] _.
      destruct (Py.dict_get batch_id _) as [[job submitted]|] eqn:Hjob;
        [| apply keeps_ret].
      apply two_layer_jobs_paths in Hjob as [x Hx]. rewrite Hx.
      apply stays_submit, Hbelow. }
    intros _. apply keeps_bind.
    { apply stays_two_layer_merge; [apply Htd |]. intros batch_id job submitted.
      apply two_layer_jobs_paths. }
    intros _. apply keeps_bind; [apply keeps_reads, reads_exists | intros tmp_output_exists].
    apply keeps_bind;
      [| intros _; apply keeps_bind; [apply stays_log | intros _; apply keeps_ret]].
    destruct tmp_output_exists; [| apply stays_log].
    apply keeps_bind.
    { destruct output_with_spatial_index;
        [apply stays_create_spatial_index, Hbelow | apply keeps_ret]. }
    intros _. destruct (negb _); [| apply keeps_ret].
    apply keeps_bind; [apply stays_mkdir_parents | intros _].
    apply stays_move; [apply Hbelow | exact Hout_p | apply Hin_p].
Qed.

Lemma operation_changes_only_its_output_and_its_working_directory_witness :
  fs (snd (Fixture.intersect Fixture.worker_ok
             (Fixture.world (Fixture.consecutive 100) 8)))
    !! Fixture.parcels_path
  = Some (File [Fixture.layer_of "parcels" (Fixture.consecutive 100)]).
Proof.
  apply (operation_changes_only_its_output_and_its_working_directory Py.upper
           Fixture.worker_ok Fixture.in_submission_order
           (Fixture.two_layer_call Fixture.parcels_path 2 (-1) false)
           (Fixture.world (Fixture.consecutive 100) 8)).
  - vm_compute. reflexivity.
  - intros [k Hk]. discriminate Hk.
  - intros [k Hk]. discriminate Hk.
Defined.
